(** * Screen-state extraction pipeline: detector, inspector and analyzer

    A shallow embedding of [backend/detector.py], [backend/capture.py],
    [backend/ui_inspector.py] and [backend/analyzer.py], and the properties
    of the tab-extraction fallback chain, of the coordinate remapping and of
    the window analysis results.

    Conventions of the embedding.
    - Python [int] is [Z]; Python [float] (confidences, time stamps, raw
      EasyOCR coordinates) is [Q]: every finite float is a rational and the
      comparisons of the source agree with those of [Q] on finite floats.
      The quotient [conf / 100.0] of a Tesseract confidence is computed
      with the binary64 division of the Standard Library and its result
      taken as the rational it denotes; the aspect ratio [w / h] of a visual
      region is kept as the exact quotient.
    - Python [str] is [string]; one character of the model is one code point
      of the Latin-1 range, which holds every character of the literals of
      the source (the multiplication sign of the stop list is code 215).
    - A call that the source wraps in [try/except] is an [option] (or a sum)
      supplied by the environment: [None] is the raising call.
    - Calls to the collaborators (window registry, pixel source, recognition
      engines, accessibility engine) are recorded in a trace. *)

From Stdlib Require Import ZArith QArith String Ascii List Lia Permutation Sorted.
From Stdlib Require SpecFloat.
From stdpp Require Import base list strings gmap.

Open Scope Z_scope.

(** ** Python primitives *)

Module Py.

(** [str.lower] on Latin-1: A-Z and the accented capitals 192..222 other
    than 215 move up by 32. *)
Definition lower_char (c : ascii) : ascii :=
  let n := N_of_ascii c in
  if ((65 <=? n) && (n <=? 90))%N then ascii_of_N (n + 32)
  else if ((192 <=? n) && (n <=? 222) && negb (n =? 215))%N
       then ascii_of_N (n + 32)
       else c.

Fixpoint lower (s : string) : string :=
  match s with
  | EmptyString => EmptyString
  | String c s' => String (lower_char c) (lower s')
  end.

(** [s.startswith(p)] *)
Fixpoint startswith (s p : string) : bool :=
  match p, s with
  | EmptyString, _ => true
  | String _ _, EmptyString => false
  | String a p', String b s' => if Ascii.eqb a b then startswith s' p' else false
  end.

(** [p in s] on strings: [p] occurs in [s] at some offset. *)
Fixpoint contains (s p : string) : bool :=
  startswith s p ||
  match s with
  | EmptyString => false
  | String _ s' => contains s' p
  end.

(** [str.isspace] on one Latin-1 character. *)
Definition is_space (c : ascii) : bool :=
  let n := N_of_ascii c in
  (((9 <=? n) && (n <=? 13)) || ((28 <=? n) && (n <=? 32))
   || (n =? 133) || (n =? 160))%N.

Fixpoint lstrip (s : string) : string :=
  match s with
  | EmptyString => EmptyString
  | String c s' => if is_space c then lstrip s' else s
  end.

(** [rstrip]: a character is kept when it is not a space or when the
    stripped rest is not empty. *)
Fixpoint rstrip (s : string) : string :=
  match s with
  | EmptyString => EmptyString
  | String c s' =>
      match rstrip s' with
      | EmptyString => if is_space c then EmptyString else String c EmptyString
      | r => String c r
      end
  end.

(** [s.strip()] *)
Definition strip (s : string) : string := rstrip (lstrip s).

(** [len(s)] *)
Definition len (s : string) : Z := Z.of_nat (String.length s).

(** Truthiness of a string. *)
Definition truthy (s : string) : bool :=
  match s with EmptyString => false | _ => true end.

(** [sep.join(l)] *)
Definition join (sep : string) (l : list string) : string := String.concat sep l.

(** [x in l] for a list of strings. *)
Definition mem (x : string) (l : list string) : bool :=
  existsb (String.eqb x) l.

(** [l[:n]] *)
Definition slice_to {A} (n : nat) (l : list A) : list A := take n l.

(** [int(q)] on a float: truncation toward zero. *)
Definition int_of_float (q : Q) : Z := Z.quot (Qnum q) (Zpos (Qden q)).

(** [min(l)] and [max(l)]: the first extremal element; they raise on an
    empty list. *)
Definition min_list (l : list Q) : option Q :=
  match l with
  | [] => None
  | x :: l' => Some (fold_left (fun m y => if Qle_bool m y then m else y) l' x)
  end.

Definition max_list (l : list Q) : option Q :=
  match l with
  | [] => None
  | x :: l' => Some (fold_left (fun m y => if Qle_bool y m then m else y) l' x)
  end.

(** [list.sort(key=...)] with integer keys.  The sort of the source is
    stable, and a stable sort has one possible result, so the insertion
    sort below returns the list the source computes: an element goes in
    front of the elements of the sorted rest whose key is not smaller,
    which all came after it in the input. *)
Section Sort.
Context {A : Type} (key : A -> Z).

Fixpoint insert_by (x : A) (l : list A) : list A :=
  match l with
  | [] => [x]
  | y :: l' => if key x <=? key y then x :: y :: l' else y :: insert_by x l'
  end.

Definition sort_by (l : list A) : list A :=
  fold_right (fun x acc => insert_by x acc) [] l.

(** The order of the keys. *)
Definition key_le (a b : A) : Prop := key a <= key b.
End Sort.

End Py.

(** ** Data model *)

(** A bounding box [[x1, y1, x2, y2]]. *)
Record BBox := mkBBox { bx1 : Z; by1 : Z; bx2 : Z; by2 : Z }.

Inductive Engine := easyocr | tesseract.

(** One detection dictionary: [{'text', 'bbox', 'confidence', 'engine'}]. *)
Record Detection := mkDet {
  d_text : string;
  d_bbox : BBox;
  d_confidence : Q;
  d_engine : Engine
}.

(** One result of [easyocr.Reader.readtext]: the corner points, the text and
    the confidence. *)
Record EasyResult := mkEasy {
  e_points : list (Q * Q);
  e_text : string;
  e_conf : Q
}.

(** The column dictionary of [pytesseract.image_to_data]. *)
Record TessData := mkTess {
  t_text : list string;
  t_conf : list Z;
  t_left : list Z;
  t_top : list Z;
  t_width : list Z;
  t_height : list Z
}.

(** A window rectangle [(left, top, right, bottom)]. *)
Definition Rect : Type := Z * Z * Z * Z.

(** What the operating system answers about one handle.  [None] in a field
    is the call that raises. *)
Record OSWindow := mkOSWindow {
  w_title : string;
  w_visible : bool;
  w_enabled : bool;
  w_rect : option Rect;
  w_class : option string;
  w_pid : Z;
  w_process : option (string * string)
}.

(** The dictionary of [UIInspector.get_window_info]. *)
Record WindowInfo := mkInfo {
  i_hwnd : Z;
  i_title : string;
  i_class : string;
  i_bbox : Rect;
  i_pid : Z;
  i_process_name : string;
  i_exe_path : string;
  i_visible : bool;
  i_enabled : bool
}.

(** The dictionary of one window in [ScreenCapture.get_all_windows]. *)
Record CatalogEntry := mkEntry {
  c_hwnd : Z;
  c_title : string;
  c_bbox : Rect;
  c_class : string
}.

(** An attribute read on an automation element: the attribute may be
    missing, its read may raise, or it has a value. *)
Inductive Attr (A : Type) := AttrMissing | AttrRaises | AttrVal (a : A).
Arguments AttrMissing {A}.
Arguments AttrRaises {A}.
Arguments AttrVal {A} a.

(** A node of the accessibility tree.  [el_info = None]: reading
    [element_info] raises; its two components are the reads of [name] and
    of [control_type], whose value may be Python's [None];
    [el_children = None]: [children()] raises. *)
#[warnings="-register-all"]
Inductive Element := mkElement {
  el_info : option (Attr (option string) * Attr (option string));
  el_rect : option Rect;
  el_enabled : Attr bool;
  el_visible : Attr bool;
  el_children : option (list Element)
}.

(** One entry of [UIInspector.get_ui_tree]. *)
Record UIElement := mkUI {
  u_name : option string;
  u_type : option string;
  u_bbox : list Z;
  u_depth : Z;
  u_enabled : bool;
  u_visible : bool
}.

(** A call returns or lets an exception out. *)
Inductive Outcome (A : Type) :=
| Returned (a : A)
| Raised (exc : string).
Arguments Returned {A} a.
Arguments Raised {A} exc.

(** Addresses of detection dictionaries, and the store that holds them. *)
Abbreviation loc := nat (only parsing).
Abbreviation Store := (list Detection) (only parsing).

(** ** Doubles

    A double is a [spec_float] of precision 53 and maximal exponent 1024;
    the operations round to nearest, ties to even. *)

(** [float(n)] for an integer: [None] is the [OverflowError] of an integer
    too large for a double. *)
Definition float_of_int (n : Z) : option SpecFloat.spec_float :=
  match SpecFloat.binary_normalize 53 1024 n 0 false with
  | SpecFloat.S754_zero s => Some (SpecFloat.S754_zero s)
  | SpecFloat.S754_finite s m e => Some (SpecFloat.S754_finite s m e)
  | _ => None
  end.

(** The rational that a finite double denotes. *)
Definition float_value (f : SpecFloat.spec_float) : option Q :=
  match f with
  | SpecFloat.S754_zero _ => Some 0%Q
  | SpecFloat.S754_finite s m e =>
      let n := if s then Zneg m else Zpos m in
      Some (if 0 <=? e then inject_Z (n * 2 ^ e)
            else Qmake n (Pos.pow 2 (Z.to_pos (- e))))
  | _ => None
  end.

(** The double [100.0]. *)
Definition hundred : SpecFloat.spec_float :=
  SpecFloat.binary_normalize 53 1024 100 0 false.

(** [conf / 100.0] for an integer [conf]: the integer is converted to a
    double and divided by [100.0].  [None] when the conversion raises; the
    quotient of a finite double by [100.0] is finite. *)
Definition tess_confidence (conf : Z) : option Q :=
  x ← float_of_int conf;
  float_value (SpecFloat.SFdiv 53 1024 x hundred).

(** ** Environment, trace and effects *)

Section Model.

Context {Image : Type}.

(** The collaborators of one analyzer instance.  The configuration fields
    are fixed when the instance is built ([ContentDetector.__init__],
    [UIInspector.__init__]); the other fields are the answers of the
    collaborators at the time of the call.  No method of the four classes
    assigns to an attribute of its instance after [__init__], so a call
    leaves nothing behind for the next one: a call is a function of the
    environment and of its arguments.

    - [easyocr_reader]: [None] when no reader was built; the reader maps an
      image to the results of [readtext], [None] when that call raises.
    - [image_to_data], [crop], [grab], [uia_window]: [None] is the call that
      raises; [save] is [false] when it raises.
    - [enum_windows]: the handles in the order of [EnumWindows];
      [os_window]: what the registry answers about a handle; [os_error]:
      the text of the exception of a failing query.
    - [desktop]: [self.desktop] is not [None]. *)
Record Env := mkEnv {
  (* ContentDetector *)
  ocr_engine : string;
  easyocr_reader : option (Image -> option (list EasyResult));
  TESSERACT_AVAILABLE : bool;
  image_to_data : Image -> option TessData;
  (* PIL images *)
  crop : Image -> Rect -> option Image;
  size : Image -> Z * Z;
  save : Image -> string -> bool;
  (* win32gui, win32process, psutil *)
  enum_windows : list Z;
  os_window : Z -> OSWindow;
  os_error : Z -> string;
  (* mss *)
  grab : Z * Z * Z * Z -> option Image;
  (* pywinauto *)
  PYWINAUTO_AVAILABLE : bool;
  desktop : bool;
  uia_window : Z -> option Element
}.

(** The calls to the collaborators.  [EvWindowQuery] stands for the
    queries of [get_window_info] on one handle, [EvWindowRect] for a
    [GetWindowRect] outside of it.  Console output is not recorded. *)
Inductive Event :=
| EvEnumWindows
| EvWindowRect (hwnd : Z)
| EvWindowQuery (hwnd : Z)
| EvGrab (monitor : Z * Z * Z * Z)
| EvReadtext (img : Image)
| EvImageToData (img : Image)
| EvCrop (img : Image) (box : Rect)
| EvSave (img : Image) (name : string)
| EvUIAWindow (hwnd : Z).

(** A computation returns its value with the calls it made, in order. *)
Definition M (A : Type) : Type := list Event * A.

Definition m_ret {A} (a : A) : M A := ([], a).

Definition m_bind {A B} (f : A -> M B) (m : M A) : M B :=
  let (t1, a) := m in let (t2, b) := f a in (t1 ++ t2, b).

Definition tell (e : Event) : M unit := ([e], tt).

#[global] Instance M_ret : MRet M := @m_ret.
#[global] Instance M_bind : MBind M := @m_bind.

Definition trace {A} (m : M A) : list Event := fst m.
Definition value {A} (m : M A) : A := snd m.

(** ** Content detector ([detector.py]) *)

(** The dictionary built for one EasyOCR result; [None] when [min] or
    [max] raises. *)
Definition easy_detection (r : EasyResult) : option Detection :=
  let x_coords := map fst (e_points r) in
  let y_coords := map snd (e_points r) in
  x1 ← Py.min_list x_coords;
  y1 ← Py.min_list y_coords;
  x2 ← Py.max_list x_coords;
  y2 ← Py.max_list y_coords;
  Some (mkDet (e_text r)
          (mkBBox (Py.int_of_float x1) (Py.int_of_float y1)
                  (Py.int_of_float x2) (Py.int_of_float y2))
          (e_conf r) easyocr).

(** [ContentDetector.detect_text_easyocr], lines 67 to 97.  An exception
    anywhere in the [try] block gives the empty list. *)
Definition detect_text_easyocr (env : Env) (image : Image) : M (list Detection) :=
  match easyocr_reader env with
  | None => mret []
  | Some readtext =>
      _ ← tell (EvReadtext image);
      match readtext image with
      | None => mret []
      | Some results => mret (default [] (mapM easy_detection results))
      end
  end.

(** One turn of the loop over the rows of Tesseract: [None] when an index
    is out of range or the quotient raises, [Some None] when the row is
    skipped. *)
Definition tess_row (data : TessData) (i : nat) : option (option Detection) :=
  raw ← t_text data !! i;
  conf ← t_conf data !! i;
  let text := Py.strip raw in
  if Py.truthy text && (0 <? conf) then
    x ← t_left data !! i;
    y ← t_top data !! i;
    w ← t_width data !! i;
    h ← t_height data !! i;
    confidence ← tess_confidence conf;
    Some (Some (mkDet text (mkBBox x y (x + w) (y + h)) confidence tesseract))
  else Some None.

(** [ContentDetector.detect_text_tesseract], lines 99 to 126. *)
Definition detect_text_tesseract (env : Env) (image : Image) : M (list Detection) :=
  if negb (TESSERACT_AVAILABLE env) then mret []
  else
    _ ← tell (EvImageToData image);
    match image_to_data env image with
    | None => mret []
    | Some data =>
        let n_boxes := length (t_text data) in
        mret (default [] (omap id <$> mapM (tess_row data) (seq 0 n_boxes)))
    end.

(** [ContentDetector.detect_text], lines 128 to 135. *)
Definition detect_text (env : Env) (image : Image) : M (list Detection) :=
  if String.eqb (ocr_engine env) "easyocr"
     || (String.eqb (ocr_engine env) "both" && bool_decide (is_Some (easyocr_reader env)))
  then detect_text_easyocr env image
  else if String.eqb (ocr_engine env) "tesseract" || String.eqb (ocr_engine env) "both"
  then detect_text_tesseract env image
  else mret [].

(** *** Detections as objects

    [detect_text_in_region] updates the dictionaries it got from
    [detect_text] in place, so here the dictionaries are objects of a store,
    addressed by their allocation index; a list of detections is a list of
    addresses, and one dictionary listed twice would be updated twice.  The
    list under the key [bbox] is built with its dictionary and no other
    dictionary holds it, so a dictionary and its box are one object. *)

(** A dictionary display: the new object gets the next address. *)
Definition alloc (d : Detection) (σ : Store) : loc * Store :=
  (length σ, σ ++ [d]).

(** Every dictionary of the result of an engine is built by a dictionary
    display inside the loop of the engine: a new object each time. *)
Fixpoint alloc_all (ds : list Detection) (σ : Store) : list loc * Store :=
  match ds with
  | [] => ([], σ)
  | d :: ds' =>
      let (l, σ1) := alloc d σ in
      let (ls, σ2) := alloc_all ds' σ1 in
      (l :: ls, σ2)
  end.

Definition detect_text_objects (env : Env) (image : Image) (σ : Store)
  : M (list loc * Store) :=
  ds ← detect_text env image;
  mret (alloc_all ds σ).

(** The four [+=] of the loop body on one dictionary. *)
Definition adjust (x1 y1 : Z) (det : Detection) : Detection :=
  let b := d_bbox det in
  mkDet (d_text det)
        (mkBBox (bx1 b + x1) (by1 b + y1) (bx2 b + x1) (by2 b + y1))
        (d_confidence det) (d_engine det).

Definition adjust_all (x1 y1 : Z) (detections : list loc) (σ : Store) : Store :=
  fold_left (fun σ det => alter (adjust x1 y1) det σ) detections σ.

(** [ContentDetector.detect_text_in_region], lines 137 to 151.  [None]:
    [image.crop] raised, and the exception leaves the method. *)
Definition detect_text_in_region (env : Env) (image : Image) (bbox : Rect)
    (σ : Store) : M (option (list loc * Store)) :=
  let '(x1, y1, x2, y2) := bbox in
  _ ← tell (EvCrop image (x1, y1, x2, y2));
  match crop env image (x1, y1, x2, y2) with
  | None => mret None
  | Some region =>
      r ← detect_text_objects env region σ;
      let (detections, σ1) := r : list loc * Store in
      mret (Some (detections, adjust_all x1 y1 detections σ1))
  end.

(** *** Visible text *)

Definition default_confidence_threshold : Q := Qmake 1 2.

Definition top_of (d : Detection) : Z := by1 (d_bbox d).
Definition left_of (d : Detection) : Z := bx1 (d_bbox d).

Definition confident (confidence_threshold : Q) (d : Detection) : bool :=
  Qle_bool confidence_threshold (d_confidence d).

(** [ContentDetector.extract_visible_text], lines 203 to 214. *)
Definition extract_visible_text (env : Env) (image : Image)
    (confidence_threshold : Q) : M string :=
  detections ← detect_text env image;
  let filtered := List.filter (confident confidence_threshold) detections in
  let filtered := Py.sort_by top_of filtered in
  mret (Py.join " " (map d_text filtered)).

(** ** Window catalog and pixel source ([capture.py]) *)

(** The callback of [get_all_windows] on one handle: the entry it appends,
    if any. *)
Definition catalog_entry (env : Env) (hwnd : Z) : option CatalogEntry :=
  let w := os_window env hwnd in
  if w_visible w then
    if Py.truthy (w_title w) then
      rect ← w_rect w;
      cls ← w_class w;
      Some (mkEntry hwnd (w_title w) rect cls)
    else None
  else None.

(** [ScreenCapture.get_all_windows], lines 20 to 41. *)
Definition get_all_windows (env : Env) : M (list CatalogEntry) :=
  _ ← tell EvEnumWindows;
  mret (omap (catalog_entry env) (enum_windows env)).

(** The test of the callback of [find_window]; [title_substring] is
    already in lower case. *)
Definition title_matches (env : Env) (title_substring : string) (hwnd : Z) : bool :=
  let w := os_window env hwnd in
  w_visible w && Py.contains (Py.lower (w_title w)) title_substring.

(** [ScreenCapture.find_window], lines 43 to 56. *)
Definition find_window (env : Env) (title_substring : string) : M (option Z) :=
  let title_substring := Py.lower title_substring in
  _ ← tell EvEnumWindows;
  let results := List.filter (title_matches env title_substring) (enum_windows env) in
  mret (head results).

(** [ScreenCapture.capture_window], lines 58 to 79. *)
Definition capture_window (env : Env) (hwnd : Z) : M (option Image) :=
  _ ← tell (EvWindowRect hwnd);
  match w_rect (os_window env hwnd) with
  | None => mret None
  | Some (left_, top_, right_, bottom_) =>
      let width := right_ - left_ in
      let height := bottom_ - top_ in
      if (width <=? 0) || (height <=? 0) then mret None
      else
        _ ← tell (EvGrab (left_, top_, width, height));
        mret (grab env (left_, top_, width, height))
  end.

(** ** Accessibility inspector ([ui_inspector.py]) *)

(** [UIInspector.get_window_info], lines 35 to 64.  [inl]: one of the
    [win32gui] calls raised, the dictionary is [{'error': str(e)}]. *)
Definition get_window_info (env : Env) (hwnd : Z) : M (string + WindowInfo) :=
  _ ← tell (EvWindowQuery hwnd);
  let w := os_window env hwnd in
  match w_class w, w_rect w with
  | Some class_name, Some rect =>
      let (process_name, exe_path) := default ("Unknown", "Unknown") (w_process w) in
      mret (inr (mkInfo hwnd (w_title w) class_name rect (w_pid w)
                   process_name exe_path (w_visible w) (w_enabled w)))
  | _, _ => mret (inl (os_error env hwnd))
  end.

(** [x.a if hasattr(x, 'a') else d]: [None] when the read raises. *)
Definition attr_or {A} (a : Attr A) (d : A) : option A :=
  match a with
  | AttrMissing => Some d
  | AttrRaises => None
  | AttrVal v => Some v
  end.

(** [x.a]: [None] when the read raises, also for a missing attribute. *)
Definition attr_get {A} (a : Attr A) : option A :=
  match a with
  | AttrVal v => Some v
  | _ => None
  end.

Definition truthy_name (name : option string) : bool :=
  match name with
  | Some s => Py.truthy s
  | None => false
  end.

Definition is_unknown (control_type : option string) : bool :=
  match control_type with
  | Some s => String.eqb s "Unknown"
  | None => false
  end.

(** The dictionary appended for one node by [traverse]; [None] when
    [is_enabled()] or [is_visible()] raises. *)
Definition ui_entry (element : Element) (name control_type : option string)
    (depth : Z) : option UIElement :=
  let bbox := match el_rect element with
              | Some (l, t, r, b) => [l; t; r; b]
              | None => [0; 0; 0; 0]
              end in
  enabled ← attr_or (el_enabled element) true;
  visible ← attr_or (el_visible element) true;
  Some (mkUI name control_type bbox depth enabled visible).

(** The closure [traverse] of [get_ui_tree]; [elements] is the list it
    appends to. *)
Fixpoint traverse (max_depth : Z) (element : Element) (depth : Z)
    (elements : list UIElement) : list UIElement :=
  if max_depth <? depth then elements
  else
    match element with
    | mkElement info _ _ _ children =>
        match info with
        | None => elements
        | Some (name_attr, type_attr) =>
            match attr_or name_attr (Some ""), attr_or type_attr (Some "Unknown") with
            | Some name, Some control_type =>
                let appended :=
                  if truthy_name name || negb (is_unknown control_type)
                  then e ← ui_entry element name control_type depth;
                       Some (elements ++ [e])
                  else Some elements in
                match appended with
                | None => elements
                | Some elements' =>
                    match children with
                    | None => elements'
                    | Some cs =>
                        fold_left
                          (fun acc child => traverse max_depth child (depth + 1) acc)
                          cs elements'
                    end
                end
            | _, _ => elements
            end
        end
    end.

(** [UIInspector.get_ui_tree], lines 66 to 120. *)
Definition get_ui_tree (env : Env) (hwnd : Z) (max_depth : Z) : M (list UIElement) :=
  if negb (PYWINAUTO_AVAILABLE env) || negb (desktop env) then mret []
  else
    _ ← tell (EvUIAWindow hwnd);
    match uia_window env hwnd with
    | None => mret []
    | Some window => mret (traverse max_depth window 0 [])
    end.

(** The test of [search_tabs] on one node. *)
Definition is_tab (control_type : string) (name : option string)
    (tabs : list string) : option string :=
  match name with
  | Some name =>
      if Py.contains control_type "tabitem" && Py.truthy name
         && negb (Py.mem name tabs)
         && (3 <? Py.len name)
         && negb (Py.startswith name "Active View")
         && negb (Py.startswith name "Tab content")
      then Some name else None
  | None => None
  end.

(** The closure [search_tabs] of [get_browser_tabs]; [tabs] is the list
    it appends to. *)
Fixpoint search_tabs (element : Element) (depth : Z) (tabs : list string)
    : list string :=
  if 10 <? depth then tabs
  else
    match element with
    | mkElement info _ _ _ children =>
        match info with
        | None => tabs
        | Some (name_attr, type_attr) =>
            match attr_get type_attr, attr_get name_attr with
            | Some (Some control_type), Some name =>
                let control_type := Py.lower control_type in
                let tabs' := match is_tab control_type name tabs with
                             | Some name => tabs ++ [name]
                             | None => tabs
                             end in
                match children with
                | None => tabs'
                | Some cs =>
                    fold_left (fun acc child => search_tabs child (depth + 1) acc)
                              cs tabs'
                end
            | _, _ => tabs
            end
        end
    end.

(** The flag of line 231. *)
Definition USE_OCR : list string := ["__USE_OCR__"].

(** Method 1 of [get_browser_tabs]: the tabs found in the accessibility
    tree, the empty list when the tree cannot be searched. *)
Definition uia_tabs (env : Env) (hwnd : Z) : M (list string) :=
  if PYWINAUTO_AVAILABLE env && desktop env then
    _ ← tell (EvUIAWindow hwnd);
    match uia_window env hwnd with
    | None => mret []
    | Some window => mret (search_tabs window 0 [])
    end
  else mret [].

(** [UIInspector.get_browser_tabs], lines 175 to 236. *)
Definition get_browser_tabs (env : Env) (hwnd : Z) (screenshot : option Image)
    : M (list string) :=
  tabs ← uia_tabs env hwnd;
  match screenshot with
  | Some shot =>
      if (length tabs =? 0)%nat then
        _ ← tell (EvWindowRect hwnd);
        match w_rect (os_window env hwnd) with
        | None => mret tabs
        | Some (left_, _, right_, _) =>
            let width := right_ - left_ in
            _ ← tell (EvCrop shot (0, 0, width, 80));
            match crop env shot (0, 0, width, 80) with
            | None => mret tabs
            | Some tab_region => mret USE_OCR
            end
        end
      else mret tabs
  | None => mret tabs
  end.

(** ** Screen analyzer ([analyzer.py]) *)

(** The stop list of Stage B; its first entry is the multiplication sign. *)
Definition stop_list : list string :=
  [String "215"%char EmptyString; "+"; "..."; "New Tab"; "Google"; "Chrome"].

(** The condition of the [if] of the first loop. *)
Definition stage_b_accepts (text : string) (x_pos last_x : Z) : bool :=
  Py.truthy text
  && ((2 <? Py.len text) && (Py.len text <? 60))
  && (30 <? x_pos - last_x)
  && negb (Py.mem text stop_list)
  && negb (Py.startswith text "http")
  && negb (Py.startswith text "www").

(** One turn of the first loop on the state [(tabs, last_x)]. *)
Definition stage_b_step (st : list string * Z) (det : Detection) : list string * Z :=
  let (tabs, last_x) := st in
  let text := Py.strip (d_text det) in
  let x_pos := left_of det in
  if stage_b_accepts text x_pos last_x then (tabs ++ [text], x_pos)
  else (tabs, last_x).

(** Lines 53 to 72: [tabs = []], [last_x = -100] and the loop. *)
Definition stage_b_loop (detections : list Detection) : list string * Z :=
  fold_left stage_b_step detections ([], -100).

(** One turn of the second loop. *)
Definition stage_c_step (tabs : list string) (det : Detection) : list string :=
  let text := Py.strip (d_text det) in
  if Py.truthy text && ((2 <? Py.len text) && (Py.len text <? 60))
  then tabs ++ [text] else tabs.

(** [if debug: region.save(name)]; [false] when [save] raises. *)
Definition save_debug (env : Env) (debug : bool) (region : Image) (name : string)
    : M bool :=
  if debug then
    _ ← tell (EvSave region name);
    mret (save env region name)
  else mret true.

Definition stage_b_box (width : Z) : Rect := (50, 0, width - 200, 40).
Definition stage_c_box (width : Z) : Rect := (80, 5, width - 150, 35).

(** Lines 35 to 72 of [_extract_tabs_with_ocr]: the width of the window and
    the list [tabs] after the first loop; [None] when an exception sends
    the method to its [except] clause. *)
Definition stage_b (env : Env) (hwnd : Z) (screenshot : Image) (debug : bool)
    : M (option (Z * list string)) :=
  info ← get_window_info env hwnd;
  match info with
  | inl _ => mret None
  | inr wi =>
      let '(left_, _, right_, _) := i_bbox wi in
      let width := right_ - left_ in
      _ ← tell (EvCrop screenshot (stage_b_box width));
      match crop env screenshot (stage_b_box width) with
      | None => mret None
      | Some tab_region =>
          saved ← save_debug env debug tab_region "debug_tab_region.png";
          if saved : bool then
            detections ← detect_text env tab_region;
            let detections := Py.sort_by left_of detections in
            mret (Some (width, fst (stage_b_loop detections)))
          else mret None
      end
  end.

(** Lines 76 to 88: the body of [if len(tabs) == 0]. *)
Definition stage_c (env : Env) (screenshot : Image) (width : Z) (debug : bool)
    (tabs : list string) : M (option (list string)) :=
  _ ← tell (EvCrop screenshot (stage_c_box width));
  match crop env screenshot (stage_c_box width) with
  | None => mret None
  | Some tab_region =>
      saved ← save_debug env debug tab_region "debug_tab_region_alt.png";
      if saved : bool then
        detections ← detect_text env tab_region;
        let detections := Py.sort_by left_of detections in
        mret (Some (fold_left stage_c_step detections tabs))
      else mret None
  end.

(** [ScreenAnalyzer._extract_tabs_with_ocr], lines 32 to 93. *)
Definition _extract_tabs_with_ocr (env : Env) (hwnd : Z) (screenshot : Image)
    (debug : bool) : M (list string) :=
  b ← stage_b env hwnd screenshot debug;
  match b with
  | None => mret []
  | Some (width, tabs) =>
      if (length tabs =? 0)%nat then
        c ← stage_c env screenshot width debug tabs;
        match c with
        | None => mret []
        | Some tabs => mret (Py.slice_to 15 tabs)
        end
      else mret (Py.slice_to 15 tabs)
  end.

(** The values stored in the result dictionaries. *)
Inductive Value :=
| VStr (s : string)
| VFloat (q : Q)
| VInt (n : Z)
| VBool (b : bool)
| VStrs (l : list string)
| VRect (r : Rect)
| VImage (i : Image)
| VSize (wh : Z * Z)
| VDetections (l : list Detection)
| VInfo (i : string + WindowInfo)
| VElements (l : list UIElement).

(** [if not hwnd]: no handle, or the handle 0. *)
Definition falsy_hwnd (hwnd : option Z) : bool :=
  match hwnd with
  | Some h => h =? 0
  | None => true
  end.

Definition not_found_message (window_identifier : string) : string :=
  "Window '" +:+ window_identifier +:+ "' not found".

(** Lines 137 to 150 of [analyze_window].  The first component is the
    local variable [screenshot]: [None] while it is unbound. *)
Definition capture_step (env : Env) (hwnd : Z) (capture_screenshot detect_text_ : bool)
    (result : gmap string Value) : M (option (option Image) * gmap string Value) :=
  if capture_screenshot then
    screenshot ← capture_window env hwnd;
    match screenshot with
    | Some shot =>
        let result := <["screenshot" := VImage shot]> result in
        let result := <["screenshot_size" := VSize (size env shot)]> result in
        if detect_text_ then
          text_detections ← detect_text env shot;
          let result := <["text_detections" := VDetections text_detections]> result in
          let result :=
            <["extracted_text" := VStr (Py.join " " (map d_text text_detections))]> result in
          mret (Some (Some shot), result)
        else mret (Some (Some shot), result)
    | None =>
        mret (Some None, <["screenshot_error" := VStr "Failed to capture window"]> result)
    end
  else mret (None, result).

(** Lines 153 to 156. *)
Definition ui_tree_step (env : Env) (hwnd : Z) (get_ui_tree_ : bool)
    (result : gmap string Value) : M (gmap string Value) :=
  if get_ui_tree_ then
    ui_elements ← get_ui_tree env hwnd 5;
    let result := <["ui_elements" := VElements ui_elements]> result in
    mret (<["ui_element_count" := VInt (Z.of_nat (length ui_elements))]> result)
  else mret result.

(** Lines 165 to 168. *)
Definition with_tabs (tabs : list string) (result : gmap string Value)
    : gmap string Value :=
  match tabs with
  | [] => result
  | _ => <["browser_tabs" := VStrs tabs]> result
  end.

Definition is_use_ocr (tabs : list string) : bool :=
  bool_decide (tabs = USE_OCR).

(** [ScreenAnalyzer.analyze_window], lines 107 to 168.  [now] is the
    reading of [time.time()].  The method raises in one case only: without
    capture the variable [screenshot] is unbound when line 162 reads it. *)
Definition analyze_window (env : Env) (now : Q) (window_identifier : string)
    (capture_screenshot detect_text_ get_ui_tree_ : bool)
    : M (Outcome (gmap string Value)) :=
  hwnd ← find_window env window_identifier;
  if falsy_hwnd hwnd then
    all_windows ← get_all_windows env;
    mret (Returned
            (<["available_windows" := VStrs (map c_title all_windows)]>
               {["error" := VStr (not_found_message window_identifier)]}))
  else
    let hwnd := default 0 hwnd in
    window_info ← get_window_info env hwnd;
    let result : gmap string Value :=
      <["timestamp" := VFloat now]> {["window_info" := VInfo window_info]} in
    captured ← capture_step env hwnd capture_screenshot detect_text_ result;
    let (screenshot, result) := captured : option (option Image) * gmap string Value in
    result ← ui_tree_step env hwnd get_ui_tree_ result;
    tabs ← get_browser_tabs env hwnd
             (if capture_screenshot then mjoin screenshot else None);
    if is_use_ocr tabs then
      match screenshot with
      | None => mret (Raised "UnboundLocalError")
      | Some None => mret (Returned (with_tabs tabs result))
      | Some (Some shot) =>
          tabs ← _extract_tabs_with_ocr env hwnd shot true;
          mret (Returned (with_tabs tabs result))
      end
    else mret (Returned (with_tabs tabs result)).

(** [result.get(key, d)] *)
Definition dict_get (result : gmap string Value) (key : string) (d : Value) : Value :=
  default d (result !! key).

(** [ScreenAnalyzer.get_window_summary], lines 238 to 262.  The
    subscripts of lines 254 to 259 raise [KeyError] on the dictionary of a
    failed [get_window_info]. *)
Definition get_window_summary (env : Env) (now : Q) (window_identifier : string)
    : M (Outcome (gmap string Value)) :=
  r ← analyze_window env now window_identifier true true false;
  match r with
  | Raised exc => mret (Raised exc)
  | Returned result =>
      if bool_decide (is_Some (result !! "error")) then mret (Returned result)
      else
        match result !! "window_info" with
        | Some (VInfo (inr window_info)) =>
            mret (Returned
              (<["position" := VRect (i_bbox window_info)]>
              (<["is_active" := VBool (i_enabled window_info)]>
              (<["browser_tabs" := dict_get result "browser_tabs" (VStrs [])]>
              (<["visible_text" := dict_get result "extracted_text" (VStr "")]>
              (<["application" := VStr (i_process_name window_info)]>
              {["window_name" := VStr (i_title window_info)]}))))))
        | _ => mret (Raised "KeyError")
        end
  end.

(** ** Vocabulary of the properties *)

(** An environment without EasyOCR reader whose Tesseract reads one word. *)
Definition one_word : TessData :=
  mkTess ["tab"] [90] [10] [5] [30] [12].

Definition tesseract_only_env (e : Env) : Env :=
  mkEnv "both" None true (fun _ => Some one_word)
        (crop e) (size e) (save e) (enum_windows e) (os_window e) (os_error e)
        (grab e) (PYWINAUTO_AVAILABLE e) (desktop e) (uia_window e).

(** The first loop again, keeping the accepted detections themselves
    instead of their texts. *)
Definition stage_b_accepted_step (st : list Detection * Z) (det : Detection)
    : list Detection * Z :=
  let (accepted, last_x) := st in
  let text := Py.strip (d_text det) in
  let x_pos := left_of det in
  if stage_b_accepts text x_pos last_x then (accepted ++ [det], x_pos)
  else (accepted, last_x).

Definition stage_b_accepted (detections : list Detection) : list Detection * Z :=
  fold_left stage_b_accepted_step detections ([], -100).

Definition tab_text (det : Detection) : string := Py.strip (d_text det).

(** Every accepted detection lies at or left of [last_x], and two accepted
    detections are more than 30 apart. *)
Definition spaced (accepted : list Detection) : Prop :=
  forall (i j : nat) (a b : Detection),
    (i < j)%nat -> accepted !! i = Some a -> accepted !! j = Some b ->
    30 < left_of b - left_of a.

Definition stage_b_inv (st : list Detection * Z) : Prop :=
  Forall (fun a => left_of a <= snd st) (fst st) /\ spaced (fst st).

(** The accessibility tree of [hwnd] can be searched. *)
Definition tree_searchable (env : Env) (hwnd : Z) : bool :=
  PYWINAUTO_AVAILABLE env && desktop env
  && bool_decide (is_Some (uia_window env hwnd)).

(** The tab strip of [screenshot] can be cropped for [hwnd]. *)
Definition strip_croppable (env : Env) (hwnd : Z) (screenshot : option Image) : Prop :=
  exists (shot : Image) (l t r b : Z) (region : Image),
    screenshot = Some shot /\
    w_rect (os_window env hwnd) = Some (l, t, r, b) /\
    crop env shot (0, 0, r - l, 80) = Some region.

(** C2 in the words of the specification: the sentinel comes back exactly
    when the tree cannot be searched and a screenshot is there, and a tree
    that was searched and held no tab gives the empty list. *)
Definition sentinel_claim (env : Env) (hwnd : Z) (screenshot : option Image) : Prop :=
  (value (get_browser_tabs env hwnd screenshot) = USE_OCR <->
   tree_searchable env hwnd = false /\ screenshot <> None) /\
  (tree_searchable env hwnd = true -> value (uia_tabs env hwnd) = [] ->
   value (get_browser_tabs env hwnd screenshot) = []).

(** C7 in the words of the specification: an identifier that is in the
    title of no window of the catalog gives a returned error result that
    lists the titles of the catalog, and the run makes no call but the two
    enumerations of the windows. *)
Definition not_found_claim (env : Env) (now : Q) (ident : string)
    (capture_screenshot detect_text_ get_ui_tree_ : bool) : Prop :=
  (forall w, In w (value (get_all_windows env)) ->
             Py.contains (Py.lower (c_title w)) (Py.lower ident) = false) ->
  let run := analyze_window env now ident capture_screenshot detect_text_ get_ui_tree_ in
  let catalog := value (get_all_windows env) in
  exists (result : gmap string Value) (titles : list string),
    value run = Returned result /\
    result !! "error" = Some (VStr (not_found_message ident)) /\
    result !! "available_windows" = Some (VStrs titles) /\
    titles = map c_title catalog /\
    (forall w, In w catalog -> In (c_title w) titles) /\
    trace run = [EvEnumWindows; EvEnumWindows].

(** The hit branch of [analyze_window], from the capture on. *)
Definition after_capture (env : Env) (hwnd : Z) (capture_screenshot get_ui_tree_ : bool)
    (captured : option (option Image) * gmap string Value)
    : M (Outcome (gmap string Value)) :=
  let (screenshot, result) := captured in
  result ← ui_tree_step env hwnd get_ui_tree_ result;
  tabs ← get_browser_tabs env hwnd
           (if capture_screenshot then mjoin screenshot else None);
  if is_use_ocr tabs then
    match screenshot with
    | None => mret (Raised "UnboundLocalError")
    | Some None => mret (Returned (with_tabs tabs result))
    | Some (Some shot) =>
        tabs ← _extract_tabs_with_ocr env hwnd shot true;
        mret (Returned (with_tabs tabs result))
    end
  else mret (Returned (with_tabs tabs result)).

(** Two dictionaries that differ at most at the key [timestamp]. *)
Definition agree (r1 r2 : gmap string Value) : Prop :=
  forall k : string, k <> "timestamp" -> r1 !! k = r2 !! k.

(** Two outcomes that are equal up to the time stamp of a result without
    the key [error]. *)
Definition same_outcome (o1 o2 : Outcome (gmap string Value)) : Prop :=
  o1 = o2 \/
  exists r1 r2, o1 = Returned r1 /\ o2 = Returned r2 /\ agree r1 r2 /\
                r1 !! "error" = None /\ r2 !! "error" = None.

(** ** The other operations of the four modules *)

(** [a < b] on floats. *)
Definition float_lt (a b : Q) : bool := negb (Qle_bool b a).

(** *** Visual regions ([detector.py], lines 153 to 201) *)

Inductive ElementType := button | icon | menu_bar | container.

(** One dictionary of [detect_ui_elements]. *)
Record VisualRegion := mkRegion {
  v_type : ElementType;
  v_bbox : BBox;
  v_area : Z;
  v_aspect_ratio : Q
}.

(** [w / h if h > 0 else 0] *)
Definition aspect_of (w h : Z) : Q :=
  if 0 <? h then (inject_Z w / inject_Z h)%Q else 0%Q.

(** The chain of [if] and [elif] of lines 182 to 189; the literals [0.8]
    and [1.2] are the rationals 4/5 and 6/5. *)
Definition classify (aspect_ratio : Q) (h : Z) : ElementType :=
  if float_lt 2 aspect_ratio && float_lt aspect_ratio 10 && (h <? 50) then button
  else if float_lt (Qmake 4 5) aspect_ratio && float_lt aspect_ratio (Qmake 6 5) then icon
  else if float_lt 10 aspect_ratio then menu_bar
  else container.

(** The body of the loop on one bounding rectangle [(x, y, w, h)]: the
    dictionary it appends, if any. *)
Definition ui_region (rect : Z * Z * Z * Z) : option VisualRegion :=
  let '(x, y, w, h) := rect in
  let area := w * h in
  if area <? 100 then None
  else
    let aspect_ratio := aspect_of w h in
    Some (mkRegion (classify aspect_ratio h) (mkBBox x y (x + w) (y + h))
                   area aspect_ratio).

(** [ContentDetector.detect_ui_elements].  [cv2] is [None] when OpenCV is
    not there; otherwise it maps the image to the bounding rectangles of
    its external contours, in the order of [findContours], and to [None]
    when one of the OpenCV calls raises.  OpenCV works inside the process:
    the method leaves no call in the trace. *)
Definition detect_ui_elements (cv2 : option (Image -> option (list (Z * Z * Z * Z))))
    (image : Image) : list VisualRegion :=
  match cv2 with
  | None => []
  | Some bounding_rects =>
      match bounding_rects image with
      | None => []
      | Some rects => omap ui_region rects
      end
  end.

(** *** The other methods of the inspector *)

(** [UIInspector.get_focused_window], lines 153 to 159.  [foreground] is
    the answer of [GetForegroundWindow], [None] when it raises. *)
Definition get_focused_window (env : Env) (foreground : option Z)
    : M (option (string + WindowInfo)) :=
  match foreground with
  | None => mret None
  | Some hwnd =>
      info ← get_window_info env hwnd;
      mret (Some info)
  end.

(** A loop that collects the results of [f] on the elements of a list. *)
Fixpoint m_map {A B} (f : A -> M B) (l : list A) : M (list B) :=
  match l with
  | [] => mret []
  | x :: l' =>
      y ← f x;
      ys ← m_map f l';
      mret (y :: ys)
  end.

(** The test of the callback of [list_all_windows]. *)
Definition visible_titled (env : Env) (hwnd : Z) : bool :=
  w_visible (os_window env hwnd) && Py.truthy (w_title (os_window env hwnd)).

(** The window can be listed by [get_all_windows]. *)
Definition readable (env : Env) (hwnd : Z) : bool :=
  visible_titled env hwnd
  && bool_decide (is_Some (w_rect (os_window env hwnd)))
  && bool_decide (is_Some (w_class (os_window env hwnd))).

(** [UIInspector.list_all_windows], lines 161 to 173. *)
Definition list_all_windows (env : Env) : M (list (string + WindowInfo)) :=
  _ ← tell EvEnumWindows;
  m_map (get_window_info env) (List.filter (visible_titled env) (enum_windows env)).

(** *** The other methods of the analyzer *)

Definition no_active_window : gmap string Value :=
  {["error" := VStr "No active window found"]}.

(** [ScreenAnalyzer.analyze_active_window], lines 170 to 177, with the
    three keyword arguments of [analyze_window]. *)
Definition analyze_active_window (env : Env) (foreground : option Z) (now : Q)
    (capture_screenshot detect_text_ get_ui_tree_ : bool)
    : M (Outcome (gmap string Value)) :=
  active ← get_focused_window env foreground;
  match active with
  | Some (inr info) =>
      if Py.truthy (i_title info)
      then analyze_window env now (i_title info)
             capture_screenshot detect_text_ get_ui_tree_
      else mret (Returned no_active_window)
  | _ => mret (Returned no_active_window)
  end.

(** The body of the loop of [find_window_by_content] on one window;
    [results] is the list it appends to. *)
Definition content_step (env : Env) (search_text : string)
    (results : list (CatalogEntry * string)) (window : CatalogEntry)
    : M (list (CatalogEntry * string)) :=
  screenshot ← capture_window env (c_hwnd window);
  match screenshot with
  | Some shot =>
      extracted ← extract_visible_text env shot default_confidence_threshold;
      if Py.contains (Py.lower extracted) (Py.lower search_text)
      then mret (results ++ [(window, extracted)])
      else mret results
  | None => mret results
  end.

Fixpoint content_loop (env : Env) (search_text : string)
    (windows : list CatalogEntry) (results : list (CatalogEntry * string))
    : M (list (CatalogEntry * string)) :=
  match windows with
  | [] => mret results
  | window :: rest =>
      results ← content_step env search_text results window;
      content_loop env search_text rest results
  end.

(** [ScreenAnalyzer.find_window_by_content], lines 217 to 236.  Nothing in
    the [try] block raises: [capture_window] and [extract_visible_text]
    catch their exceptions themselves. *)
Definition find_window_by_content (env : Env) (search_text : string)
    : M (list (CatalogEntry * string)) :=
  all_windows ← get_all_windows env;
  content_loop env search_text all_windows [].

(** One dictionary of [get_all_windows_summary]. *)
Record WindowSummary := mkSummary {
  s_name : string;
  s_application : string;
  s_hwnd : Z
}.

(** The loop of [get_all_windows_summary]; the subscript [info['title']]
    raises [KeyError] on the dictionary of a failed [get_window_info]. *)
Fixpoint summary_loop (env : Env) (windows : list CatalogEntry)
    (summaries : list WindowSummary) : M (Outcome (list WindowSummary)) :=
  match windows with
  | [] => mret (Returned summaries)
  | window :: rest =>
      info ← get_window_info env (c_hwnd window);
      match info with
      | inl _ => mret (Raised "KeyError")
      | inr info =>
          summary_loop env rest
            (summaries ++ [mkSummary (i_title info) (i_process_name info)
                                     (c_hwnd window)])
      end
  end.

(** [ScreenAnalyzer.get_all_windows_summary], lines 264 to 277. *)
Definition get_all_windows_summary (env : Env) : M (Outcome (list WindowSummary)) :=
  windows ← get_all_windows env;
  summary_loop env windows [].

(** What one entry of [get_ui_tree] must satisfy at depth [depth] or
    below, for the bound [max_depth]. *)
Definition ui_ok (max_depth depth : Z) (u : UIElement) : Prop :=
  depth <= u_depth u <= max_depth /\
  truthy_name (u_name u) || negb (is_unknown (u_type u)) = true.

(** What one tab of the accessibility search must satisfy. *)
Definition tab_ok (name : string) : Prop :=
  3 < Py.len name /\
  Py.startswith name "Active View" = false /\
  Py.startswith name "Tab content" = false.

(** The lists that [search_tabs] hands on: no name twice, every name
    passes the filter. *)
Definition tabs_ok (tabs : list string) : Prop :=
  NoDup tabs /\ Forall tab_ok tabs.

(** What one tab of the recognition of the tab bar must satisfy. *)
Definition ocr_tab_ok (tab : string) : Prop :=
  tab <> "" /\ 2 < Py.len tab < 60.

(** What one tab of Stage B must satisfy on top of it. *)
Definition stage_b_tab_ok (tab : string) : Prop :=
  ocr_tab_ok tab /\
  ~ In tab stop_list /\
  Py.startswith tab "http" = false /\
  Py.startswith tab "www" = false.

(** The handle of a window information that is not an error. *)
Definition info_hwnd (info : string + WindowInfo) : option Z :=
  match info with
  | inr wi => Some (i_hwnd wi)
  | inl _ => None
  end.

(** A trace without a crop. *)
Definition no_crop (tr : list Event) : Prop :=
  forall img box, ~ In (EvCrop img box) tr.

(** What [find_window_by_content] keeps of one window: the window with its
    visible text, when the capture gives an image and the text holds the
    search text. *)
Definition content_match (env : Env) (search_text : string) (window : CatalogEntry)
    : option (CatalogEntry * string) :=
  match value (capture_window env (c_hwnd window)) with
  | Some shot =>
      let extracted := value (extract_visible_text env shot default_confidence_threshold) in
      if Py.contains (Py.lower extracted) (Py.lower search_text)
      then Some (window, extracted) else None
  | None => None
  end.

(** The summary of one window of the catalog in a registry that answers
    the same way twice. *)
Definition summary_of (env : Env) (window : CatalogEntry) : WindowSummary :=
  mkSummary (c_title window)
            (fst (default ("Unknown", "Unknown") (w_process (os_window env (c_hwnd window)))))
            (c_hwnd window).

End Model.

Arguments Env : clear implicits.
Arguments Event : clear implicits.
Arguments M : clear implicits.
Arguments Value : clear implicits.

(** ** Sample environments

    Images are numbered; the crop of image [n] is image [n + 1]. *)

Definition pt (x y : Z) : Q * Q := (inject_Z x, inject_Z y).

Definition notepad : OSWindow :=
  mkOSWindow "Untitled - Notepad" true true (Some (0, 0, 800, 600))
    (Some "Notepad") 4242 (Some ("notepad.exe", "C:/Windows/notepad.exe")).

Definition browser : OSWindow :=
  mkOSWindow "Docs - Browser" true true (Some (100, 50, 1300, 850))
    (Some "Chrome_WidgetWin_1") 777 (Some ("chrome.exe", "C:/Apps/chrome.exe")).

Definition no_window : OSWindow :=
  mkOSWindow "" false false None None 0 None.

Definition sample_windows (hwnd : Z) : OSWindow :=
  if hwnd =? 101 then notepad
  else if hwnd =? 102 then browser
  else no_window.

(** Three words of a tab bar; the second is a repeated hit of the first. *)
Definition sample_results : list EasyResult :=
  [ mkEasy [pt 60 8; pt 140 8; pt 140 30; pt 60 30] "Inbox" (Qmake 9 10);
    mkEasy [pt 75 9; pt 150 9; pt 150 31; pt 75 31] "Inbox" (Qmake 4 10);
    mkEasy [pt 300 6; pt 380 6; pt 380 28; pt 300 28] "Docs" (Qmake 8 10) ].

(** A window whose tree holds a pane and a button, and no tab item. *)
Definition sample_tree : Element :=
  mkElement (Some (AttrVal (Some "Docs - Browser"), AttrVal (Some "Window")))
    (Some (100, 50, 1300, 850)) (AttrVal true) (AttrVal true)
    (Some [ mkElement (Some (AttrVal (Some ""), AttrVal (Some "Pane")))
              (Some (100, 50, 1300, 90)) (AttrVal true) (AttrVal true)
              (Some [ mkElement (Some (AttrVal (Some "Back"), AttrVal (Some "Button")))
                        None (AttrVal true) (AttrVal true) None ]) ]).

Definition sample_env : Env Z :=
  mkEnv "both" (Some (fun _ => Some sample_results)) true (fun _ => Some one_word)
        (fun img _ => Some (img + 1)) (fun _ => (1200, 800)) (fun _ _ => true)
        [101; 102] sample_windows (fun _ => "Invalid window handle")
        (fun _ => Some 1)
        true true (fun _ => Some sample_tree).

(** The same environment with a pixel source that returns no image. *)
Definition blind_env : Env Z :=
  mkEnv "both" (Some (fun _ => Some sample_results)) true (fun _ => Some one_word)
        (fun img _ => Some (img + 1)) (fun _ => (1200, 800)) (fun _ _ => true)
        [101; 102] sample_windows (fun _ => "Invalid window handle")
        (fun _ => None)
        true true (fun _ => Some sample_tree).

(** A tab bar on which the primary engine reads two words of the stop
    list only. *)
Definition stop_results : list EasyResult :=
  [ mkEasy [pt 60 8; pt 140 8; pt 140 30; pt 60 30] "Google" (Qmake 9 10);
    mkEasy [pt 200 8; pt 280 8; pt 280 30; pt 200 30] "Chrome" (Qmake 9 10) ].

Definition stop_env : Env Z :=
  mkEnv "easyocr" (Some (fun _ => Some stop_results)) false (fun _ => None)
        (fun img _ => Some (img + 1)) (fun _ => (1200, 800)) (fun _ _ => true)
        [101; 102] sample_windows (fun _ => "Invalid window handle")
        (fun _ => Some 1)
        true true (fun _ => Some sample_tree).

Definition inbox : Detection := mkDet "Inbox" (mkBBox 60 8 140 30) (Qmake 9 10) easyocr.
Definition inbox_again : Detection := mkDet "Inbox" (mkBBox 75 9 150 31) (Qmake 4 10) easyocr.
Definition docs : Detection := mkDet "Docs" (mkBBox 300 6 380 28) (Qmake 8 10) easyocr.

(** Bounding rectangles of four contours: a button, a speck, an icon and a
    menu bar. *)
Definition sample_rects : list (Z * Z * Z * Z) :=
  [(10, 10, 120, 30); (0, 0, 5, 5); (200, 200, 40, 40); (0, 300, 1200, 20)].

Definition sample_cv2 : option (Z -> option (list (Z * Z * Z * Z))) :=
  Some (fun _ => Some sample_rects).

Definition sample_button : VisualRegion :=
  mkRegion button (mkBBox 10 10 130 40) 3600 (inject_Z 120 / inject_Z 30)%Q.

(** The word of [one_word] as a detection; its confidence is the double
    [0.9]. *)
Definition tab_word : Detection :=
  mkDet "tab" (mkBBox 10 5 40 17) (Qmake 8106479329266893 9007199254740992) tesseract.

(** A window whose tree holds two tab items. *)
Definition tabbed_tree : Element :=
  mkElement (Some (AttrVal (Some "Docs - Browser"), AttrVal (Some "Window")))
    (Some (100, 50, 1300, 850)) (AttrVal true) (AttrVal true)
    (Some [ mkElement (Some (AttrVal (Some "Inbox - Mail"), AttrVal (Some "TabItem")))
              None (AttrVal true) (AttrVal true) None;
            mkElement (Some (AttrVal (Some "Docs home"), AttrVal (Some "TabItem")))
              None (AttrVal true) (AttrVal true) None ]).

Definition tabbed_env : Env Z :=
  mkEnv "both" (Some (fun _ => Some sample_results)) true (fun _ => Some one_word)
        (fun img _ => Some (img + 1)) (fun _ => (1200, 800)) (fun _ _ => true)
        [101; 102] sample_windows (fun _ => "Invalid window handle")
        (fun _ => Some 1)
        true true (fun _ => Some tabbed_tree).

(** A window whose tree holds one tab item, named like the sentinel. *)
Definition sentinel_tree : Element :=
  mkElement (Some (AttrVal (Some "Docs - Browser"), AttrVal (Some "Window")))
    (Some (100, 50, 1300, 850)) (AttrVal true) (AttrVal true)
    (Some [ mkElement (Some (AttrVal (Some "__USE_OCR__"), AttrVal (Some "TabItem")))
              None (AttrVal true) (AttrVal true) None ]).

Definition sentinel_env : Env Z :=
  mkEnv "both" (Some (fun _ => Some sample_results)) true (fun _ => Some one_word)
        (fun img _ => Some (img + 1)) (fun _ => (1200, 800)) (fun _ _ => true)
        [101; 102] sample_windows (fun _ => "Invalid window handle")
        (fun _ => Some 1)
        true true (fun _ => Some sentinel_tree).

(** A registry with a visible window whose class cannot be read. *)
Definition ghost : OSWindow :=
  mkOSWindow "Ghost" true true (Some (0, 0, 300, 200)) None 0 None.

Definition ghost_windows (hwnd : Z) : OSWindow :=
  if hwnd =? 103 then ghost else sample_windows hwnd.

Definition ghost_env : Env Z :=
  mkEnv "both" (Some (fun _ => Some sample_results)) true (fun _ => Some one_word)
        (fun img _ => Some (img + 1)) (fun _ => (1200, 800)) (fun _ _ => true)
        [101; 103; 102] ghost_windows (fun _ => "Invalid window handle")
        (fun _ => Some 1)
        true true (fun _ => Some sample_tree).

(** A registry in which a window enumerated before the browser has the
    title of the browser inside its own. *)
Definition settings : OSWindow :=
  mkOSWindow "Settings - Docs - Browser" true true (Some (0, 0, 640, 480))
    (Some "Chrome_WidgetWin_1") 778 (Some ("chrome.exe", "C:/Apps/chrome.exe")).

Definition shadow_windows (hwnd : Z) : OSWindow :=
  if hwnd =? 104 then settings else sample_windows hwnd.

Definition shadow_env : Env Z :=
  mkEnv "both" (Some (fun _ => Some sample_results)) true (fun _ => Some one_word)
        (fun img _ => Some (img + 1)) (fun _ => (1200, 800)) (fun _ _ => true)
        [104; 102] shadow_windows (fun _ => "Invalid window handle")
        (fun _ => Some 1)
        true true (fun _ => Some sample_tree).

Definition notepad_entry : CatalogEntry :=
  mkEntry 101 "Untitled - Notepad" (0, 0, 800, 600) "Notepad".

Definition browser_entry : CatalogEntry :=
  mkEntry 102 "Docs - Browser" (100, 50, 1300, 850) "Chrome_WidgetWin_1".

Definition browser_info : WindowInfo :=
  mkInfo 102 "Docs - Browser" "Chrome_WidgetWin_1" (100, 50, 1300, 850) 777
         "chrome.exe" "C:/Apps/chrome.exe" true true.

Definition notepad_info : WindowInfo :=
  mkInfo 101 "Untitled - Notepad" "Notepad" (0, 0, 800, 600) 4242
         "notepad.exe" "C:/Windows/notepad.exe" true true.

(** * Properties *)

Section Properties.

Context {Image : Type}.

#[local] Arguments mbind : simpl never.

(** ** The trace monad *)

Lemma value_bind {A B} (m : M Image A) (f : A -> M Image B) :
  value (m ≫= f) = value (f (value m)).
Proof.
  destruct m as [t a]. unfold mbind, M_bind, m_bind, value. simpl.
  destruct (f a); reflexivity.
Qed.

Lemma trace_bind {A B} (m : M Image A) (f : A -> M Image B) :
  trace (m ≫= f) = trace m ++ trace (f (value m)).
Proof.
  destruct m as [t a]. unfold mbind, M_bind, m_bind, trace, value. simpl.
  destruct (f a); reflexivity.
Qed.

Lemma M_eq {A} (m1 m2 : M Image A) :
  trace m1 = trace m2 -> value m1 = value m2 -> m1 = m2.
Proof. destruct m1, m2; simpl; congruence. Qed.

Lemma value_ret {A} (a : A) : value (mret a : M Image A) = a.
Proof. reflexivity. Qed.

Lemma trace_ret {A} (a : A) : trace (mret a : M Image A) = [].
Proof. reflexivity. Qed.

Lemma trace_tell (e : Event Image) : trace (tell e) = [e].
Proof. reflexivity. Qed.

(** ** Sorting *)

Section SortFacts.
Context {A : Type} (key : A -> Z).

Lemma insert_by_perm (x : A) (l : list A) :
  Permutation (Py.insert_by key x l) (x :: l).
Proof.
  induction l as [|y l IH]; simpl; [reflexivity|].
  destruct (key x <=? key y); [reflexivity|].
  rewrite IH. apply perm_swap.
Qed.

Lemma sort_by_perm (l : list A) : Permutation (Py.sort_by key l) l.
Proof.
  induction l as [|x l IH]; simpl; [reflexivity|].
  rewrite insert_by_perm. now constructor.
Qed.

Lemma insert_by_sorted (x : A) (l : list A) :
  Sorted (Py.key_le key) l -> Sorted (Py.key_le key) (Py.insert_by key x l).
Proof.
  induction l as [|y l IH]; simpl; intros Hs.
  - repeat constructor.
  - destruct (key x <=? key y) eqn:E.
    + constructor; [assumption|]. constructor. unfold Py.key_le. lia.
    + apply Sorted_inv in Hs as [Hs Hhd]. constructor; [auto|].
      destruct l as [|z l]; simpl.
      * constructor. unfold Py.key_le. lia.
      * destruct (key x <=? key z); constructor.
        -- unfold Py.key_le. lia.
        -- now inversion Hhd.
Qed.

Lemma sort_by_sorted (l : list A) : Sorted (Py.key_le key) (Py.sort_by key l).
Proof.
  induction l as [|x l IH]; simpl; [constructor|].
  now apply insert_by_sorted.
Qed.

Lemma sorted_consecutive (l : list A) :
  Sorted (Py.key_le key) l ->
  forall (i : nat) a b, l !! i = Some a -> l !! S i = Some b -> key a <= key b.
Proof.
  induction 1 as [|x l Hs IH Hhd]; intros i a b Ha Hb; [done|].
  destruct i as [|i]; simpl in *.
  - injection Ha as <-. destruct l as [|y l]; [done|].
    simpl in Hb. injection Hb as <-. now inversion Hhd.
  - eauto.
Qed.
(** The sort is stable: the elements of one key keep their order. *)
Lemma insert_by_stable (k : Z) (x : A) (l : list A) :
  List.filter (fun a => key a =? k) (Py.insert_by key x l)
  = List.filter (fun a => key a =? k) (x :: l).
Proof.
  induction l as [|y l IH]; [reflexivity|].
  cbn [Py.insert_by]. destruct (key x <=? key y) eqn:E; [reflexivity|].
  cbn [List.filter] in *. rewrite IH.
  destruct (key x =? k) eqn:Ex, (key y =? k) eqn:Ey; try reflexivity.
  apply Z.eqb_eq in Ex, Ey. apply Z.leb_gt in E. lia.
Qed.

Lemma sort_by_stable (k : Z) (l : list A) :
  List.filter (fun a => key a =? k) (Py.sort_by key l)
  = List.filter (fun a => key a =? k) l.
Proof.
  induction l as [|x l IH]; [reflexivity|].
  cbn [Py.sort_by fold_right]. rewrite insert_by_stable.
  cbn [List.filter]. fold (Py.sort_by key l). now rewrite IH.
Qed.
End SortFacts.

(** ** Coordinate remapping *)

Lemma alloc_all_spec (ds : list Detection) (σ : Store) :
  alloc_all ds σ = (seq (length σ) (length ds), σ ++ ds).
Proof.
  revert σ. induction ds as [|d ds IH]; intros σ; simpl.
  - now rewrite app_nil_r.
  - rewrite IH. rewrite length_app. simpl.
    replace (length σ + 1)%nat with (S (length σ)) by lia.
    now rewrite <- app_assoc.
Qed.

Lemma adjust_all_fresh (x1 y1 : Z) (ds : list Detection) (σ : Store) :
  adjust_all x1 y1 (seq (length σ) (length ds)) (σ ++ ds)
  = σ ++ map (adjust x1 y1) ds.
Proof.
  revert σ. induction ds as [|d ds IH]; intros σ; simpl; [reflexivity|].
  unfold adjust_all in *. simpl.
  rewrite alter_app_r_alt by lia. rewrite Nat.sub_diag. simpl.
  replace (σ ++ adjust x1 y1 d :: ds) with ((σ ++ [adjust x1 y1 d]) ++ ds)
    by now rewrite <- app_assoc.
  specialize (IH (σ ++ [adjust x1 y1 d])).
  rewrite length_app in IH. simpl in IH.
  replace (length σ + 1)%nat with (S (length σ)) in IH by lia.
  rewrite IH. now rewrite <- app_assoc.
Qed.

(** The dictionaries of the crop are new objects, updated one after the
    other; the store in front of them is not touched. *)
Lemma detect_text_in_region_spec (env : Env Image) (image : Image) (x1 y1 x2 y2 : Z)
    (σ : Store) (region : Image) :
  crop env image (x1, y1, x2, y2) = Some region ->
  let ds := value (detect_text env region) in
  value (detect_text_in_region env image (x1, y1, x2, y2) σ)
  = Some (seq (length σ) (length ds), σ ++ map (adjust x1 y1) ds).
Proof.
  intros Hcrop ds. unfold detect_text_in_region.
  rewrite value_bind. rewrite Hcrop. unfold detect_text_objects.
  rewrite !value_bind. simpl. rewrite alloc_all_spec.
  simpl. subst ds. now rewrite adjust_all_fresh.
Qed.

Lemma detect_text_objects_spec (env : Env Image) (region : Image) (σ : Store) :
  let ds := value (detect_text env region) in
  value (detect_text_objects env region σ)
  = (seq (length σ) (length ds), σ ++ ds).
Proof.
  intros ds. unfold detect_text_objects. rewrite value_bind. simpl.
  apply alloc_all_spec.
Qed.

(** One dictionary listed twice is moved twice: the model is sensitive to
    aliasing. *)
Lemma adjust_all_alias (x1 y1 : Z) (d : Detection) :
  adjust_all x1 y1 [0%nat; 0%nat] [d] = [adjust x1 y1 (adjust x1 y1 d)].
Proof. reflexivity. Qed.

(** C1.  When the crop succeeds, [detect_text_in_region] returns the
    detections of the cropped image, object for object, and every
    coordinate of every returned bounding box is the coordinate detected on
    the crop plus the offset of the box: [x1] for the two x coordinates,
    [y1] for the two y coordinates, added once. *)
Theorem detect_text_in_region_remap (env : Env Image) (image : Image)
    (x1 y1 x2 y2 : Z) (σ : Store) (region : Image) :
  crop env image (x1, y1, x2, y2) = Some region ->
  exists (dets : list loc) (σ1 σ2 : Store),
    value (detect_text_objects env region σ) = (dets, σ1) /\
    value (detect_text_in_region env image (x1, y1, x2, y2) σ) = Some (dets, σ2) /\
    length dets = length (value (detect_text env region)) /\
    forall (i : nat) (l : loc), dets !! i = Some l ->
      exists raw remapped : Detection,
        value (detect_text env region) !! i = Some raw /\
        σ1 !! l = Some raw /\
        σ2 !! l = Some remapped /\
        bx1 (d_bbox remapped) = bx1 (d_bbox raw) + x1 /\
        by1 (d_bbox remapped) = by1 (d_bbox raw) + y1 /\
        bx2 (d_bbox remapped) = bx2 (d_bbox raw) + x1 /\
        by2 (d_bbox remapped) = by2 (d_bbox raw) + y1.
Proof.
  intros Hcrop.
  pose proof (detect_text_in_region_spec env image x1 y1 x2 y2 σ region Hcrop) as Hr.
  pose proof (detect_text_objects_spec env region σ) as Ho.
  simpl in Hr, Ho. set (ds := value (detect_text env region)) in *.
  exists (seq (length σ) (length ds)), (σ ++ ds), (σ ++ map (adjust x1 y1) ds).
  split; [exact Ho|]. split; [exact Hr|]. split; [apply length_seq|].
  intros i l Hl. apply lookup_seq in Hl as [-> Hi].
  destruct (lookup_lt_is_Some_2 ds i Hi) as [raw Hraw].
  exists raw, (adjust x1 y1 raw). split; [exact Hraw|].
  split; [|split].
  - rewrite lookup_app_r by lia.
    now replace (length σ + i - length σ)%nat with i by lia.
  - rewrite lookup_app_r by lia.
    replace (length σ + i - length σ)%nat with i by lia.
    rewrite list_lookup_fmap. now rewrite Hraw.
  - now simpl.
Qed.

(** C10.  [detect_text_in_region] returns as many detections as
    [detect_text] finds on the crop, in the same order, each with the same
    text, confidence and engine; the objects that were in the store before
    the call are not changed. *)
Theorem detect_text_in_region_frame (env : Env Image) (image : Image)
    (x1 y1 x2 y2 : Z) (σ : Store) (region : Image) :
  crop env image (x1, y1, x2, y2) = Some region ->
  exists (dets : list loc) (σ2 : Store),
    value (detect_text_in_region env image (x1, y1, x2, y2) σ) = Some (dets, σ2) /\
    length dets = length (value (detect_text env region)) /\
    (forall (i : nat) (raw : Detection),
        value (detect_text env region) !! i = Some raw ->
        exists (l : loc) (d : Detection),
          dets !! i = Some l /\ σ2 !! l = Some d /\
          d_text d = d_text raw /\
          d_confidence d = d_confidence raw /\
          d_engine d = d_engine raw) /\
    NoDup dets /\
    (forall (l : loc) (d : Detection), σ !! l = Some d ->
        σ2 !! l = Some d /\ l ∉ dets).
Proof.
  intros Hcrop.
  pose proof (detect_text_in_region_spec env image x1 y1 x2 y2 σ region Hcrop) as Hr.
  simpl in Hr. set (ds := value (detect_text env region)) in *.
  exists (seq (length σ) (length ds)), (σ ++ map (adjust x1 y1) ds).
  split; [exact Hr|]. split; [apply length_seq|]. split; [|split].
  - intros i raw Hraw. pose proof (lookup_lt_Some _ _ _ Hraw) as Hi.
    exists (length σ + i)%nat, (adjust x1 y1 raw). split; [|split].
    + now apply lookup_seq.
    + rewrite lookup_app_r by lia.
      replace (length σ + i - length σ)%nat with i by lia.
      rewrite list_lookup_fmap. now rewrite Hraw.
    + now simpl.
  - apply NoDup_seq.
  - intros l d Hl. pose proof (lookup_lt_Some _ _ _ Hl) as Hlt. split.
    + now rewrite lookup_app_l.
    + rewrite elem_of_seq. lia.
Qed.

(** ** Visible text *)

Lemma confident_iff (thr : Q) (d : Detection) :
  confident thr d = true <-> ~ (d_confidence d < thr)%Q.
Proof.
  unfold confident. rewrite Qle_bool_iff. split.
  - intros H. now apply Qle_not_lt.
  - intros H. now apply Qnot_lt_le.
Qed.

(** C6.  The string of [extract_visible_text] is the texts, joined by one
    space, of a list [kept] that holds exactly the detections whose
    confidence is not below the threshold (each as often as it was
    detected) and in which the top coordinate never decreases from one
    detection to the next. *)
Theorem extract_visible_text_order (env : Env Image) (image : Image) (thr : Q) :
  exists kept : list Detection,
    value (extract_visible_text env image thr) = Py.join " " (map d_text kept) /\
    Permutation kept
      (List.filter (confident thr) (value (detect_text env image))) /\
    (forall d : Detection,
        In d kept <->
        In d (value (detect_text env image)) /\ ~ (d_confidence d < thr)%Q) /\
    (forall (i : nat) (a b : Detection),
        kept !! i = Some a -> kept !! S i = Some b -> top_of a <= top_of b).
Proof.
  set (ds := value (detect_text env image)).
  exists (Py.sort_by top_of (List.filter (confident thr) ds)).
  split; [|split; [|split]].
  - unfold extract_visible_text. now rewrite value_bind.
  - apply sort_by_perm.
  - intros d. rewrite <- confident_iff, <- filter_In. split; intros H.
    + eapply Permutation_in; [apply sort_by_perm|exact H].
    + eapply Permutation_in; [symmetry; apply sort_by_perm|exact H].
  - apply (sorted_consecutive top_of), sort_by_sorted.
Qed.

(** ** Engine dispatch *)

Lemma detect_text_easyocr_no_reader (env : Env Image) (image : Image) :
  easyocr_reader env = None -> detect_text_easyocr env image = mret [].
Proof. intros H. unfold detect_text_easyocr. now rewrite H. Qed.

Lemma detect_text_both_cases (env : Env Image) (image : Image) :
  ocr_engine env = "both" ->
  (easyocr_reader env <> None /\
   detect_text env image = detect_text_easyocr env image) \/
  (easyocr_reader env = None /\
   detect_text env image = detect_text_tesseract env image).
Proof.
  intros Hboth. unfold detect_text. rewrite Hboth. simpl.
  destruct (easyocr_reader env) as [r|] eqn:E.
  - left. split; [discriminate|]. rewrite bool_decide_eq_true_2; [done|eauto].
  - right. split; [reflexivity|]. rewrite bool_decide_eq_false_2; [done|].
    intros [x Hx]. discriminate.
Qed.

(** C3.  With the engine set to "both": a result of the primary engine that
    is not empty is the result of [detect_text]; when the primary engine has
    a reader it is the only engine called; the secondary engine is called
    only when the primary engine has no reader and so yields nothing; and
    there are inputs on which the primary engine yields nothing and the
    detections of the secondary engine are returned. *)
Theorem detect_text_both (env : Env Image) (image : Image) :
  ocr_engine env = "both" ->
  (value (detect_text_easyocr env image) <> [] ->
   detect_text env image = detect_text_easyocr env image) /\
  (easyocr_reader env <> None ->
   trace (detect_text env image) = [EvReadtext image]) /\
  (In (EvImageToData image) (trace (detect_text env image)) ->
   value (detect_text_easyocr env image) = [] /\
   detect_text env image = detect_text_tesseract env image) /\
  (exists env' : Env Image,
      ocr_engine env' = "both" /\
      value (detect_text_easyocr env' image) = [] /\
      value (detect_text env' image) = value (detect_text_tesseract env' image) /\
      value (detect_text env' image) <> []).
Proof.
  intros Hboth.
  destruct (detect_text_both_cases env image Hboth) as [[Hr He]|[Hr Ht]].
  - split; [auto|]. split; [|split].
    + intros _. rewrite He. unfold detect_text_easyocr.
      destruct (easyocr_reader env) as [r|]; [|done].
      rewrite trace_bind. simpl. now destruct (r image).
    + rewrite He. unfold detect_text_easyocr.
      destruct (easyocr_reader env) as [r|]; [|done].
      rewrite trace_bind. simpl. destruct (r image); simpl; intros [H|[]]; discriminate.
    + exists (tesseract_only_env env). now vm_compute.
  - rewrite (detect_text_easyocr_no_reader env image Hr).
    split; [intros H; now elim H|]. split; [intros H; now elim H|].
    split; [auto|].
    exists (tesseract_only_env env). now vm_compute.
Qed.

(** With a reader, an empty result of the primary engine is final: the
    choice of the engine does not depend on the image. *)
Lemma detect_text_both_reader_empty (env : Env Image) (image : Image) :
  ocr_engine env = "both" -> easyocr_reader env <> None ->
  value (detect_text_easyocr env image) = [] ->
  value (detect_text env image) = [].
Proof.
  intros Hboth Hr He.
  destruct (detect_text_both_cases env image Hboth) as [[_ H]|[H _]]; [|done].
  now rewrite H.
Qed.

(** ** Tab extraction, Stage B *)

Lemma stage_b_fold_texts (dets : list Detection) (acc : list Detection) (last_x : Z) :
  fold_left stage_b_step dets (map tab_text acc, last_x)
  = (map tab_text (fst (fold_left stage_b_accepted_step dets (acc, last_x))),
     snd (fold_left stage_b_accepted_step dets (acc, last_x))).
Proof.
  revert acc last_x. induction dets as [|d dets IH]; intros acc last_x; simpl.
  - reflexivity.
  - destruct (stage_b_accepts (Py.strip (d_text d)) (left_of d) last_x).
    + rewrite <- IH. now rewrite map_app.
    + apply IH.
Qed.

Lemma stage_b_loop_texts (dets : list Detection) :
  fst (stage_b_loop dets) = map tab_text (fst (stage_b_accepted dets)).
Proof.
  unfold stage_b_loop, stage_b_accepted.
  change (@nil string) with (map tab_text []).
  now rewrite stage_b_fold_texts.
Qed.

Lemma stage_b_accepts_gap (text : string) (x_pos last_x : Z) :
  stage_b_accepts text x_pos last_x = true -> 30 < x_pos - last_x.
Proof.
  unfold stage_b_accepts. rewrite !andb_true_iff.
  intros [[[[_ H] _] _] _]. now apply Z.ltb_lt in H.
Qed.

Lemma stage_b_inv_step (st : list Detection * Z) (det : Detection) :
  stage_b_inv st -> stage_b_inv (stage_b_accepted_step st det).
Proof.
  destruct st as [acc last_x]. intros [Hle Hsp]. simpl in *.
  destruct (stage_b_accepts _ _ _) eqn:E; [|now split].
  apply stage_b_accepts_gap in E. split; simpl.
  - apply Forall_app. split.
    + eapply Forall_impl; [exact Hle|]. simpl. intros a Ha. lia.
    + constructor; [lia|constructor].
  - intros i j a b Hij Ha Hb.
    assert (Hj : (j < length (acc ++ [det]))%nat) by now apply lookup_lt_Some in Hb.
    rewrite length_app in Hj. simpl in Hj.
    assert (Hi : (i < length acc)%nat) by lia.
    rewrite lookup_app_l in Ha by exact Hi.
    destruct (decide (j < length acc)%nat) as [Hjl|Hjl].
    + rewrite lookup_app_l in Hb by exact Hjl. eauto.
    + rewrite lookup_app_r in Hb by lia.
      replace (j - length acc)%nat with 0%nat in Hb by lia.
      simpl in Hb. injection Hb as <-.
      rewrite Forall_forall in Hle.
      assert (left_of a <= last_x)
        by (apply Hle, list_elem_of_lookup; eauto).
      lia.
Qed.

Lemma stage_b_inv_fold (dets : list Detection) (st : list Detection * Z) :
  stage_b_inv st -> stage_b_inv (fold_left stage_b_accepted_step dets st).
Proof.
  revert st. induction dets as [|d dets IH]; intros st H; simpl; [exact H|].
  apply IH. now apply stage_b_inv_step.
Qed.

(** C5.  For every list of detections, the tabs of Stage B are the texts of
    the detections accepted by the loop over the list sorted by x, and two
    accepted detections are always more than 30 pixels apart, the later one
    to the right. *)
Theorem stage_b_spacing (detections : list Detection) :
  let sorted := Py.sort_by left_of detections in
  let accepted := fst (stage_b_accepted sorted) in
  fst (stage_b_loop sorted) = map tab_text accepted /\
  forall (i j : nat) (a b : Detection),
    (i < j)%nat -> accepted !! i = Some a -> accepted !! j = Some b ->
    30 < left_of b - left_of a.
Proof.
  intros sorted accepted. split; [apply stage_b_loop_texts|].
  assert (H : stage_b_inv (stage_b_accepted sorted)).
  { apply stage_b_inv_fold. split; simpl; [constructor|].
    intros i j a b _ Ha. done. }
  exact (proj2 H).
Qed.

(** ** Tab extraction, Stage C *)

Lemma detect_text_easyocr_trace (env : Env Image) (image : Image) :
  trace (detect_text_easyocr env image) = []
  \/ trace (detect_text_easyocr env image) = [EvReadtext image].
Proof.
  unfold detect_text_easyocr. destruct (easyocr_reader env) as [r|]; [|now left].
  right. rewrite trace_bind. simpl. now destruct (r image).
Qed.

Lemma detect_text_tesseract_trace (env : Env Image) (image : Image) :
  trace (detect_text_tesseract env image) = []
  \/ trace (detect_text_tesseract env image) = [EvImageToData image].
Proof.
  unfold detect_text_tesseract. destruct (TESSERACT_AVAILABLE env); cbn [negb]; [|now left].
  right. rewrite trace_bind. simpl. now destruct (image_to_data env image).
Qed.

(** [detect_text] calls an engine at most once, and nothing else. *)
Lemma detect_text_trace (env : Env Image) (image : Image) :
  trace (detect_text env image) = []
  \/ trace (detect_text env image) = [EvReadtext image]
  \/ trace (detect_text env image) = [EvImageToData image].
Proof.
  unfold detect_text.
  destruct (_ || _).
  - destruct (detect_text_easyocr_trace env image); auto.
  - destruct (_ || _); [|now left].
    destruct (detect_text_tesseract_trace env image); auto.
Qed.

Lemma detect_text_no_crop (env : Env Image) (image shot : Image) (box : Rect) :
  ~ In (EvCrop shot box) (trace (detect_text env image)).
Proof.
  destruct (detect_text_trace env image) as [H|[H|H]]; rewrite H; simpl;
    intuition discriminate.
Qed.

Lemma save_debug_no_crop (env : Env Image) (debug : bool) (region : Image) (name : string)
    (shot : Image) (box : Rect) :
  ~ In (EvCrop shot box) (trace (save_debug env debug region name)).
Proof.
  unfold save_debug. destruct debug; simpl; [|tauto].
  intros [E|[]]. discriminate.
Qed.

Lemma get_window_info_trace (env : Env Image) (hwnd : Z) :
  trace (get_window_info env hwnd) = [EvWindowQuery hwnd].
Proof.
  unfold get_window_info. rewrite trace_bind. simpl.
  destruct (w_class _); [|done]. destruct (w_rect _); [|done].
  now destruct (default _ _).
Qed.

(** The only crop of Stage B is the crop of its own box. *)
Lemma stage_b_crops (env : Env Image) (hwnd : Z) (screenshot : Image) (debug : bool)
    (shot : Image) (box : Rect) :
  In (EvCrop shot box) (trace (stage_b env hwnd screenshot debug)) ->
  exists width, box = stage_b_box width.
Proof.
  unfold stage_b. rewrite trace_bind, get_window_info_trace.
  destruct (value (get_window_info env hwnd)) as [msg|wi].
  - simpl. intros [E|[]]. discriminate.
  - destruct (i_bbox wi) as [[[l t] r] b]. rewrite trace_bind. simpl.
    intros [E|[E|H]]; [discriminate| injection E as _ <-; eauto |].
    destruct (crop env screenshot _) as [region|]; [|destruct H].
    rewrite trace_bind in H. apply in_app_or in H as [H|H].
    + now apply save_debug_no_crop in H.
    + destruct (value (save_debug _ _ _ _)); [|destruct H].
      rewrite trace_bind in H. simpl in H. rewrite app_nil_r in H.
      now apply detect_text_no_crop in H.
Qed.

Lemma stage_boxes_differ (w w' : Z) : stage_c_box w <> stage_b_box w'.
Proof. unfold stage_c_box, stage_b_box. intros H. discriminate. Qed.

Lemma stage_c_trace_head (env : Env Image) (screenshot : Image) (width : Z)
    (debug : bool) (tabs : list string) :
  exists rest, trace (stage_c env screenshot width debug tabs)
               = EvCrop screenshot (stage_c_box width) :: rest.
Proof. unfold stage_c. rewrite trace_bind. simpl. eauto. Qed.

(** The two ways through [_extract_tabs_with_ocr]. *)
Lemma extract_tabs_after_empty (env : Env Image) (hwnd : Z) (screenshot : Image)
    (debug : bool) (width : Z) :
  value (stage_b env hwnd screenshot debug) = Some (width, []) ->
  trace (_extract_tabs_with_ocr env hwnd screenshot debug)
  = trace (stage_b env hwnd screenshot debug)
    ++ trace (stage_c env screenshot width debug []).
Proof.
  intros Hb. unfold _extract_tabs_with_ocr. rewrite trace_bind, Hb. simpl.
  rewrite trace_bind. f_equal.
  destruct (value (stage_c _ _ _ _ _)); simpl; now rewrite app_nil_r.
Qed.

Lemma extract_tabs_otherwise (env : Env Image) (hwnd : Z) (screenshot : Image)
    (debug : bool) :
  (forall width, value (stage_b env hwnd screenshot debug) <> Some (width, [])) ->
  trace (_extract_tabs_with_ocr env hwnd screenshot debug)
  = trace (stage_b env hwnd screenshot debug).
Proof.
  intros Hb. unfold _extract_tabs_with_ocr. rewrite trace_bind.
  destruct (value (stage_b _ _ _ _)) as [[width [|tab tabs]]|]; simpl;
    try now rewrite app_nil_r.
  now elim (Hb width).
Qed.

(** C4.  In a run of [_extract_tabs_with_ocr], the crop of the Stage C box
    is requested if and only if Stage B ran to its end with no accepted tab;
    then the calls of Stage C follow those of Stage B.  When Stage B accepts
    a tab, the run makes the calls of Stage B and no other, and returns the
    first fifteen tabs of Stage B. *)
Theorem stage_c_iff_stage_b_empty (env : Env Image) (hwnd : Z) (screenshot : Image)
    (debug : bool) :
  let b := stage_b env hwnd screenshot debug in
  let run := _extract_tabs_with_ocr env hwnd screenshot debug in
  ((exists width, In (EvCrop screenshot (stage_c_box width)) (trace run))
   <-> (exists width, value b = Some (width, []))) /\
  (forall width, value b = Some (width, []) ->
     trace run = trace b ++ trace (stage_c env screenshot width debug [])) /\
  (forall width tab tabs, value b = Some (width, tab :: tabs) ->
     trace run = trace b /\ value run = Py.slice_to 15 (tab :: tabs)).
Proof.
  intros b run. split; [split|split].
  - intros [w Hin].
    destruct (value b) as [[width [|tab tabs]]|] eqn:Hb; [eauto| |].
    + unfold run in Hin. rewrite extract_tabs_otherwise in Hin.
      * apply stage_b_crops in Hin as [w' Hw']. now apply stage_boxes_differ in Hw'.
      * intros w'. fold b. rewrite Hb. discriminate.
    + unfold run in Hin. rewrite extract_tabs_otherwise in Hin.
      * apply stage_b_crops in Hin as [w' Hw']. now apply stage_boxes_differ in Hw'.
      * intros w'. fold b. rewrite Hb. discriminate.
  - intros [width Hb]. exists width. unfold run.
    rewrite (extract_tabs_after_empty _ _ _ _ width Hb).
    destruct (stage_c_trace_head env screenshot width debug []) as [rest ->].
    apply in_or_app. right. now left.
  - intros width Hb. now apply extract_tabs_after_empty.
  - intros width tab tabs Hb. split.
    + apply extract_tabs_otherwise. intros w. fold b. rewrite Hb. discriminate.
    + unfold run, _extract_tabs_with_ocr. rewrite value_bind. fold b. now rewrite Hb.
Qed.

(** ** The sentinel of [get_browser_tabs] *)

Lemma uia_tabs_unsearchable (env : Env Image) (hwnd : Z) :
  tree_searchable env hwnd = false -> value (uia_tabs env hwnd) = [].
Proof.
  unfold tree_searchable, uia_tabs. intros H.
  destruct (PYWINAUTO_AVAILABLE env && desktop env); [|done].
  rewrite value_bind. simpl in *.
  destruct (uia_window env hwnd); [|done].
  rewrite bool_decide_eq_true_2 in H; [done|eauto].
Qed.

(** C2, as the code has it.  [get_browser_tabs] returns the sentinel
    exactly when the search of the accessibility tree collected no tab
    (the tree could not be searched, or it was searched and held none) and
    the tab strip of a supplied screenshot can be cropped, or when the
    search collected the sentinel text itself; in every other case the
    result is the list collected from the tree, which is empty when the
    tree cannot be searched. *)
Theorem get_browser_tabs_sentinel (env : Env Image) (hwnd : Z) (screenshot : option Image) :
  let found := value (uia_tabs env hwnd) in
  let tabs := value (get_browser_tabs env hwnd screenshot) in
  (tabs = USE_OCR <->
     (found = [] /\ strip_croppable env hwnd screenshot) \/ found = USE_OCR) /\
  (tabs = USE_OCR \/ tabs = found) /\
  (tree_searchable env hwnd = false -> found = []).
Proof.
  intros found tabs. split; [|split]; [| |apply uia_tabs_unsearchable].
  - unfold tabs, get_browser_tabs. rewrite value_bind. fold found.
    destruct screenshot as [shot|].
    + destruct found as [|tab rest]; simpl.
      * rewrite value_bind. simpl.
        destruct (w_rect (os_window env hwnd)) as [[[[l t] r] b]|] eqn:Hrect.
        -- rewrite value_bind. simpl.
           destruct (crop env shot (0, 0, r - l, 80)) as [region|] eqn:Hcrop; simpl.
           ++ split; [intros _|done]. left. split; [done|].
              exists shot, l, t, r, b, region. done.
           ++ split; [done|]. intros [[_ (s & l' & t' & r' & b' & reg & Hs & Hr & Hc)]|H];
                [|done]. injection Hs as <-. rewrite Hrect in Hr.
              injection Hr as <- <- <- <-. rewrite Hcrop in Hc. done.
        -- simpl. split; [done|].
           intros [[_ (s & l' & t' & r' & b' & reg & Hs & Hr & Hc)]|H]; [|done].
           rewrite Hrect in Hr. done.
      * split; [auto|]. intros [[H _]|H]; done.
    + simpl. split; [auto|].
      intros [[_ (s & l' & t' & r' & b' & reg & Hs & Hr & Hc)]|H]; done.
  - unfold tabs, get_browser_tabs. rewrite value_bind. fold found.
    destruct screenshot as [shot|]; [|now right].
    destruct (length found =? 0)%nat; [|now right].
    rewrite value_bind. simpl.
    destruct (w_rect (os_window env hwnd)) as [[[[l t] r] b]|]; [|now right].
    rewrite value_bind. simpl.
    destruct (crop env shot _); [now left|now right].
Qed.

(** ** Window analysis *)

Lemma find_window_trace (env : Env Image) (ident : string) :
  trace (find_window env ident) = [EvEnumWindows].
Proof. reflexivity. Qed.

Lemma get_all_windows_trace (env : Env Image) :
  trace (get_all_windows env) = [EvEnumWindows].
Proof. reflexivity. Qed.

Lemma filter_none {A} (f : A -> bool) (l : list A) :
  (forall x, In x l -> f x = false) -> List.filter f l = [].
Proof.
  induction l as [|x l IH]; intros H; simpl; [reflexivity|].
  rewrite (H x) by now left. apply IH. intros y Hy. apply H. now right.
Qed.

(** No visible window has the identifier in its title: [find_window]
    finds nothing. *)
Lemma find_window_miss (env : Env Image) (ident : string) :
  (forall hwnd, In hwnd (enum_windows env) ->
                title_matches env (Py.lower ident) hwnd = false) ->
  value (find_window env ident) = None.
Proof.
  intros H. unfold find_window. rewrite value_bind. simpl.
  now rewrite filter_none.
Qed.

(** The miss branch of [analyze_window]. *)
Lemma analyze_window_miss (env : Env Image) (now : Q) (ident : string)
    (capture_screenshot detect_text_ get_ui_tree_ : bool) :
  falsy_hwnd (value (find_window env ident)) = true ->
  analyze_window env now ident capture_screenshot detect_text_ get_ui_tree_
  = ([EvEnumWindows; EvEnumWindows],
     Returned (<["available_windows" :=
                   VStrs (map c_title (value (get_all_windows env)))]>
                 {["error" := VStr (not_found_message ident)]})).
Proof.
  intros H. unfold analyze_window. apply M_eq.
  - rewrite trace_bind, H, trace_bind. reflexivity.
  - rewrite value_bind, H, value_bind. reflexivity.
Qed.

(** C7.  When the identifier is in the title of no visible window of the
    registry, [analyze_window] returns (it does not raise) a dictionary
    with the key [error] whose [available_windows] is the list of the titles
    of all the windows of [get_all_windows]; the only calls of the run are
    the two enumerations of the windows: no capture, no text detection, no
    tab extraction. *)
Theorem analyze_window_not_found (env : Env Image) (now : Q) (ident : string)
    (capture_screenshot detect_text_ get_ui_tree_ : bool) :
  (forall hwnd, In hwnd (enum_windows env) ->
                title_matches env (Py.lower ident) hwnd = false) ->
  let run := analyze_window env now ident capture_screenshot detect_text_ get_ui_tree_ in
  let catalog := value (get_all_windows env) in
  exists (result : gmap string (Value Image)) (titles : list string),
    value run = Returned result /\
    result !! "error" = Some (VStr (not_found_message ident)) /\
    result !! "available_windows" = Some (VStrs titles) /\
    titles = map c_title catalog /\
    (forall w, In w catalog -> In (c_title w) titles) /\
    trace run = [EvEnumWindows; EvEnumWindows].
Proof.
  intros Hmiss run catalog.
  assert (Hrun : run = ([EvEnumWindows; EvEnumWindows],
     Returned (<["available_windows" := VStrs (map c_title catalog)]>
                 {["error" := VStr (not_found_message ident)]}))).
  { apply analyze_window_miss. now rewrite find_window_miss. }
  eexists _, (map c_title catalog). rewrite Hrun. simpl.
  split; [reflexivity|]. split; [|split; [|split; [|split]]].
  - rewrite lookup_insert_ne by done. apply lookup_singleton_eq.
  - apply lookup_insert_eq.
  - reflexivity.
  - intros w Hw. now apply in_map.
  - reflexivity.
Qed.

(** The entries of the catalog are the visible windows with a title whose
    rectangle and class can be read. *)
Lemma get_all_windows_titles (env : Env Image) (title : string) :
  In title (map c_title (value (get_all_windows env))) <->
  exists hwnd, In hwnd (enum_windows env) /\
    w_visible (os_window env hwnd) = true /\
    w_title (os_window env hwnd) = title /\ title <> "" /\
    is_Some (w_rect (os_window env hwnd)) /\
    is_Some (w_class (os_window env hwnd)).
Proof.
  unfold get_all_windows. rewrite value_bind. simpl.
  rewrite in_map_iff. split.
  - intros (w & <- & Hw). apply list_elem_of_In, list_elem_of_omap in Hw
      as (hwnd & Hin & Hentry).
    exists hwnd. split; [now apply list_elem_of_In|].
    unfold catalog_entry in Hentry.
    destruct (w_visible _); [|done].
    destruct (w_title (os_window env hwnd)) eqn:Ht; [done|]. simpl in Hentry.
    destruct (w_rect _); [|done]. destruct (w_class _); [|done].
    simpl in Hentry. injection Hentry as <-. simpl. eauto 10.
  - intros (hwnd & Hin & Hv & Ht & Hne & [rect Hr] & [cls Hc]).
    exists (mkEntry hwnd title rect cls). split; [reflexivity|].
    apply list_elem_of_In, list_elem_of_omap. exists hwnd.
    split; [now apply list_elem_of_In|].
    unfold catalog_entry. rewrite Hv, Ht, Hr, Hc.
    destruct title; [done|reflexivity].
Qed.

Lemma contains_empty (p : string) : p <> "" -> Py.contains "" p = false.
Proof. destruct p; [done|reflexivity]. Qed.

Lemma lower_empty (s : string) : Py.lower s = "" -> s = "".
Proof. destruct s; [done|discriminate]. Qed.

(** For an identifier that is not empty and a registry whose visible titled
    windows can all be read, to be in no title of the catalog is to be
    missed by [find_window]. *)
Lemma catalog_miss_find_miss (env : Env Image) (ident : string) :
  ident <> "" ->
  (forall hwnd, In hwnd (enum_windows env) ->
     w_visible (os_window env hwnd) = true ->
     w_title (os_window env hwnd) <> "" ->
     is_Some (w_rect (os_window env hwnd)) /\ is_Some (w_class (os_window env hwnd))) ->
  (forall title, In title (map c_title (value (get_all_windows env))) ->
     Py.contains (Py.lower title) (Py.lower ident) = false) ->
  forall hwnd, In hwnd (enum_windows env) ->
    title_matches env (Py.lower ident) hwnd = false.
Proof.
  intros Hne Hread Hcat hwnd Hin. unfold title_matches.
  destruct (w_visible (os_window env hwnd)) eqn:Hv; [simpl|reflexivity].
  destruct (decide (w_title (os_window env hwnd) = "")) as [Ht|Ht].
  - rewrite Ht. apply contains_empty. intros H. now apply lower_empty in H.
  - apply Hcat. apply get_all_windows_titles. exists hwnd.
    destruct (Hread hwnd Hin Hv Ht) as [Hr Hc]. auto 10.
Qed.

Lemma with_tabs_lookup (tabs : list string) (result : gmap string (Value Image)) (k : string) :
  k <> "browser_tabs" -> with_tabs tabs result !! k = result !! k.
Proof.
  intros Hk. destruct tabs; simpl; [reflexivity|].
  now rewrite lookup_insert_ne.
Qed.

Lemma ui_tree_step_lookup (env : Env Image) (hwnd : Z) (get_ui_tree_ : bool)
    (result : gmap string (Value Image)) (k : string) :
  k <> "ui_elements" -> k <> "ui_element_count" ->
  value (ui_tree_step env hwnd get_ui_tree_ result) !! k = result !! k.
Proof.
  intros H1 H2. unfold ui_tree_step. destruct get_ui_tree_; [|reflexivity].
  rewrite value_bind. simpl. now rewrite !lookup_insert_ne.
Qed.

Lemma analyze_window_hit (env : Env Image) (now : Q) (ident : string)
    (capture_screenshot detect_text_ get_ui_tree_ : bool) (hwnd : Z) :
  value (find_window env ident) = Some hwnd -> hwnd <> 0 ->
  analyze_window env now ident capture_screenshot detect_text_ get_ui_tree_
  = (_ ← find_window env ident;
     window_info ← get_window_info env hwnd;
     captured ← capture_step env hwnd capture_screenshot detect_text_
                  (<["timestamp" := VFloat now]> {["window_info" := VInfo window_info]});
     after_capture env hwnd capture_screenshot get_ui_tree_ captured).
Proof.
  intros Hf Hz. unfold analyze_window.
  assert (Hfalsy : falsy_hwnd (value (find_window env ident)) = false).
  { rewrite Hf. simpl. now apply Z.eqb_neq. }
  apply M_eq.
  - rewrite !(trace_bind (find_window env ident)), Hfalsy, Hf. reflexivity.
  - rewrite !(value_bind (find_window env ident)), Hfalsy, Hf. reflexivity.
Qed.

(** C8.  When the window is found, the capture is requested and
    [capture_window] returns no image, [analyze_window] returns a
    dictionary (it does not raise) in which [screenshot_error] is set and
    [text_detections], [extracted_text] and [screenshot] are absent; the
    window information is still there. *)
Theorem analyze_window_capture_failed (env : Env Image) (now : Q) (ident : string)
    (detect_text_ get_ui_tree_ : bool) (hwnd : Z) :
  value (find_window env ident) = Some hwnd -> hwnd <> 0 ->
  value (capture_window env hwnd) = None ->
  exists result : gmap string (Value Image),
    value (analyze_window env now ident true detect_text_ get_ui_tree_)
    = Returned result /\
    result !! "screenshot_error" = Some (VStr "Failed to capture window") /\
    result !! "text_detections" = None /\
    result !! "extracted_text" = None /\
    result !! "screenshot" = None /\
    result !! "error" = None /\
    result !! "window_info" = Some (VInfo (value (get_window_info env hwnd))).
Proof.
  intros Hf Hz Hcap.
  rewrite (analyze_window_hit env now ident true detect_text_ get_ui_tree_ hwnd Hf Hz).
  rewrite !value_bind.
  set (result0 := <["timestamp" := VFloat now]>
                    {["window_info" := VInfo (value (get_window_info env hwnd))]}
                  : gmap string (Value Image)).
  assert (Hstep : value (capture_step env hwnd true detect_text_ result0)
                  = (Some None,
                     <["screenshot_error" := VStr "Failed to capture window"]> result0)).
  { unfold capture_step. rewrite value_bind, Hcap. reflexivity. }
  rewrite Hstep. unfold after_capture. rewrite !value_bind.
  set (result1 := value (ui_tree_step env hwnd get_ui_tree_ _)).
  set (tabs := value (get_browser_tabs env hwnd _)).
  assert (Hlook : forall k, k <> "ui_elements" -> k <> "ui_element_count" ->
            k <> "browser_tabs" ->
            with_tabs tabs result1 !! k
            = (<["screenshot_error" := VStr "Failed to capture window"]> result0) !! k).
  { intros k H1 H2 H3. rewrite with_tabs_lookup by done.
    unfold result1. now rewrite ui_tree_step_lookup. }
  exists (with_tabs tabs result1). split.
  - now destruct (is_use_ocr tabs).
  - rewrite !Hlook by done. unfold result0.
    repeat split; by simplify_map_eq.
Qed.

(** ** Summaries and the clock *)

Lemma agree_insert (k : string) (v : Value Image) (r1 r2 : gmap string (Value Image)) :
  agree r1 r2 -> agree (<[k := v]> r1) (<[k := v]> r2).
Proof.
  intros H k' Hk'. destruct (decide (k = k')) as [->|Hne].
  - now rewrite !lookup_insert_eq.
  - rewrite !lookup_insert_ne by done. now apply H.
Qed.

Lemma agree_with_tabs (tabs : list string) (r1 r2 : gmap string (Value Image)) :
  agree r1 r2 -> agree (with_tabs tabs r1) (with_tabs tabs r2).
Proof. intros H. destruct tabs; simpl; [exact H|]. now apply agree_insert. Qed.

Lemma capture_step_agree (env : Env Image) (hwnd : Z) (cs dt : bool)
    (r1 r2 : gmap string (Value Image)) :
  agree r1 r2 ->
  trace (capture_step env hwnd cs dt r1) = trace (capture_step env hwnd cs dt r2) /\
  fst (value (capture_step env hwnd cs dt r1))
  = fst (value (capture_step env hwnd cs dt r2)) /\
  agree (snd (value (capture_step env hwnd cs dt r1)))
        (snd (value (capture_step env hwnd cs dt r2))).
Proof.
  intros H. unfold capture_step. destruct cs; [|now simpl].
  rewrite !trace_bind, !value_bind.
  destruct (value (capture_window env hwnd)) as [shot|].
  - destruct dt.
    + rewrite !trace_bind, !value_bind. simpl.
      repeat split. now repeat apply agree_insert.
    + simpl. repeat split. now repeat apply agree_insert.
  - simpl. repeat split. now apply agree_insert.
Qed.

Lemma ui_tree_step_agree (env : Env Image) (hwnd : Z) (ut : bool)
    (r1 r2 : gmap string (Value Image)) :
  agree r1 r2 ->
  trace (ui_tree_step env hwnd ut r1) = trace (ui_tree_step env hwnd ut r2) /\
  agree (value (ui_tree_step env hwnd ut r1)) (value (ui_tree_step env hwnd ut r2)).
Proof.
  intros H. unfold ui_tree_step. destruct ut; [|now simpl].
  rewrite !trace_bind, !value_bind. simpl. split; [reflexivity|].
  now repeat apply agree_insert.
Qed.

Lemma capture_step_no_error (env : Env Image) (hwnd : Z) (cs dt : bool)
    (r : gmap string (Value Image)) :
  r !! "error" = None ->
  snd (value (capture_step env hwnd cs dt r)) !! "error" = None.
Proof.
  intros H. unfold capture_step. destruct cs; [|now simpl].
  rewrite !value_bind.
  destruct (value (capture_window env hwnd)) as [shot|].
  - destruct dt; [rewrite !value_bind|]; simpl; now rewrite !lookup_insert_ne.
  - simpl. now rewrite lookup_insert_ne.
Qed.

Lemma after_capture_agree (env : Env Image) (hwnd : Z) (cs ut : bool)
    (screenshot : option (option Image)) (r1 r2 : gmap string (Value Image)) :
  agree r1 r2 -> r1 !! "error" = None -> r2 !! "error" = None ->
  trace (after_capture env hwnd cs ut (screenshot, r1))
  = trace (after_capture env hwnd cs ut (screenshot, r2)) /\
  same_outcome (value (after_capture env hwnd cs ut (screenshot, r1)))
               (value (after_capture env hwnd cs ut (screenshot, r2))).
Proof.
  intros H He1 He2. unfold after_capture.
  destruct (ui_tree_step_agree env hwnd ut r1 r2 H) as [Ht Ha].
  rewrite !trace_bind, !value_bind, Ht.
  set (u1 := value (ui_tree_step env hwnd ut r1)) in *.
  set (u2 := value (ui_tree_step env hwnd ut r2)) in *.
  set (tabs := value (get_browser_tabs env hwnd _)).
  assert (Hret : forall tabs', same_outcome (Returned (with_tabs tabs' u1))
                                            (Returned (with_tabs tabs' u2))).
  { intros tabs'. right. exists (with_tabs tabs' u1), (with_tabs tabs' u2).
    repeat split; [now apply agree_with_tabs| |].
    - rewrite with_tabs_lookup by done. unfold u1.
      now rewrite ui_tree_step_lookup.
    - rewrite with_tabs_lookup by done. unfold u2.
      now rewrite ui_tree_step_lookup. }
  destruct (is_use_ocr tabs).
  - destruct screenshot as [[shot|]|]; simpl.
    + rewrite !trace_bind, !value_bind. simpl. split; [reflexivity|apply Hret].
    + split; [reflexivity|apply Hret].
    + split; [reflexivity|now left].
  - simpl. split; [reflexivity|apply Hret].
Qed.

(** Two runs of [analyze_window] that differ in the reading of the clock
    make the same calls and have the same outcome up to the time stamp. *)
Lemma analyze_window_clock (env : Env Image) (t1 t2 : Q) (ident : string) (cs dt ut : bool) :
  trace (analyze_window env t1 ident cs dt ut)
  = trace (analyze_window env t2 ident cs dt ut) /\
  same_outcome (value (analyze_window env t1 ident cs dt ut))
               (value (analyze_window env t2 ident cs dt ut)).
Proof.
  destruct (falsy_hwnd (value (find_window env ident))) eqn:Hfalsy.
  - rewrite !analyze_window_miss by exact Hfalsy. split; [reflexivity|now left].
  - destruct (value (find_window env ident)) as [hwnd|] eqn:Hf; [|discriminate].
    simpl in Hfalsy. apply Z.eqb_neq in Hfalsy.
    rewrite !(analyze_window_hit env _ ident cs dt ut hwnd Hf Hfalsy).
    rewrite !trace_bind, !value_bind.
    set (wi := value (get_window_info env hwnd)).
    set (r1 := <["timestamp" := VFloat t1]> {["window_info" := VInfo wi]}
               : gmap string (Value Image)).
    set (r2 := <["timestamp" := VFloat t2]> {["window_info" := VInfo wi]}
               : gmap string (Value Image)).
    assert (Hagree : agree r1 r2).
    { intros k Hk. unfold r1, r2. now rewrite !lookup_insert_ne. }
    assert (He1 : r1 !! "error" = None) by (unfold r1; by simplify_map_eq).
    assert (He2 : r2 !! "error" = None) by (unfold r2; by simplify_map_eq).
    destruct (capture_step_agree env hwnd cs dt r1 r2 Hagree) as (Ht & Hs & Ha).
    pose proof (capture_step_no_error env hwnd cs dt r1 He1) as Hc1.
    pose proof (capture_step_no_error env hwnd cs dt r2 He2) as Hc2.
    rewrite Ht.
    destruct (value (capture_step env hwnd cs dt r1)) as [s1 c1].
    destruct (value (capture_step env hwnd cs dt r2)) as [s2 c2].
    simpl in Hs, Ha, Hc1, Hc2. subst s2.
    destruct (after_capture_agree env hwnd cs ut s1 c1 c2 Ha Hc1 Hc2) as [Ht' Ho].
    rewrite Ht'. split; [reflexivity|exact Ho].
Qed.

(** C9.  Two calls of [get_window_summary] for the same identifier with the
    same answers of the collaborators make the same calls and have the same
    outcome, whatever the two readings of the clock: the summary has no
    time stamp, and the result it is made from differs at the time stamp
    only. *)
Theorem get_window_summary_idempotent (env : Env Image) (t1 t2 : Q) (ident : string) :
  get_window_summary env t1 ident = get_window_summary env t2 ident.
Proof.
  unfold get_window_summary.
  destruct (analyze_window_clock env t1 t2 ident true true false) as [Ht Ho].
  apply M_eq.
  - rewrite !trace_bind, Ht. f_equal.
    destruct Ho as [->|(r1 & r2 & -> & -> & Ha & He1 & He2)]; [reflexivity|].
    rewrite !bool_decide_eq_false_2 by (rewrite ?He1, ?He2; apply is_Some_None).
    rewrite (Ha "window_info") by done.
    destruct (r2 !! "window_info") as [[]|]; try reflexivity.
    now destruct i.
  - rewrite !value_bind.
    destruct Ho as [->|(r1 & r2 & -> & -> & Ha & He1 & He2)]; [reflexivity|].
    rewrite !bool_decide_eq_false_2 by (rewrite ?He1, ?He2; apply is_Some_None).
    rewrite (Ha "window_info") by done.
    destruct (r2 !! "window_info") as [[]|]; try reflexivity.
    destruct i; [reflexivity|]. simpl.
    unfold dict_get. rewrite (Ha "browser_tabs") by done.
    now rewrite (Ha "extracted_text") by done.
Qed.

(** * Further properties *)

(** ** The detections of the two engines *)

Lemma fold_min_le (l : list Q) (m : Q) :
  (fold_left (fun m y => if Qle_bool m y then m else y) l m <= m)%Q.
Proof.
  revert m. induction l as [|y l IH]; intros m; simpl; [apply Qle_refl|].
  destruct (Qle_bool m y) eqn:E; [apply IH|].
  eapply Qle_trans; [apply IH|].
  apply Qlt_le_weak, Qnot_le_lt. intros H. apply Qle_bool_iff in H. congruence.
Qed.

Lemma fold_max_ge (l : list Q) (m : Q) :
  (m <= fold_left (fun m y => if Qle_bool y m then m else y) l m)%Q.
Proof.
  revert m. induction l as [|y l IH]; intros m; simpl; [apply Qle_refl|].
  destruct (Qle_bool y m) eqn:E; [apply IH|].
  eapply Qle_trans; [|apply IH].
  apply Qlt_le_weak, Qnot_le_lt. intros H. apply Qle_bool_iff in H. congruence.
Qed.

Lemma min_list_le_max_list (l : list Q) (a b : Q) :
  Py.min_list l = Some a -> Py.max_list l = Some b -> (a <= b)%Q.
Proof.
  destruct l as [|x l]; [discriminate|]. simpl. intros [= <-] [= <-].
  eapply Qle_trans; [apply fold_min_le|apply fold_max_ge].
Qed.

Lemma div_mono_frac (n1 n2 : Z) (d1 d2 : positive) :
  n1 * Zpos d2 <= n2 * Zpos d1 -> n1 / Zpos d1 <= n2 / Zpos d2.
Proof.
  intros H. apply Z.div_le_lower_bound; [lia|].
  assert (Hd : 0 < Zpos d1) by lia.
  pose proof (Z.mul_div_le n1 (Zpos d1) Hd) as Hk.
  assert (Hd2 : 0 < Zpos d2) by lia.
  apply (Z.mul_le_mono_pos_l _ _ (Zpos d1)); [exact Hd|].
  transitivity (n1 * Zpos d2); [|lia].
  transitivity (Zpos d2 * (Zpos d1 * (n1 / Zpos d1))); [lia|].
  rewrite (Z.mul_comm n1). apply Z.mul_le_mono_nonneg_l; lia.
Qed.

(** [int] is monotone. *)
Lemma int_of_float_mono (a b : Q) :
  (a <= b)%Q -> Py.int_of_float a <= Py.int_of_float b.
Proof.
  destruct a as [n1 d1], b as [n2 d2]. unfold Qle, Py.int_of_float. simpl.
  intros H.
  destruct (Z_le_gt_dec 0 n1) as [H1|H1], (Z_le_gt_dec 0 n2) as [H2|H2].
  - rewrite !Z.quot_div_nonneg by lia. now apply div_mono_frac.
  - nia.
  - replace n1 with (- (- n1)) by lia. rewrite Z.quot_opp_l by lia.
    rewrite !Z.quot_div_nonneg by lia.
    assert (0 <= (- n1) / Zpos d1) by (apply Z.div_pos; lia).
    assert (0 <= n2 / Zpos d2) by (apply Z.div_pos; lia). lia.
  - replace n1 with (- (- n1)) by lia. replace n2 with (- (- n2)) by lia.
    rewrite (Z.quot_opp_l (- n1)), (Z.quot_opp_l (- n2)) by lia.
    rewrite !Z.quot_div_nonneg by lia.
    apply Z.opp_le_mono. rewrite !Z.opp_involutive.
    apply div_mono_frac. lia.
Qed.

Lemma easy_detection_ordered (r : EasyResult) (d : Detection) :
  easy_detection r = Some d ->
  bx1 (d_bbox d) <= bx2 (d_bbox d) /\ by1 (d_bbox d) <= by2 (d_bbox d) /\
  d_text d = e_text r /\ d_confidence d = e_conf r /\ d_engine d = easyocr.
Proof.
  unfold easy_detection.
  destruct (Py.min_list (map fst (e_points r))) as [x1|] eqn:Hx1; [|done].
  destruct (Py.min_list (map snd (e_points r))) as [y1|] eqn:Hy1; [|done].
  destruct (Py.max_list (map fst (e_points r))) as [x2|] eqn:Hx2; [|done].
  destruct (Py.max_list (map snd (e_points r))) as [y2|] eqn:Hy2; [|done].
  simpl. intros [= <-]. simpl.
  repeat split; apply int_of_float_mono; eapply min_list_le_max_list; eauto.
Qed.

Lemma mapM_elem {A B} (f : A -> option B) (l : list A) (k : list B) (y : B) :
  mapM f l = Some k -> In y k -> exists x, In x l /\ f x = Some y.
Proof.
  rewrite mapM_Some. induction 1 as [|x y' l k Hxy _ IH]; intros Hin; [destruct Hin|].
  destruct Hin as [<-|Hin]; [exists x; split; [now left|done]|].
  destruct (IH Hin) as (x' & Hx' & Hf). exists x'. split; [now right|done].
Qed.

(** X1.  Every detection of [detect_text_easyocr] has a box whose left
    edge is not right of its right edge and whose top is not below its
    bottom, carries the text and the confidence of one result of the
    reader, and the tag of the engine. *)
Theorem detect_text_easyocr_boxes (env : Env Image) (image : Image) (d : Detection) :
  In d (value (detect_text_easyocr env image)) ->
  bx1 (d_bbox d) <= bx2 (d_bbox d) /\ by1 (d_bbox d) <= by2 (d_bbox d) /\
  d_engine d = easyocr /\
  exists (readtext : Image -> option (list EasyResult)) (results : list EasyResult)
         (r : EasyResult),
    easyocr_reader env = Some readtext /\ readtext image = Some results /\
    In r results /\ d_text d = e_text r /\ d_confidence d = e_conf r.
Proof.
  unfold detect_text_easyocr.
  destruct (easyocr_reader env) as [readtext|]; [|intros []].
  rewrite value_bind. simpl.
  destruct (readtext image) as [results|] eqn:Hres; [|intros []].
  simpl. destruct (mapM easy_detection results) as [ds|] eqn:Hm; [|intros []].
  simpl. intros Hin.
  destruct (mapM_elem _ _ _ _ Hm Hin) as (r & Hr & Hd).
  destruct (easy_detection_ordered r d Hd) as (Hx & Hy & Ht & Hc & He).
  repeat split; try assumption. exists readtext, results, r. auto.
Qed.

Lemma tess_row_kept (data : TessData) (i : nat) (d : Detection) :
  tess_row data i = Some (Some d) ->
  exists raw conf x y w h confidence,
    t_text data !! i = Some raw /\ t_conf data !! i = Some conf /\
    t_left data !! i = Some x /\ t_top data !! i = Some y /\
    t_width data !! i = Some w /\ t_height data !! i = Some h /\
    Py.strip raw <> "" /\ 0 < conf /\
    tess_confidence conf = Some confidence /\
    d = mkDet (Py.strip raw) (mkBBox x y (x + w) (y + h)) confidence tesseract.
Proof.
  unfold tess_row, mbind, option_bind.
  destruct (t_text data !! i) as [raw|]; [|done].
  destruct (t_conf data !! i) as [conf|]; [|done].
  destruct (Py.truthy (Py.strip raw)) eqn:Ht; [|done].
  destruct (0 <? conf) eqn:Hc; [|done]. cbn [andb].
  destruct (t_left data !! i) as [x|]; [|done].
  destruct (t_top data !! i) as [y|]; [|done].
  destruct (t_width data !! i) as [w|]; [|done].
  destruct (t_height data !! i) as [h|]; [|done].
  destruct (tess_confidence conf) as [confidence|] eqn:Hq; [|done].
  intros [= <-]. exists raw, conf, x, y, w, h, confidence.
  repeat split; try reflexivity; try exact Hq.
  - intros E. rewrite E in Ht. discriminate.
  - now apply Z.ltb_lt.
Qed.

(** X2.  Every detection of [detect_text_tesseract] comes from one row of
    the data of Tesseract whose stripped text is not empty and whose
    confidence is above zero: its text is the stripped text, its box is
    [(left, top, left + width, top + height)], its confidence is the double
    [conf / 100.0] of the confidence of the row. *)
Theorem detect_text_tesseract_rows (env : Env Image) (image : Image) (d : Detection) :
  In d (value (detect_text_tesseract env image)) ->
  exists (data : TessData) (i : nat) raw conf x y w h confidence,
    image_to_data env image = Some data /\
    t_text data !! i = Some raw /\ t_conf data !! i = Some conf /\
    t_left data !! i = Some x /\ t_top data !! i = Some y /\
    t_width data !! i = Some w /\ t_height data !! i = Some h /\
    Py.strip raw <> "" /\ 0 < conf /\
    tess_confidence conf = Some confidence /\
    d = mkDet (Py.strip raw) (mkBBox x y (x + w) (y + h)) confidence tesseract.
Proof.
  unfold detect_text_tesseract.
  destruct (TESSERACT_AVAILABLE env); cbn [negb]; [|intros []].
  rewrite value_bind. simpl.
  destruct (image_to_data env image) as [data|]; [|intros []]. simpl.
  destruct (mapM (tess_row data) (seq 0 (length (t_text data)))) as [rows|] eqn:Hm;
    [|intros []].
  simpl. intros Hin.
  apply list_elem_of_In, list_elem_of_omap in Hin as (row & Hrow & Hid).
  simpl in Hid. subst row. apply list_elem_of_In in Hrow.
  destruct (mapM_elem _ _ _ _ Hm Hrow) as (i & _ & Hi).
  destruct (tess_row_kept data i d Hi) as (raw & conf & x & y & w & h & c & H).
  exists data, i, raw, conf, x, y, w, h, c. split; [reflexivity|exact H].
Qed.

(** X3.  The engine that [detect_text] calls is fixed by the configuration:
    EasyOCR is called only under "easyocr" or "both", Tesseract only under
    "tesseract" or under "both" without a reader, and every other engine
    name gives no detection. *)
Theorem detect_text_engine_choice (env : Env Image) (image : Image) :
  (forall img, In (EvReadtext img) (trace (detect_text env image)) ->
     img = image /\ easyocr_reader env <> None /\
     (ocr_engine env = "easyocr" \/ ocr_engine env = "both")) /\
  (forall img, In (EvImageToData img) (trace (detect_text env image)) ->
     img = image /\ TESSERACT_AVAILABLE env = true /\
     (ocr_engine env = "tesseract" \/
      (ocr_engine env = "both" /\ easyocr_reader env = None))) /\
  (value (detect_text env image) <> [] ->
     ocr_engine env = "easyocr" \/ ocr_engine env = "tesseract" \/
     ocr_engine env = "both").
Proof.
  unfold detect_text.
  destruct (String.eqb (ocr_engine env) "easyocr") eqn:E1;
    [apply String.eqb_eq in E1|].
  - simpl. split; [|split]; [| |auto].
    + intros img. unfold detect_text_easyocr.
      destruct (easyocr_reader env) as [r|]; [|intros []].
      rewrite trace_bind. simpl.
      destruct (r image); simpl; intros [[= <-]|[]]; auto.
    + intros img Hin. exfalso. revert Hin. unfold detect_text_easyocr.
      destruct (easyocr_reader env) as [r|]; [|intros []].
      rewrite trace_bind. simpl. destruct (r image); simpl; intros [H|[]]; discriminate.
  - destruct (String.eqb (ocr_engine env) "both") eqn:E2;
      [apply String.eqb_eq in E2|].
    + destruct (easyocr_reader env) as [r|] eqn:Er.
      * rewrite bool_decide_eq_true_2 by eauto. simpl.
        split; [|split]; [| |auto].
        -- intros img. unfold detect_text_easyocr. rewrite Er.
           rewrite trace_bind. simpl.
           destruct (r image); simpl; intros [[= <-]|[]]; auto.
        -- intros img Hin. exfalso. revert Hin. unfold detect_text_easyocr. rewrite Er.
           rewrite trace_bind. simpl.
           destruct (r image); simpl; intros [H|[]]; discriminate.
      * rewrite bool_decide_eq_false_2 by (intros [x Hx]; discriminate). simpl.
        rewrite orb_true_r.
        split; [|split]; [| |auto].
        -- intros img Hin. exfalso. revert Hin. unfold detect_text_tesseract.
           destruct (TESSERACT_AVAILABLE env); cbn [negb]; [|intros []].
           rewrite trace_bind. simpl.
           destruct (image_to_data env image); simpl; intros [H|[]]; discriminate.
        -- intros img. unfold detect_text_tesseract.
           destruct (TESSERACT_AVAILABLE env); cbn [negb]; [|intros []].
           rewrite trace_bind. simpl.
           destruct (image_to_data env image); simpl; intros [[= <-]|[]]; auto.
    + simpl. rewrite orb_false_r.
      destruct (String.eqb (ocr_engine env) "tesseract") eqn:E3;
        [apply String.eqb_eq in E3|].
      * split; [|split]; [| |auto].
        -- intros img Hin. exfalso. revert Hin. unfold detect_text_tesseract.
           destruct (TESSERACT_AVAILABLE env); cbn [negb]; [|intros []].
           rewrite trace_bind. simpl.
           destruct (image_to_data env image); simpl; intros [H|[]]; discriminate.
        -- intros img. unfold detect_text_tesseract.
           destruct (TESSERACT_AVAILABLE env); cbn [negb]; [|intros []].
           rewrite trace_bind. simpl.
           destruct (image_to_data env image); simpl; intros [[= <-]|[]]; auto.
      * simpl. split; [|split]; [intros img []|intros img []|intros H; now elim H].
Qed.

(** ** Visual regions *)

Lemma float_lt_iff (a b : Q) : float_lt a b = true <-> (a < b)%Q.
Proof.
  unfold float_lt. rewrite negb_true_iff. split.
  - intros H. apply Qnot_le_lt. intros Hle. apply Qle_bool_iff in Hle. congruence.
  - intros H. destruct (Qle_bool b a) eqn:E; [|reflexivity].
    apply Qle_bool_iff in E. now apply Qlt_not_le in H.
Qed.

Lemma inject_Z_pos (h : Z) : 0 < h -> (0 < inject_Z h)%Q.
Proof. intros H. change 0%Q with (inject_Z 0). now rewrite <- Zlt_Qlt. Qed.

Lemma ratio_above (c w h : Z) :
  0 < h -> (inject_Z c < inject_Z w / inject_Z h)%Q -> c * h < w.
Proof.
  intros Hh H. pose proof (inject_Z_pos h Hh) as Hq.
  apply (Qmult_lt_compat_r _ _ (inject_Z h)) in H; [|exact Hq].
  rewrite Qmult_comm, (Qmult_comm (inject_Z w / inject_Z h)) in H.
  rewrite Qmult_div_r in H by (intros E; rewrite E in Hq; now apply Qlt_irrefl in Hq).
  rewrite <- inject_Z_mult in H. rewrite <- Zlt_Qlt in H. lia.
Qed.

Lemma ratio_below (c w h : Z) :
  0 < h -> (inject_Z w / inject_Z h < inject_Z c)%Q -> w < c * h.
Proof.
  intros Hh H. pose proof (inject_Z_pos h Hh) as Hq.
  apply (Qmult_lt_compat_r _ _ (inject_Z h)) in H; [|exact Hq].
  rewrite Qmult_comm, (Qmult_comm (inject_Z c)) in H.
  rewrite Qmult_div_r in H by (intros E; rewrite E in Hq; now apply Qlt_irrefl in Hq).
  rewrite <- inject_Z_mult in H. rewrite <- Zlt_Qlt in H. lia.
Qed.

Lemma aspect_of_nonpositive (w h : Z) : h <= 0 -> aspect_of w h = 0%Q.
Proof. intros H. unfold aspect_of. destruct (0 <? h) eqn:E; [|reflexivity].
  apply Z.ltb_lt in E. lia. Qed.

(** What one dictionary of [detect_ui_elements] is made from. *)
Lemma detect_ui_elements_elem
    (cv2 : option (Image -> option (list (Z * Z * Z * Z)))) (image : Image)
    (r : VisualRegion) :
  In r (detect_ui_elements cv2 image) ->
  exists bounding_rects rects x y w h,
    cv2 = Some bounding_rects /\ bounding_rects image = Some rects /\
    In (x, y, w, h) rects /\ 100 <= w * h /\
    r = mkRegion (classify (aspect_of w h) h) (mkBBox x y (x + w) (y + h))
                 (w * h) (aspect_of w h).
Proof.
  unfold detect_ui_elements.
  destruct cv2 as [bounding_rects|]; [|intros []].
  destruct (bounding_rects image) as [rects|] eqn:Hr; [|intros []].
  intros Hin. apply list_elem_of_In, list_elem_of_omap in Hin
    as ([[[x y] w] h] & Hin & Hreg).
  unfold ui_region in Hreg. destruct (w * h <? 100) eqn:Ha; [done|].
  injection Hreg as <-. apply Z.ltb_ge in Ha.
  exists bounding_rects, rects, x, y, w, h.
  repeat split; try done. now apply list_elem_of_In.
Qed.

(** X4.  [detect_ui_elements] never emits a region whose area is below
    100; the area of a region is the width times the height of its box, and
    the regions are not more than the contours. *)
Theorem detect_ui_elements_area
    (cv2 : option (Image -> option (list (Z * Z * Z * Z)))) (image : Image) :
  (forall r : VisualRegion, In r (detect_ui_elements cv2 image) ->
     100 <= v_area r /\
     v_area r = (bx2 (v_bbox r) - bx1 (v_bbox r)) * (by2 (v_bbox r) - by1 (v_bbox r))) /\
  (forall bounding_rects rects,
     cv2 = Some bounding_rects -> bounding_rects image = Some rects ->
     (length (detect_ui_elements cv2 image) <= length rects)%nat).
Proof.
  split.
  - intros r Hin.
    destruct (detect_ui_elements_elem cv2 image r Hin)
      as (br & rects & x & y & w & h & _ & _ & _ & Ha & ->).
    simpl. split; [exact Ha|]. f_equal; lia.
  - intros br rects -> Hr. unfold detect_ui_elements. rewrite Hr.
    clear Hr. induction rects as [|rect rects IH]; [apply Nat.le_refl|].
    cbn [omap list_omap length]. destruct (ui_region rect); cbn [length].
    + apply le_n_S. exact IH.
    + apply Nat.le_le_succ_r. exact IH.
Qed.

(** X5.  A region typed [button] is lower than 50 and more than twice and
    less than ten times as wide as it is high; a region typed [menu_bar] is
    more than ten times as wide as it is high; a region whose height is not
    positive is a [container]. *)
Theorem detect_ui_elements_types
    (cv2 : option (Image -> option (list (Z * Z * Z * Z)))) (image : Image)
    (r : VisualRegion) :
  In r (detect_ui_elements cv2 image) ->
  let w := bx2 (v_bbox r) - bx1 (v_bbox r) in
  let h := by2 (v_bbox r) - by1 (v_bbox r) in
  (v_type r = button -> 0 < h < 50 /\ 2 * h < w < 10 * h) /\
  (v_type r = menu_bar -> 0 < h /\ 10 * h < w) /\
  (h <= 0 -> v_type r = container).
Proof.
  intros Hin.
  destruct (detect_ui_elements_elem cv2 image r Hin)
    as (br & rects & x & y & w & h & _ & _ & _ & Ha & ->).
  simpl. replace (x + w - x) with w by lia. replace (y + h - y) with h by lia.
  unfold classify.
  destruct (Z_lt_le_dec 0 h) as [Hh|Hh].
  - assert (Hasp : aspect_of w h = (inject_Z w / inject_Z h)%Q).
    { unfold aspect_of. now rewrite (proj2 (Z.ltb_lt 0 h) Hh). }
    rewrite Hasp.
    set (ratio := (inject_Z w / inject_Z h)%Q) in *.
    destruct (float_lt 2 ratio && float_lt ratio 10 && (h <? 50)) eqn:Eb.
    + apply andb_true_iff in Eb as [Eb E50]. apply andb_true_iff in Eb as [E2 E10].
      apply float_lt_iff in E2, E10. apply Z.ltb_lt in E50.
      apply (ratio_above 2) in E2; [|exact Hh].
      apply (ratio_below 10) in E10; [|exact Hh].
      split; [intros _; lia|]. split; [discriminate|lia].
    + destruct (float_lt (Qmake 4 5) ratio && float_lt ratio (Qmake 6 5)).
      * split; [discriminate|]. split; [discriminate|lia].
      * destruct (float_lt 10 ratio) eqn:Em.
        -- apply float_lt_iff in Em. apply (ratio_above 10) in Em; [|exact Hh].
           split; [discriminate|]. split; [intros _; lia|lia].
        -- split; [discriminate|]. split; [discriminate|lia].
  - rewrite (aspect_of_nonpositive w h Hh). cbn.
    split; [|split]; try discriminate; reflexivity.
Qed.

(** ** The window catalog and the pixel source *)

Lemma head_filter_Some {A} (f : A -> bool) (l : list A) (x : A) :
  head (List.filter f l) = Some x ->
  exists before after,
    l = before ++ x :: after /\ f x = true /\
    forall y, In y before -> f y = false.
Proof.
  induction l as [|y l IH]; simpl; [discriminate|].
  destruct (f y) eqn:E; simpl.
  - intros [= ->]. exists [], l. repeat split; [exact E|intros ? []].
  - intros H. destruct (IH H) as (before & after & -> & Hx & Hb).
    exists (y :: before), after. repeat split; [exact Hx|].
    intros z [<-|Hz]; auto.
Qed.

Lemma head_filter_None {A} (f : A -> bool) (l : list A) :
  head (List.filter f l) = None <-> forall y, In y l -> f y = false.
Proof.
  induction l as [|y l IH]; simpl; [tauto|].
  destruct (f y) eqn:E; simpl.
  - split; [discriminate|]. intros H. rewrite (H y) in E by now left. discriminate.
  - rewrite IH. split; [intros H z [<-|Hz]; auto|auto].
Qed.

(** X6.  [find_window] returns the first handle of the enumeration that is
    visible and has the identifier in its title, both taken in lower case:
    no handle in front of it matches; and it returns no handle exactly when
    no enumerated window matches. *)
Theorem find_window_first (env : Env Image) (ident : string) :
  (forall hwnd, value (find_window env ident) = Some hwnd ->
     exists before after,
       enum_windows env = before ++ hwnd :: after /\
       w_visible (os_window env hwnd) = true /\
       Py.contains (Py.lower (w_title (os_window env hwnd))) (Py.lower ident) = true /\
       forall h, In h before -> title_matches env (Py.lower ident) h = false) /\
  (value (find_window env ident) = None <->
     forall h, In h (enum_windows env) -> title_matches env (Py.lower ident) h = false).
Proof.
  unfold find_window. rewrite value_bind. simpl. split.
  - intros hwnd H. apply head_filter_Some in H as (before & after & He & Hm & Hb).
    exists before, after. unfold title_matches in Hm.
    apply andb_true_iff in Hm as [Hv Hc]. auto.
  - apply head_filter_None.
Qed.

Lemma contains_nil (s : string) : Py.contains s "" = true.
Proof. destruct s; reflexivity. Qed.

(** X7.  With the empty identifier every visible window matches, with or
    without a title: [find_window] returns the first visible handle of the
    enumeration. *)
Theorem find_window_empty (env : Env Image) :
  value (find_window env "")
  = head (List.filter (fun hwnd => w_visible (os_window env hwnd)) (enum_windows env)).
Proof.
  unfold find_window. rewrite value_bind. simpl. f_equal.
  apply filter_ext. intros hwnd. unfold title_matches.
  now rewrite contains_nil, andb_true_r.
Qed.

(** X8.  [capture_window] asks the pixel source for a rectangle only when
    the rectangle of the window can be read and has a positive width and
    height; the rectangle it asks for has the corner and the size of the
    window; otherwise it returns no image. *)
Theorem capture_window_grabs (env : Env Image) (hwnd : Z) :
  (forall monitor, In (EvGrab monitor) (trace (capture_window env hwnd)) ->
     exists l t r b,
       w_rect (os_window env hwnd) = Some (l, t, r, b) /\
       monitor = (l, t, r - l, b - t) /\ 0 < r - l /\ 0 < b - t /\
       value (capture_window env hwnd) = grab env monitor) /\
  ((forall monitor, ~ In (EvGrab monitor) (trace (capture_window env hwnd))) ->
     value (capture_window env hwnd) = None).
Proof.
  unfold capture_window. rewrite trace_bind, value_bind. simpl.
  destruct (w_rect (os_window env hwnd)) as [[[[l t] r] b]|].
  - destruct ((r - l <=? 0) || (b - t <=? 0)) eqn:E.
    + simpl. split; [|auto]. intros monitor [H|[]]. discriminate.
    + apply orb_false_iff in E as [Ew Eh]. apply Z.leb_gt in Ew, Eh.
      rewrite trace_bind, value_bind. simpl. split.
      * intros monitor [H|[[= <-]|[]]]; [discriminate|].
        exists l, t, r, b. auto.
      * intros H. exfalso. apply (H (l, t, r - l, b - t)). right. now left.
  - simpl. split; [|auto]. intros monitor [H|[]]. discriminate.
Qed.

Lemma catalog_entry_readable (env : Env Image) (hwnd : Z) :
  match catalog_entry env hwnd with
  | Some e => readable env hwnd = true /\ c_hwnd e = hwnd /\
              c_title e = w_title (os_window env hwnd) /\
              w_rect (os_window env hwnd) = Some (c_bbox e) /\
              w_class (os_window env hwnd) = Some (c_class e)
  | None => readable env hwnd = false
  end.
Proof.
  unfold catalog_entry, readable, visible_titled, mbind, option_bind.
  destruct (w_visible (os_window env hwnd)); [|reflexivity].
  destruct (Py.truthy (w_title (os_window env hwnd))); [|reflexivity].
  destruct (w_rect (os_window env hwnd)) as [rect|]; [|reflexivity].
  destruct (w_class (os_window env hwnd)) as [cls|]; simpl.
  - rewrite ?bool_decide_eq_true_2 by eauto. auto.
  - rewrite ?andb_false_r. reflexivity.
Qed.

(** X9.  The handles of [get_all_windows] are the enumerated handles that
    are visible, have a title that is not empty and a rectangle and a class
    that can be read, in the order of the enumeration; each entry carries
    the title, the rectangle and the class of its window. *)
Theorem get_all_windows_handles (env : Env Image) :
  map c_hwnd (value (get_all_windows env))
  = List.filter (readable env) (enum_windows env) /\
  forall e, In e (value (get_all_windows env)) ->
    In (c_hwnd e) (enum_windows env) /\
    w_visible (os_window env (c_hwnd e)) = true /\
    c_title e = w_title (os_window env (c_hwnd e)) /\ c_title e <> "" /\
    w_rect (os_window env (c_hwnd e)) = Some (c_bbox e) /\
    w_class (os_window env (c_hwnd e)) = Some (c_class e).
Proof.
  unfold get_all_windows. rewrite value_bind. simpl. split.
  - induction (enum_windows env) as [|hwnd l IH]; [reflexivity|].
    cbn [omap list_omap List.filter].
    pose proof (catalog_entry_readable env hwnd) as H.
    destruct (catalog_entry env hwnd) as [e|].
    + destruct H as (-> & <- & _). cbn [map]. f_equal. exact IH.
    + rewrite H. exact IH.
  - intros e Hin. apply list_elem_of_In, list_elem_of_omap in Hin as (hwnd & Hin & He).
    pose proof (catalog_entry_readable env hwnd) as H. rewrite He in H.
    destruct H as (Hr & <- & Ht & Hrect & Hcls).
    unfold readable, visible_titled in Hr.
    apply andb_true_iff in Hr as [Hr _]. apply andb_true_iff in Hr as [Hr _].
    apply andb_true_iff in Hr as [Hv Htitle].
    split; [now apply list_elem_of_In|]. repeat split; try assumption.
    rewrite Ht. intros E. rewrite E in Htitle. discriminate.
Qed.

(** ** The accessibility inspector *)

(** Induction on the accessibility tree. *)
Lemma Element_tree_ind (P : Element -> Prop) :
  (forall info rect en vi children,
      Forall P (default [] children) -> P (mkElement info rect en vi children)) ->
  forall e, P e.
Proof.
  intros Hnode. fix IH 1. intros [info rect en vi children].
  apply Hnode. destruct children as [cs|]; simpl; [|constructor].
  induction cs as [|c cs IHcs]; constructor; [apply IH|exact IHcs].
Qed.

Lemma ui_ok_deeper (max_depth depth : Z) (u : UIElement) :
  ui_ok max_depth (depth + 1) u -> ui_ok max_depth depth u.
Proof. unfold ui_ok. intros [H1 H2]. split; [lia|exact H2]. Qed.

Lemma traverse_children (max_depth depth : Z) (cs : list Element) :
  Forall (fun c => forall depth acc, exists new,
            traverse max_depth c depth acc = acc ++ new /\
            Forall (ui_ok max_depth depth) new) cs ->
  forall acc, exists new,
    fold_left (fun acc child => traverse max_depth child (depth + 1) acc) cs acc
    = acc ++ new /\ Forall (ui_ok max_depth depth) new.
Proof.
  induction 1 as [|c cs Hc _ IH]; intros acc; simpl.
  - exists []. split; [now rewrite app_nil_r|constructor].
  - destruct (Hc (depth + 1) acc) as (new1 & -> & H1).
    destruct (IH (acc ++ new1)) as (new2 & -> & H2).
    exists (new1 ++ new2). split; [now rewrite app_assoc|].
    apply Forall_app. split; [|exact H2].
    eapply Forall_impl; [exact H1|]. intros u. apply ui_ok_deeper.
Qed.

Lemma traverse_spec (max_depth : Z) (e : Element) :
  forall depth acc, exists new,
    traverse max_depth e depth acc = acc ++ new /\
    Forall (ui_ok max_depth depth) new.
Proof.
  induction e as [info rect en vi children IH] using Element_tree_ind.
  intros depth acc.
  assert (Hnil : exists new, acc = acc ++ new /\ Forall (ui_ok max_depth depth) new).
  { exists []. split; [now rewrite app_nil_r|constructor]. }
  cbn [traverse].
  destruct (max_depth <? depth) eqn:Ed; [exact Hnil|]. apply Z.ltb_ge in Ed.
  destruct info as [[name_attr type_attr]|]; [|exact Hnil].
  destruct (attr_or name_attr (Some "")) as [name|]; [|exact Hnil].
  destruct (attr_or type_attr (Some "Unknown")) as [control_type|]; [|exact Hnil].
  assert (Hkids : forall new0, Forall (ui_ok max_depth depth) new0 ->
            exists new,
              match children with
              | Some cs =>
                  fold_left (fun acc child => traverse max_depth child (depth + 1) acc)
                            cs (acc ++ new0)
              | None => acc ++ new0
              end = acc ++ new /\ Forall (ui_ok max_depth depth) new).
  { intros new0 H0. destruct children as [cs|]; [|eauto].
    destruct (traverse_children max_depth depth cs IH (acc ++ new0)) as (new1 & -> & H1).
    exists (new0 ++ new1). split; [now rewrite app_assoc|].
    apply Forall_app. auto. }
  destruct (truthy_name name || negb (is_unknown control_type)) eqn:Em.
  - unfold ui_entry, mbind, option_bind. cbn [el_enabled el_visible el_rect].
    destruct (attr_or en true) as [enabled|]; [|exact Hnil].
    destruct (attr_or vi true) as [visible|]; [|exact Hnil].
    apply Hkids. constructor; [|constructor].
    split; simpl; [lia|exact Em].
  - specialize (Hkids [] ltac:(constructor)). rewrite app_nil_r in Hkids. exact Hkids.
Qed.

(** X10.  Every entry of [get_ui_tree] has a depth between 0 and
    [max_depth] and a name that is not empty or a control type other than
    "Unknown"; a bound below zero gives no entry. *)
Theorem get_ui_tree_depth (env : Env Image) (hwnd : Z) (max_depth : Z) :
  (forall u : UIElement, In u (value (get_ui_tree env hwnd max_depth)) ->
     0 <= u_depth u <= max_depth /\
     (truthy_name (u_name u) = true \/ u_type u <> Some "Unknown")) /\
  (max_depth < 0 -> value (get_ui_tree env hwnd max_depth) = []).
Proof.
  assert (Hall : Forall (ui_ok max_depth 0) (value (get_ui_tree env hwnd max_depth))).
  { unfold get_ui_tree.
    destruct (negb (PYWINAUTO_AVAILABLE env) || negb (desktop env)); [constructor|].
    rewrite value_bind. simpl.
    destruct (uia_window env hwnd) as [window|]; [|constructor]. simpl.
    destruct (traverse_spec max_depth window 0 []) as (new & -> & H). exact H. }
  split.
  - intros u Hin. rewrite Forall_forall in Hall.
    destruct (Hall u (proj2 (list_elem_of_In _ _) Hin)) as [Hd Hm].
    split; [exact Hd|]. apply orb_true_iff in Hm as [Hm|Hm]; [now left|right].
    intros E. rewrite E in Hm. discriminate.
  - intros Hneg. destruct (value (get_ui_tree env hwnd max_depth)) as [|u l]; [reflexivity|].
    apply Forall_inv in Hall. destruct Hall as [Hd _]. lia.
Qed.

Lemma mem_In (x : string) (l : list string) : Py.mem x l = true <-> In x l.
Proof.
  unfold Py.mem. rewrite existsb_exists. split.
  - intros (y & Hy & E). apply String.eqb_eq in E. now subst.
  - intros H. exists x. split; [exact H|apply String.eqb_refl].
Qed.

Lemma is_tab_Some (control_type : string) (name : option string) (tabs : list string)
    (tab : string) :
  is_tab control_type name tabs = Some tab ->
  name = Some tab /\ ~ In tab tabs /\ tab_ok tab /\
  Py.contains control_type "tabitem" = true.
Proof.
  unfold is_tab. destruct name as [name|]; [|discriminate].
  destruct (Py.contains control_type "tabitem") eqn:Ec; [|discriminate].
  destruct (Py.truthy name); [|discriminate].
  destruct (Py.mem name tabs) eqn:Em; [discriminate|].
  destruct (3 <? Py.len name) eqn:El; [|discriminate].
  destruct (Py.startswith name "Active View") eqn:Ea; [discriminate|].
  destruct (Py.startswith name "Tab content") eqn:Et; [discriminate|].
  simpl. intros [= <-]. apply Z.ltb_lt in El.
  repeat split; try assumption.
  intros Hin. apply mem_In in Hin. congruence.
Qed.

Lemma search_tabs_children (depth : Z) (cs : list Element) :
  Forall (fun c => forall depth tabs, tabs_ok tabs ->
                                      tabs_ok (search_tabs c depth tabs)) cs ->
  forall tabs, tabs_ok tabs ->
    tabs_ok (fold_left (fun acc child => search_tabs child (depth + 1) acc) cs tabs).
Proof.
  induction 1 as [|c cs Hc _ IH]; intros tabs Hok; simpl; [exact Hok|].
  apply IH, Hc, Hok.
Qed.

Lemma search_tabs_ok (e : Element) :
  forall depth tabs, tabs_ok tabs -> tabs_ok (search_tabs e depth tabs).
Proof.
  induction e as [info rect en vi children IH] using Element_tree_ind.
  intros depth tabs Hok. cbn [search_tabs].
  destruct (10 <? depth); [exact Hok|].
  destruct info as [[name_attr type_attr]|]; [|exact Hok].
  destruct (attr_get type_attr) as [[control_type|]|]; try exact Hok.
  destruct (attr_get name_attr) as [name|]; [|exact Hok].
  assert (Hok' : tabs_ok match is_tab (Py.lower control_type) name tabs with
                         | Some name => tabs ++ [name]
                         | None => tabs
                         end).
  { destruct (is_tab (Py.lower control_type) name tabs) as [tab|] eqn:Et; [|exact Hok].
    apply is_tab_Some in Et as (_ & Hnew & Htab & _).
    destruct Hok as [Hnd Hall]. split.
    - apply NoDup_app. split; [exact Hnd|]. split.
      + intros x Hx Hx'. apply list_elem_of_In in Hx.
        apply list_elem_of_singleton in Hx'. subst x. contradiction.
      + apply NoDup_singleton.
    - apply Forall_app. split; [exact Hall|]. constructor; [exact Htab|constructor]. }
  destruct children as [cs|]; [|exact Hok'].
  now apply search_tabs_children.
Qed.

Lemma uia_tabs_ok (env : Env Image) (hwnd : Z) : tabs_ok (value (uia_tabs env hwnd)).
Proof.
  assert (Hnil : tabs_ok []) by (split; constructor).
  unfold uia_tabs. destruct (PYWINAUTO_AVAILABLE env && desktop env); [|exact Hnil].
  rewrite value_bind. simpl.
  destruct (uia_window env hwnd) as [window|]; [|exact Hnil].
  now apply search_tabs_ok.
Qed.

(** X11.  The list of [get_browser_tabs] holds no name twice, and every
    name in it is longer than three characters and starts neither with
    "Active View" nor with "Tab content"; this also holds of the sentinel. *)
Theorem get_browser_tabs_names (env : Env Image) (hwnd : Z) (screenshot : option Image) :
  let tabs := value (get_browser_tabs env hwnd screenshot) in
  NoDup tabs /\
  forall tab, In tab tabs ->
    3 < Py.len tab /\
    Py.startswith tab "Active View" = false /\
    Py.startswith tab "Tab content" = false.
Proof.
  intros tabs.
  assert (Hok : tabs_ok tabs).
  { assert (Hsent : tabs_ok USE_OCR).
    { split; [apply NoDup_singleton|]. constructor; [|constructor].
      unfold tab_ok. now vm_compute. }
    pose proof (uia_tabs_ok env hwnd) as Hu.
    unfold tabs, get_browser_tabs. rewrite value_bind.
    destruct screenshot as [shot|]; [|exact Hu].
    destruct (length (value (uia_tabs env hwnd)) =? 0)%nat; [|exact Hu].
    rewrite value_bind. simpl.
    destruct (w_rect (os_window env hwnd)) as [[[[l t] r] b]|]; [|exact Hu].
    rewrite value_bind. simpl.
    destruct (crop env shot (0, 0, r - l, 80)); [exact Hsent|exact Hu]. }
  destruct Hok as [Hnd Hall]. split; [exact Hnd|].
  intros tab Hin. rewrite Forall_forall in Hall.
  apply (Hall tab). now apply list_elem_of_In.
Qed.

(** ** The tabs read from the tab bar *)

Lemma truthy_nonempty (s : string) : Py.truthy s = true -> s <> "".
Proof. destruct s; [discriminate|discriminate]. Qed.

Lemma stage_b_accepts_ok (text : string) (x_pos last_x : Z) :
  stage_b_accepts text x_pos last_x = true -> stage_b_tab_ok text.
Proof.
  unfold stage_b_accepts. rewrite !andb_true_iff, !negb_true_iff.
  intros [[[[[Ht [Hl Hu]] _] Hs] Hh] Hw].
  apply Z.ltb_lt in Hl, Hu. repeat split; try assumption; try lia.
  - now apply truthy_nonempty.
  - intros Hin. apply mem_In in Hin. congruence.
Qed.

Lemma stage_b_loop_ok (detections : list Detection) :
  Forall stage_b_tab_ok (fst (stage_b_loop detections)).
Proof.
  unfold stage_b_loop.
  assert (H : forall st, Forall stage_b_tab_ok (fst st) ->
            Forall stage_b_tab_ok (fst (fold_left stage_b_step detections st))).
  { induction detections as [|d ds IH]; intros st Hst; simpl; [exact Hst|].
    apply IH. destruct st as [tabs last_x]. unfold stage_b_step.
    destruct (stage_b_accepts _ _ _) eqn:E; [|exact Hst]. simpl.
    apply Forall_app. split; [exact Hst|].
    constructor; [|constructor]. now apply stage_b_accepts_ok in E. }
  apply H. constructor.
Qed.

Lemma stage_c_loop_ok (detections : list Detection) (tabs : list string) :
  Forall ocr_tab_ok tabs ->
  Forall ocr_tab_ok (fold_left stage_c_step detections tabs).
Proof.
  revert tabs. induction detections as [|d ds IH]; intros tabs Hok; simpl; [exact Hok|].
  apply IH. unfold stage_c_step.
  destruct (Py.truthy (Py.strip (d_text d))) eqn:Et; [|exact Hok].
  destruct ((2 <? Py.len (Py.strip (d_text d))) && (Py.len (Py.strip (d_text d)) <? 60))
    eqn:El; [|exact Hok].
  simpl. apply andb_true_iff in El as [Hl Hu]. apply Z.ltb_lt in Hl, Hu.
  apply Forall_app. split; [exact Hok|]. constructor; [|constructor].
  split; [now apply truthy_nonempty|lia].
Qed.

Lemma stage_b_value_ok (env : Env Image) (hwnd : Z) (screenshot : Image)
    (debug : bool) (width : Z) (tabs : list string) :
  value (stage_b env hwnd screenshot debug) = Some (width, tabs) ->
  Forall stage_b_tab_ok tabs.
Proof.
  unfold stage_b. rewrite value_bind.
  destruct (value (get_window_info env hwnd)) as [msg|wi]; [discriminate|].
  destruct (i_bbox wi) as [[[l t] r] b]. rewrite value_bind. simpl.
  destruct (crop env screenshot _) as [region|]; [|discriminate].
  rewrite value_bind. destruct (value (save_debug _ _ _ _)); [|discriminate].
  rewrite value_bind. simpl. intros [= _ <-]. apply stage_b_loop_ok.
Qed.

Lemma stage_c_value_ok (env : Env Image) (screenshot : Image) (width : Z)
    (debug : bool) (tabs : list string) :
  value (stage_c env screenshot width debug []) = Some tabs ->
  Forall ocr_tab_ok tabs.
Proof.
  unfold stage_c. rewrite value_bind. simpl.
  destruct (crop env screenshot _) as [region|]; [|discriminate].
  rewrite value_bind. destruct (value (save_debug _ _ _ _)); [|discriminate].
  rewrite value_bind. simpl. intros [= <-]. apply stage_c_loop_ok. constructor.
Qed.

(** X12.  [_extract_tabs_with_ocr] returns at most fifteen tabs; every tab
    is a text that is not empty and has between 3 and 59 characters. *)
Theorem extract_tabs_bounds (env : Env Image) (hwnd : Z) (screenshot : Image)
    (debug : bool) :
  let tabs := value (_extract_tabs_with_ocr env hwnd screenshot debug) in
  (length tabs <= 15)%nat /\
  forall tab, In tab tabs -> tab <> "" /\ 2 < Py.len tab < 60.
Proof.
  intros tabs.
  assert (H : (length tabs <= 15)%nat /\ Forall ocr_tab_ok tabs).
  { unfold tabs, _extract_tabs_with_ocr. rewrite value_bind.
    destruct (value (stage_b env hwnd screenshot debug)) as [[width btabs]|] eqn:Hb;
      [|split; [simpl; lia|constructor]].
    apply stage_b_value_ok in Hb.
    destruct btabs as [|tab rest]; cbn [length Nat.eqb].
    - rewrite value_bind.
      destruct (value (stage_c env screenshot width debug [])) as [ctabs|] eqn:Hc;
        [|split; [simpl; lia|constructor]].
      apply stage_c_value_ok in Hc. rewrite value_ret. unfold Py.slice_to. split.
      + rewrite length_take. lia.
      + now apply Forall_take.
    - rewrite value_ret. unfold Py.slice_to. split; [rewrite length_take; lia|].
      apply Forall_take. eapply Forall_impl; [exact Hb|]. now intros t [Ht _]. }
  destruct H as [Hlen Hall]. split; [exact Hlen|].
  intros tab Hin. rewrite Forall_forall in Hall.
  apply (Hall tab). now apply list_elem_of_In.
Qed.

(** X13.  When Stage B accepts a tab, no returned tab is a word of the stop
    list ("New Tab", "Google", "Chrome", ...) or starts with "http" or
    "www". *)
Theorem extract_tabs_stage_b_filter (env : Env Image) (hwnd : Z) (screenshot : Image)
    (debug : bool) (width : Z) (tab : string) (tabs : list string) :
  value (stage_b env hwnd screenshot debug) = Some (width, tab :: tabs) ->
  forall t, In t (value (_extract_tabs_with_ocr env hwnd screenshot debug)) ->
    ~ In t stop_list /\
    Py.startswith t "http" = false /\ Py.startswith t "www" = false.
Proof.
  intros Hb t. pose proof (stage_b_value_ok _ _ _ _ _ _ Hb) as Hok.
  unfold _extract_tabs_with_ocr. rewrite value_bind, Hb. cbn [length Nat.eqb].
  rewrite value_ret. unfold Py.slice_to. intros Hin.
  assert (Hin' : In t (tab :: tabs)).
  { apply list_elem_of_In. apply (subseteq_take 15). now apply list_elem_of_In. }
  rewrite Forall_forall in Hok.
  destruct (Hok t (proj2 (list_elem_of_In _ _) Hin')) as (_ & Hs & Hh & Hw). auto.
Qed.

(** ** The result of [analyze_window] *)

Lemma capture_step_value (env : Env Image) (hwnd : Z) (cs dt : bool)
    (r : gmap string (Value Image)) :
  value (capture_step env hwnd cs dt r)
  = if cs then
      match value (capture_window env hwnd) with
      | Some shot =>
          let r1 := <["screenshot_size" := VSize (size env shot)]>
                      (<["screenshot" := VImage shot]> r) in
          (Some (Some shot),
           if dt then
             <["extracted_text" :=
                 VStr (Py.join " " (map d_text (value (detect_text env shot))))]>
               (<["text_detections" := VDetections (value (detect_text env shot))]> r1)
           else r1)
      | None =>
          (Some None, <["screenshot_error" := VStr "Failed to capture window"]> r)
      end
    else (None, r).
Proof.
  unfold capture_step. destruct cs; [|reflexivity]. rewrite value_bind.
  destruct (value (capture_window env hwnd)) as [shot|]; [|reflexivity].
  destruct dt; [|reflexivity]. now rewrite value_bind.
Qed.

Lemma after_capture_value (env : Env Image) (hwnd : Z) (cs ut : bool)
    (screenshot : option (option Image)) (result : gmap string (Value Image)) :
  let result1 := value (ui_tree_step env hwnd ut result) in
  let tabs := value (get_browser_tabs env hwnd
                       (if cs then mjoin screenshot else None)) in
  value (after_capture env hwnd cs ut (screenshot, result))
  = if is_use_ocr tabs then
      match screenshot with
      | None => Raised "UnboundLocalError"
      | Some None => Returned (with_tabs tabs result1)
      | Some (Some shot) =>
          Returned (with_tabs (value (_extract_tabs_with_ocr env hwnd shot true)) result1)
      end
    else Returned (with_tabs tabs result1).
Proof.
  intros result1 tabs. unfold after_capture. rewrite !value_bind.
  fold result1. fold tabs. destruct (is_use_ocr tabs); [|reflexivity].
  destruct screenshot as [[shot|]|]; try reflexivity. now rewrite value_bind.
Qed.

Lemma analyze_window_hit_value (env : Env Image) (now : Q) (ident : string)
    (cs dt ut : bool) (hwnd : Z) :
  value (find_window env ident) = Some hwnd -> hwnd <> 0 ->
  value (analyze_window env now ident cs dt ut)
  = value (after_capture env hwnd cs ut
             (value (capture_step env hwnd cs dt
                       (<["timestamp" := VFloat now]>
                          {["window_info" := VInfo (value (get_window_info env hwnd))]})))).
Proof.
  intros Hf Hz. rewrite (analyze_window_hit env now ident cs dt ut hwnd Hf Hz).
  now rewrite !value_bind.
Qed.

(** X14.  [analyze_window] lets an exception out in one case only: the
    capture is not requested and the accessibility tree of the window found
    gives the sentinel text as its only tab; the exception is the read of
    the unbound variable [screenshot].  With the capture requested it
    always returns a dictionary. *)
Theorem analyze_window_raises (env : Env Image) (now : Q) (ident : string)
    (cs dt ut : bool) (exc : string) :
  value (analyze_window env now ident cs dt ut) = Raised exc ->
  cs = false /\ exc = "UnboundLocalError" /\
  exists hwnd, value (find_window env ident) = Some hwnd /\ hwnd <> 0 /\
               value (uia_tabs env hwnd) = USE_OCR.
Proof.
  destruct (falsy_hwnd (value (find_window env ident))) eqn:Hfalsy.
  - rewrite analyze_window_miss by exact Hfalsy. discriminate.
  - destruct (value (find_window env ident)) as [hwnd|] eqn:Hf; [|discriminate].
    simpl in Hfalsy. apply Z.eqb_neq in Hfalsy.
    rewrite (analyze_window_hit_value env now ident cs dt ut hwnd Hf Hfalsy).
    rewrite capture_step_value. destruct cs.
    + destruct (value (capture_window env hwnd)) as [shot|];
        rewrite after_capture_value; cbv zeta;
        match goal with |- context [is_use_ocr ?t] => destruct (is_use_ocr t) end;
        discriminate.
    + rewrite after_capture_value. cbv zeta.
      destruct (is_use_ocr _) eqn:Eu; [|discriminate].
      intros [= <-]. split; [reflexivity|]. split; [reflexivity|].
      exists hwnd. split; [reflexivity|]. split; [exact Hfalsy|].
      unfold is_use_ocr in Eu. apply bool_decide_eq_true_1 in Eu.
      unfold get_browser_tabs in Eu. now rewrite value_bind in Eu.
Qed.

(** X15.  The keys of the result for a window that is found: the window
    information and the time stamp always; with a captured image the image
    and its size and, when text detection is requested, the detections and
    their texts joined in the order of detection; without an image none of
    these, and [screenshot_error] exactly when the capture was requested. *)
Theorem analyze_window_keys (env : Env Image) (now : Q) (ident : string)
    (cs dt ut : bool) (hwnd : Z) (r : gmap string (Value Image)) :
  value (find_window env ident) = Some hwnd -> hwnd <> 0 ->
  value (analyze_window env now ident cs dt ut) = Returned r ->
  r !! "window_info" = Some (VInfo (value (get_window_info env hwnd))) /\
  r !! "timestamp" = Some (VFloat now) /\
  r !! "error" = None /\
  match (if cs then value (capture_window env hwnd) else None) with
  | Some shot =>
      r !! "screenshot" = Some (VImage shot) /\
      r !! "screenshot_size" = Some (VSize (size env shot)) /\
      r !! "screenshot_error" = None /\
      r !! "text_detections"
      = (if dt then Some (VDetections (value (detect_text env shot))) else None) /\
      r !! "extracted_text"
      = (if dt then Some (VStr (Py.join " " (map d_text (value (detect_text env shot)))))
         else None)
  | None =>
      r !! "screenshot" = None /\ r !! "screenshot_size" = None /\
      r !! "text_detections" = None /\ r !! "extracted_text" = None /\
      r !! "screenshot_error"
      = (if cs then Some (VStr "Failed to capture window") else None)
  end.
Proof.
  intros Hf Hz.
  rewrite (analyze_window_hit_value env now ident cs dt ut hwnd Hf Hz).
  rewrite capture_step_value.
  set (r0 := <["timestamp" := VFloat now]>
               {["window_info" := VInfo (value (get_window_info env hwnd))]}
             : gmap string (Value Image)).
  assert (Hwith : forall screenshot result,
            value (after_capture env hwnd cs ut (screenshot, result)) = Returned r ->
            forall k, k <> "ui_elements" -> k <> "ui_element_count" ->
                      k <> "browser_tabs" -> r !! k = result !! k).
  { intros screenshot result Hv k H1 H2 H3. rewrite after_capture_value in Hv.
    cbv zeta in Hv.
    assert (Hr : exists tabs, r = with_tabs tabs (value (ui_tree_step env hwnd ut result))).
    { destruct (is_use_ocr _); [destruct screenshot as [[shot|]|]|];
        try discriminate; injection Hv as <-; eauto. }
    destruct Hr as [tabs ->]. rewrite with_tabs_lookup by done.
    now rewrite ui_tree_step_lookup. }
  destruct cs.
  - destruct (value (capture_window env hwnd)) as [shot|].
    + destruct dt; intros Hv; rewrite !(Hwith _ _ Hv) by done; unfold r0;
        repeat split; by simplify_map_eq.
    + intros Hv; rewrite !(Hwith _ _ Hv) by done; unfold r0;
        repeat split; by simplify_map_eq.
  - intros Hv; rewrite !(Hwith _ _ Hv) by done; unfold r0;
      repeat split; by simplify_map_eq.
Qed.

Lemma no_crop_app (t1 t2 : list (Event Image)) :
  no_crop t1 -> no_crop t2 -> no_crop (t1 ++ t2).
Proof. intros H1 H2 img box Hin. apply in_app_or in Hin as [H|H]; [eapply H1|eapply H2]; eauto. Qed.

Lemma no_crop_nil : no_crop (@nil (Event Image)).
Proof. intros img box []. Qed.

Lemma capture_window_no_crop (env : Env Image) (hwnd : Z) :
  no_crop (trace (capture_window env hwnd)).
Proof.
  unfold capture_window. rewrite trace_bind. simpl.
  destruct (w_rect (os_window env hwnd)) as [[[[l t] r] b]|].
  - destruct ((r - l <=? 0) || (b - t <=? 0)).
    + intros img box [H|[]]. discriminate.
    + rewrite trace_bind. simpl. intros img box [H|[H|[]]]; discriminate.
  - intros img box [H|[]]. discriminate.
Qed.

Lemma detect_text_no_crop' (env : Env Image) (image : Image) :
  no_crop (trace (detect_text env image)).
Proof. intros img box. apply detect_text_no_crop. Qed.

Lemma capture_step_no_crop (env : Env Image) (hwnd : Z) (cs dt : bool)
    (r : gmap string (Value Image)) :
  no_crop (trace (capture_step env hwnd cs dt r)).
Proof.
  unfold capture_step. destruct cs; [|apply no_crop_nil].
  rewrite trace_bind. apply no_crop_app; [apply capture_window_no_crop|].
  destruct (value (capture_window env hwnd)) as [shot|]; [|apply no_crop_nil].
  destruct dt; [|apply no_crop_nil].
  rewrite trace_bind. apply no_crop_app; [apply detect_text_no_crop'|apply no_crop_nil].
Qed.

Lemma ui_tree_step_no_crop (env : Env Image) (hwnd : Z) (ut : bool)
    (r : gmap string (Value Image)) :
  no_crop (trace (ui_tree_step env hwnd ut r)).
Proof.
  unfold ui_tree_step. destruct ut; [|apply no_crop_nil].
  rewrite trace_bind. apply no_crop_app; [|apply no_crop_nil].
  unfold get_ui_tree. destruct (_ || _); [apply no_crop_nil|].
  rewrite trace_bind. simpl.
  destruct (uia_window env hwnd); intros img box [H|[]]; discriminate.
Qed.

Lemma uia_tabs_no_crop (env : Env Image) (hwnd : Z) :
  no_crop (trace (uia_tabs env hwnd)).
Proof.
  unfold uia_tabs. destruct (_ && _); [|apply no_crop_nil].
  rewrite trace_bind. simpl.
  destruct (uia_window env hwnd); intros img box [H|[]]; discriminate.
Qed.

(** Tabs found in the tree are the result of [get_browser_tabs], and the
    method asks for nothing else. *)
Lemma get_browser_tabs_found (env : Env Image) (hwnd : Z) (screenshot : option Image) :
  value (uia_tabs env hwnd) <> [] ->
  get_browser_tabs env hwnd screenshot = uia_tabs env hwnd.
Proof.
  intros Hne. unfold get_browser_tabs. apply M_eq.
  - rewrite trace_bind.
    destruct (value (uia_tabs env hwnd)) as [|tab tabs]; [done|].
    destruct screenshot; simpl; now rewrite app_nil_r.
  - rewrite value_bind.
    destruct (value (uia_tabs env hwnd)) as [|tab tabs]; [done|].
    now destruct screenshot.
Qed.

(** X16.  Tabs found in the accessibility tree are final: they are the
    [browser_tabs] of the result, and the run crops no image, so neither
    stage of the recognition of the tab bar runs. *)
Theorem analyze_window_tree_tabs (env : Env Image) (now : Q) (ident : string)
    (cs dt ut : bool) (hwnd : Z) :
  value (find_window env ident) = Some hwnd -> hwnd <> 0 ->
  value (uia_tabs env hwnd) <> [] ->
  value (uia_tabs env hwnd) <> USE_OCR ->
  let run := analyze_window env now ident cs dt ut in
  (exists r, value run = Returned r /\
             r !! "browser_tabs" = Some (VStrs (value (uia_tabs env hwnd)))) /\
  forall img box, ~ In (EvCrop img box) (trace run).
Proof.
  intros Hf Hz Hne Hns run. unfold run.
  rewrite (analyze_window_hit env now ident cs dt ut hwnd Hf Hz).
  rewrite !value_bind, !trace_bind.
  set (r0 := <["timestamp" := VFloat now]>
               {["window_info" := VInfo (value (get_window_info env hwnd))]}
             : gmap string (Value Image)).
  destruct (value (capture_step env hwnd cs dt r0)) as [screenshot result] eqn:Hc.
  unfold after_capture. rewrite !value_bind, !trace_bind.
  rewrite (get_browser_tabs_found env hwnd _ Hne).
  assert (Hu : is_use_ocr (value (uia_tabs env hwnd)) = false).
  { unfold is_use_ocr. now apply bool_decide_eq_false_2. }
  rewrite Hu. split.
  - eexists. split; [reflexivity|].
    destruct (value (uia_tabs env hwnd)) as [|tab tabs]; [done|].
    simpl. apply lookup_insert_eq.
  - fold (no_crop (trace (find_window env ident) ++
                   trace (get_window_info env hwnd) ++
                   trace (capture_step env hwnd cs dt r0) ++
                   trace (ui_tree_step env hwnd ut result) ++
                   trace (uia_tabs env hwnd) ++
                   trace (mret (Returned (with_tabs (value (uia_tabs env hwnd))
                        (value (ui_tree_step env hwnd ut result)))) : M Image _))).
    apply no_crop_app; [intros img box [H|[]]; discriminate|].
    apply no_crop_app;
      [rewrite get_window_info_trace; intros img box [H|[]]; discriminate|].
    apply no_crop_app; [apply capture_step_no_crop|].
    apply no_crop_app; [apply ui_tree_step_no_crop|].
    apply no_crop_app; [apply uia_tabs_no_crop|apply no_crop_nil].
Qed.

(** ** Summaries *)

Lemma capture_step_lookup (env : Env Image) (hwnd : Z) (cs dt : bool)
    (r : gmap string (Value Image)) (k : string) :
  k <> "screenshot" -> k <> "screenshot_size" -> k <> "text_detections" ->
  k <> "extracted_text" -> k <> "screenshot_error" ->
  snd (value (capture_step env hwnd cs dt r)) !! k = r !! k.
Proof.
  intros H1 H2 H3 H4 H5. rewrite capture_step_value.
  destruct cs; [|reflexivity].
  destruct (value (capture_window env hwnd)) as [shot|]; [destruct dt|]; simpl;
    now rewrite !lookup_insert_ne.
Qed.

(** The result for a window that is found, read at a key that the tree and
    tab steps do not write. *)
Lemma analyze_window_hit_lookup (env : Env Image) (now : Q) (ident : string)
    (cs dt ut : bool) (hwnd : Z) (r : gmap string (Value Image)) (k : string) :
  value (find_window env ident) = Some hwnd -> hwnd <> 0 ->
  value (analyze_window env now ident cs dt ut) = Returned r ->
  k <> "ui_elements" -> k <> "ui_element_count" -> k <> "browser_tabs" ->
  r !! k
  = snd (value (capture_step env hwnd cs dt
                  (<["timestamp" := VFloat now]>
                     {["window_info" := VInfo (value (get_window_info env hwnd))]})))
    !! k.
Proof.
  intros Hf Hz Hv H1 H2 H3.
  rewrite (analyze_window_hit_value env now ident cs dt ut hwnd Hf Hz) in Hv.
  destruct (value (capture_step _ _ _ _ _)) as [screenshot result].
  rewrite after_capture_value in Hv. cbv zeta in Hv. simpl.
  assert (Hr : exists tabs, r = with_tabs tabs (value (ui_tree_step env hwnd ut result))).
  { destruct (is_use_ocr _); [destruct screenshot as [[shot|]|]|];
      try discriminate; injection Hv as <-; eauto. }
  destruct Hr as [tabs ->]. rewrite with_tabs_lookup by done.
  now rewrite ui_tree_step_lookup.
Qed.

Lemma analyze_window_capture_returns (env : Env Image) (now : Q) (ident : string)
    (dt ut : bool) :
  exists r, value (analyze_window env now ident true dt ut) = Returned r.
Proof.
  destruct (falsy_hwnd (value (find_window env ident))) eqn:Hfalsy.
  - rewrite analyze_window_miss by exact Hfalsy. eauto.
  - destruct (value (find_window env ident)) as [hwnd|] eqn:Hf; [|discriminate].
    simpl in Hfalsy. apply Z.eqb_neq in Hfalsy.
    rewrite (analyze_window_hit_value env now ident true dt ut hwnd Hf Hfalsy).
    rewrite capture_step_value.
    destruct (value (capture_window env hwnd)) as [shot|];
      rewrite after_capture_value; cbv zeta;
      match goal with |- context [is_use_ocr ?t] => destruct (is_use_ocr t) end; eauto.
Qed.

(** X17.  For a window that is found but whose information cannot be read,
    [get_window_summary] does not return an error result: the subscript
    [window_info['title']] raises [KeyError]. *)
Theorem get_window_summary_key_error (env : Env Image) (now : Q) (ident : string)
    (hwnd : Z) (msg : string) :
  value (find_window env ident) = Some hwnd -> hwnd <> 0 ->
  value (get_window_info env hwnd) = inl msg ->
  value (get_window_summary env now ident) = Raised "KeyError".
Proof.
  intros Hf Hz Hinfo. unfold get_window_summary. rewrite value_bind.
  destruct (analyze_window_capture_returns env now ident true false) as [r Hr].
  rewrite Hr.
  pose proof (analyze_window_hit_lookup env now ident true true false hwnd r
                "error" Hf Hz Hr ltac:(done) ltac:(done) ltac:(done)) as He.
  pose proof (analyze_window_hit_lookup env now ident true true false hwnd r
                "window_info" Hf Hz Hr ltac:(done) ltac:(done) ltac:(done)) as Hw.
  rewrite capture_step_lookup in He, Hw by done.
  rewrite lookup_insert_ne in He, Hw by done.
  rewrite lookup_singleton_ne in He by done.
  rewrite lookup_singleton_eq in Hw. rewrite Hinfo in Hw.
  rewrite bool_decide_eq_false_2 by (rewrite He; apply is_Some_None).
  now rewrite Hw.
Qed.

(** X18.  When the capture of a window that is found fails and its
    information can be read, [get_window_summary] still returns a summary:
    the visible text is the empty string, and the tabs are those of the
    accessibility tree, without any recognition of the tab bar. *)
Theorem get_window_summary_capture_failed (env : Env Image) (now : Q)
    (ident : string) (hwnd : Z) (info : WindowInfo) :
  value (find_window env ident) = Some hwnd -> hwnd <> 0 ->
  value (get_window_info env hwnd) = inr info ->
  value (capture_window env hwnd) = None ->
  exists r, value (get_window_summary env now ident) = Returned r /\
    r !! "window_name" = Some (VStr (i_title info)) /\
    r !! "application" = Some (VStr (i_process_name info)) /\
    r !! "visible_text" = Some (VStr "") /\
    r !! "browser_tabs" = Some (VStrs (value (uia_tabs env hwnd))) /\
    r !! "is_active" = Some (VBool (i_enabled info)) /\
    r !! "position" = Some (VRect (i_bbox info)).
Proof.
  intros Hf Hz Hinfo Hcap. unfold get_window_summary. rewrite value_bind.
  rewrite (analyze_window_hit_value env now ident true true false hwnd Hf Hz).
  rewrite capture_step_value, Hcap, after_capture_value. cbv zeta.
  set (r0 := <["screenshot_error" := VStr "Failed to capture window"]>
               (<["timestamp" := VFloat now]>
                  {["window_info" := VInfo (value (get_window_info env hwnd))]})
             : gmap string (Value Image)).
  assert (Htabs : value (get_browser_tabs env hwnd (mjoin (Some None)))
                  = value (uia_tabs env hwnd)).
  { unfold get_browser_tabs. now rewrite value_bind. }
  rewrite Htabs. set (tabs := value (uia_tabs env hwnd)).
  assert (Hu : value (ui_tree_step env hwnd false r0) = r0) by reflexivity.
  rewrite Hu.
  assert (Hres : (if is_use_ocr tabs then Returned (with_tabs tabs r0)
                  else Returned (with_tabs tabs r0))
                 = Returned (with_tabs tabs r0)) by now destruct (is_use_ocr tabs).
  rewrite Hres.
  assert (He : with_tabs tabs r0 !! "error" = None).
  { rewrite with_tabs_lookup by done. unfold r0. by simplify_map_eq. }
  assert (Hw : with_tabs tabs r0 !! "window_info" = Some (VInfo (inr info))).
  { rewrite with_tabs_lookup by done. unfold r0. rewrite Hinfo. by simplify_map_eq. }
  assert (Hx : with_tabs tabs r0 !! "extracted_text" = None).
  { rewrite with_tabs_lookup by done. unfold r0. by simplify_map_eq. }
  assert (Hb : dict_get (with_tabs tabs r0) "browser_tabs" (VStrs []) = VStrs tabs).
  { unfold dict_get. destruct tabs as [|tab tabs']; simpl.
    - unfold r0. by simplify_map_eq.
    - by rewrite lookup_insert_eq. }
  rewrite bool_decide_eq_false_2 by (rewrite He; apply is_Some_None).
  rewrite Hw. eexists. split; [reflexivity|].
  rewrite Hb. unfold dict_get. rewrite Hx. simpl.
  repeat split; by simplify_map_eq.
Qed.

(** ** Scans of the catalog *)

Lemma content_step_value (env : Env Image) (search_text : string)
    (results : list (CatalogEntry * string)) (window : CatalogEntry) :
  value (content_step env search_text results window)
  = results ++ match content_match env search_text window with
               | Some hit => [hit]
               | None => []
               end.
Proof.
  unfold content_step, content_match. rewrite value_bind.
  destruct (value (capture_window env (c_hwnd window))) as [shot|];
    [|now rewrite app_nil_r].
  rewrite value_bind. cbv zeta.
  destruct (Py.contains _ _); simpl; [reflexivity|now rewrite app_nil_r].
Qed.

Lemma content_loop_value (env : Env Image) (search_text : string)
    (windows : list CatalogEntry) (results : list (CatalogEntry * string)) :
  value (content_loop env search_text windows results)
  = results ++ omap (content_match env search_text) windows.
Proof.
  revert results. induction windows as [|w ws IH]; intros results.
  - simpl. now rewrite app_nil_r.
  - cbn [content_loop]. rewrite value_bind, IH, content_step_value.
    cbn [omap list_omap]. rewrite <- app_assoc.
    now destruct (content_match env search_text w).
Qed.

Lemma omap_fst_sublist {A B} (f : A -> option (A * B)) (l : list A) :
  (forall x y, f x = Some y -> fst y = x) ->
  map fst (omap f l) `sublist_of` l.
Proof.
  intros Hf. induction l as [|x l IH]; [constructor|].
  cbn [omap list_omap]. destruct (f x) as [y|] eqn:E.
  - cbn [map]. rewrite (Hf x y E). now constructor.
  - now constructor.
Qed.

(** X19.  [find_window_by_content] returns a window with a text exactly
    when the window is in the catalog, its capture gives an image, the text
    is the visible text of the image at the threshold 0.5, and the search
    text occurs in it, both in lower case; the windows come in the order of
    the catalog, and a capture that fails drops its window only. *)
Theorem find_window_by_content_matches (env : Env Image) (search_text : string) :
  (forall window text,
      In (window, text) (value (find_window_by_content env search_text)) <->
      In window (value (get_all_windows env)) /\
      exists shot,
        value (capture_window env (c_hwnd window)) = Some shot /\
        text = value (extract_visible_text env shot default_confidence_threshold) /\
        Py.contains (Py.lower text) (Py.lower search_text) = true) /\
  map fst (value (find_window_by_content env search_text))
    `sublist_of` value (get_all_windows env).
Proof.
  assert (Hv : value (find_window_by_content env search_text)
               = omap (content_match env search_text) (value (get_all_windows env))).
  { unfold find_window_by_content. now rewrite value_bind, content_loop_value. }
  rewrite Hv. split.
  - intros window text. rewrite <- !list_elem_of_In, list_elem_of_omap. split.
    + intros (w & Hw & Hm). unfold content_match in Hm.
      destruct (value (capture_window env (c_hwnd w))) as [shot|] eqn:Hc; [|done].
      cbv zeta in Hm. destruct (Py.contains _ _) eqn:E; [|done].
      injection Hm as <- <-. split; [exact Hw|]. exists shot. auto.
    + intros (Hw & shot & Hc & -> & E). exists window. split; [exact Hw|].
      unfold content_match. rewrite Hc. cbv zeta. now rewrite E.
  - apply omap_fst_sublist. intros w [w' t] Hm. unfold content_match in Hm.
    destruct (value (capture_window env (c_hwnd w))); [|done].
    cbv zeta in Hm. destruct (Py.contains _ _); [|done]. now injection Hm as <- _.
Qed.

Lemma catalog_info (env : Env Image) (window : CatalogEntry) :
  In window (value (get_all_windows env)) ->
  exists info, value (get_window_info env (c_hwnd window)) = inr info /\
    mkSummary (i_title info) (i_process_name info) (c_hwnd window)
    = summary_of env window.
Proof.
  unfold get_all_windows. rewrite value_bind. simpl.
  intros Hin. apply list_elem_of_In, list_elem_of_omap in Hin as (hwnd & _ & He).
  pose proof (catalog_entry_readable env hwnd) as H. rewrite He in H.
  destruct H as (_ & <- & Ht & Hrect & Hcls).
  unfold get_window_info. rewrite value_bind. simpl. rewrite Hrect, Hcls.
  unfold summary_of.
  destruct (default ("Unknown", "Unknown") (w_process (os_window env (c_hwnd window))))
    as [pname exe] eqn:Hp.
  eexists. split; [reflexivity|]. simpl. now rewrite Ht.
Qed.

Lemma summary_loop_value (env : Env Image) (windows : list CatalogEntry)
    (summaries : list WindowSummary) :
  (forall w, In w windows -> In w (value (get_all_windows env))) ->
  value (summary_loop env windows summaries)
  = Returned (summaries ++ map (summary_of env) windows).
Proof.
  revert summaries. induction windows as [|w ws IH]; intros summaries Hin.
  - simpl. now rewrite app_nil_r.
  - cbn [summary_loop]. rewrite value_bind.
    destruct (catalog_info env w (Hin w ltac:(now left))) as (info & -> & Hs).
    rewrite IH by (intros w' Hw'; apply Hin; now right).
    rewrite Hs. cbn [map]. now rewrite <- app_assoc.
Qed.

(** X20.  In a registry that answers a query as it answered the
    enumeration, [get_all_windows_summary] does not raise: it returns one
    summary for each window of the catalog, in order, with the title and
    the handle of the window and the name of its process, or "Unknown" when
    the process cannot be read. *)
Theorem get_all_windows_summary_total (env : Env Image) :
  value (get_all_windows_summary env)
  = Returned (map (summary_of env) (value (get_all_windows env))) /\
  forall s, In s (map (summary_of env) (value (get_all_windows env))) ->
    exists window, In window (value (get_all_windows env)) /\
      s_name s = c_title window /\ s_hwnd s = c_hwnd window /\
      (w_process (os_window env (c_hwnd window)) = None -> s_application s = "Unknown").
Proof.
  split.
  - unfold get_all_windows_summary. rewrite value_bind.
    now rewrite summary_loop_value by auto.
  - intros s Hin. apply in_map_iff in Hin as (window & <- & Hw).
    exists window. split; [exact Hw|]. repeat split.
    unfold summary_of. simpl. now intros ->.
Qed.

Lemma m_map_value {A B} (f : A -> M Image B) (l : list A) :
  value (m_map f l) = map (fun x => value (f x)) l.
Proof.
  induction l as [|x l IH]; [reflexivity|].
  cbn [m_map map]. rewrite !value_bind. simpl. now rewrite IH.
Qed.

Lemma get_window_info_hwnd (env : Env Image) (hwnd : Z) :
  info_hwnd (value (get_window_info env hwnd))
  = if bool_decide (is_Some (w_rect (os_window env hwnd)))
       && bool_decide (is_Some (w_class (os_window env hwnd)))
    then Some hwnd else None.
Proof.
  unfold get_window_info. rewrite value_bind. simpl.
  destruct (w_class (os_window env hwnd)) as [cls|];
    destruct (w_rect (os_window env hwnd)) as [rect|]; simpl; try reflexivity.
  destruct (default _ _). reflexivity.
Qed.

Lemma get_all_windows_hwnds (env : Env Image) :
  map c_hwnd (value (get_all_windows env))
  = List.filter (readable env) (enum_windows env).
Proof.
  unfold get_all_windows. rewrite value_bind. simpl.
  induction (enum_windows env) as [|hwnd l IH]; [reflexivity|].
  cbn [omap list_omap List.filter].
  pose proof (catalog_entry_readable env hwnd) as H.
  destruct (catalog_entry env hwnd) as [e|].
  - destruct H as (-> & <- & _). cbn [map]. f_equal. exact IH.
  - rewrite H. exact IH.
Qed.

(** X21.  [list_all_windows] has one entry for each visible window with a
    title, an error entry when the window cannot be read; its entries that
    are not errors are the windows of [get_all_windows], in the same
    order. *)
Theorem list_all_windows_catalog (env : Env Image) :
  length (value (list_all_windows env))
  = length (List.filter (visible_titled env) (enum_windows env)) /\
  omap info_hwnd (value (list_all_windows env))
  = map c_hwnd (value (get_all_windows env)).
Proof.
  rewrite get_all_windows_hwnds.
  unfold list_all_windows. rewrite value_bind, m_map_value. simpl. split.
  - now rewrite length_map.
  - induction (enum_windows env) as [|hwnd l IH]; [reflexivity|].
    cbn [List.filter]. unfold readable at 1.
    destruct (visible_titled env hwnd); cbn [andb map omap list_omap].
    + rewrite get_window_info_hwnd.
      destruct (bool_decide _ && bool_decide _); [f_equal|]; exact IH.
    + exact IH.
Qed.

(** ** The active window *)

Lemma startswith_refl (s : string) : Py.startswith s s = true.
Proof. induction s as [|c s IH]; [reflexivity|]. simpl. now rewrite Ascii.eqb_refl. Qed.

Lemma contains_refl (s : string) : Py.contains s s = true.
Proof. destruct s; [reflexivity|]. cbn [Py.contains]. now rewrite startswith_refl. Qed.

Lemma get_window_info_title (env : Env Image) (hwnd : Z) (info : WindowInfo) :
  value (get_window_info env hwnd) = inr info ->
  i_title info = w_title (os_window env hwnd).
Proof.
  unfold get_window_info. rewrite value_bind. simpl.
  destruct (w_class (os_window env hwnd)); [|discriminate].
  destruct (w_rect (os_window env hwnd)); [|discriminate].
  destruct (default _ _). simpl. now intros [= <-].
Qed.

(** X22.  [analyze_active_window] hands the title of the foreground window
    to [analyze_window], which looks the window up again by its title: when
    the foreground window is visible and enumerated the lookup finds a
    window whose title holds that title, the first such window of the
    enumeration, which need not be the foreground window. *)
Theorem analyze_active_window_delegates (env : Env Image) (foreground : option Z)
    (now : Q) (cs dt ut : bool) (hwnd : Z) (info : WindowInfo) :
  foreground = Some hwnd ->
  value (get_window_info env hwnd) = inr info ->
  i_title info <> "" ->
  value (analyze_active_window env foreground now cs dt ut)
  = value (analyze_window env now (i_title info) cs dt ut) /\
  (In hwnd (enum_windows env) -> w_visible (os_window env hwnd) = true ->
   exists h before after,
     value (find_window env (i_title info)) = Some h /\
     enum_windows env = before ++ h :: after /\
     title_matches env (Py.lower (i_title info)) h = true /\
     forall h', In h' before -> title_matches env (Py.lower (i_title info)) h' = false).
Proof.
  intros -> Hinfo Htitle. split.
  - unfold analyze_active_window, get_focused_window. rewrite !value_bind.
    simpl. rewrite Hinfo.
    destruct (i_title info) eqn:E; [done|]. reflexivity.
  - intros Hin Hvis.
    assert (Hmatch : title_matches env (Py.lower (i_title info)) hwnd = true).
    { unfold title_matches. rewrite Hvis. simpl.
      rewrite (get_window_info_title env hwnd info Hinfo). apply contains_refl. }
    destruct (value (find_window env (i_title info))) as [h|] eqn:Hf.
    + unfold find_window in Hf. rewrite value_bind in Hf. simpl in Hf.
      apply head_filter_Some in Hf as (before & after & He & Hm & Hb).
      exists h, before, after. auto.
    + exfalso. unfold find_window in Hf. rewrite value_bind in Hf. simpl in Hf.
      rewrite head_filter_None in Hf. rewrite (Hf hwnd Hin) in Hmatch. discriminate.
Qed.

(** X23.  When the foreground window cannot be asked, or its information
    cannot be read, or its title is empty, [analyze_active_window] returns
    the error "No active window found" and never enumerates the windows,
    captures or crops. *)
Theorem analyze_active_window_none (env : Env Image) (foreground : option Z)
    (now : Q) (cs dt ut : bool) :
  (forall hwnd info, foreground = Some hwnd ->
     value (get_window_info env hwnd) = inr info -> i_title info = "") ->
  value (analyze_active_window env foreground now cs dt ut)
  = Returned no_active_window /\
  forall e, In e (trace (analyze_active_window env foreground now cs dt ut)) ->
    exists hwnd, foreground = Some hwnd /\ e = EvWindowQuery hwnd.
Proof.
  intros H. unfold analyze_active_window, get_focused_window.
  destruct foreground as [hwnd|].
  - rewrite !trace_bind, !value_bind, get_window_info_trace. simpl.
    destruct (value (get_window_info env hwnd)) as [msg|info] eqn:Hinfo.
    + simpl. split; [reflexivity|]. intros e [<-|[]]. eauto.
    + rewrite (H hwnd info eq_refl Hinfo). simpl.
      split; [reflexivity|]. intros e [<-|[]]. eauto.
  - simpl. split; [reflexivity|]. intros e [].
Qed.

End Properties.

(** * The properties on the sample environments *)

(** The model at work: the window "Docs - Browser" of the sample
    environment has no tab item in its tree, so the tabs come from Stage B
    of the recognition of the tab bar. *)
Example sample_tabs :
  _extract_tabs_with_ocr sample_env 102 1 true
  = ([EvWindowQuery 102; EvCrop 1 (50, 0, 1000, 40);
      EvSave 2 "debug_tab_region.png"; EvReadtext 2],
     ["Inbox"; "Docs"]).
Proof. reflexivity. Qed.

(** Stage B refuses the words of the stop list; Stage C then crops its own
    box and takes them. *)
Example stop_tabs :
  value (stage_b stop_env 102 1 true) = Some (1200, []) /\
  _extract_tabs_with_ocr stop_env 102 1 true
  = ([EvWindowQuery 102; EvCrop 1 (50, 0, 1000, 40);
      EvSave 2 "debug_tab_region.png"; EvReadtext 2;
      EvCrop 1 (80, 5, 1050, 35); EvSave 2 "debug_tab_region_alt.png";
      EvReadtext 2],
     ["Google"; "Chrome"]).
Proof. split; reflexivity. Qed.

Example sample_summary :
  value (get_window_summary sample_env 0 "docs")
  = Returned
      (<["position" := VRect (100, 50, 1300, 850)]>
      (<["is_active" := VBool true]>
      (<["browser_tabs" := VStrs ["Inbox"; "Docs"]]>
      (<["visible_text" := VStr "Inbox Inbox Docs"]>
      (<["application" := VStr "chrome.exe"]>
      {["window_name" := VStr "Docs - Browser"]}))))).
Proof. vm_compute. reflexivity. Qed.

Example sample_visible_text :
  value (extract_visible_text sample_env 1 default_confidence_threshold)
  = "Docs Inbox".
Proof. reflexivity. Qed.

(** Without a screenshot the same window gives no tab and no sentinel. *)
Example sample_no_screenshot :
  value (get_browser_tabs sample_env 102 None) = [].
Proof. reflexivity. Qed.

Lemma detect_text_in_region_remap_sample :
  crop sample_env 1 (10, 20, 410, 60) = Some 2 /\
  exists (dets : list nat) (σ2 : list Detection),
    value (detect_text_in_region sample_env 1 (10, 20, 410, 60) []) = Some (dets, σ2) /\
    dets !! 0%nat = Some 0%nat /\
    exists remapped : Detection,
      σ2 !! 0%nat = Some remapped /\
      bx1 (d_bbox remapped) = bx1 (d_bbox inbox) + 10 /\
      by1 (d_bbox remapped) = by1 (d_bbox inbox) + 20.
Proof.
  split; [reflexivity|].
  destruct (detect_text_in_region_remap sample_env 1 10 20 410 60 [] 2 eq_refl)
    as (dets & σ1 & σ2 & Ho & Hr & _ & Hall).
  exists dets, σ2. split; [exact Hr|].
  assert (Hd : dets !! 0%nat = Some 0%nat).
  { vm_compute in Ho. injection Ho as <- _. reflexivity. }
  split; [exact Hd|].
  destruct (Hall 0%nat 0%nat Hd) as (raw & remapped & Hraw & _ & H2 & Hx & Hy & _).
  vm_compute in Hraw. injection Hraw as <-.
  exists remapped. auto.
Defined.

Lemma detect_text_in_region_frame_sample :
  crop sample_env 1 (10, 20, 410, 60) = Some 2 /\
  exists (dets : list nat) (σ2 : list Detection),
    value (detect_text_in_region sample_env 1 (10, 20, 410, 60) [docs]) = Some (dets, σ2) /\
    length dets = 3%nat /\ σ2 !! 0%nat = Some docs.
Proof.
  split; [reflexivity|].
  destruct (detect_text_in_region_frame sample_env 1 10 20 410 60 [docs] 2 eq_refl)
    as (dets & σ2 & Hr & Hlen & _ & _ & Hold).
  exists dets, σ2. split; [exact Hr|]. split; [exact Hlen|].
  exact (proj1 (Hold 0%nat docs eq_refl)).
Defined.

Lemma extract_visible_text_order_sample :
  exists kept : list Detection,
    value (extract_visible_text sample_env 1 default_confidence_threshold)
    = Py.join " " (map d_text kept) /\
    forall (i : nat) (a b : Detection),
      kept !! i = Some a -> kept !! S i = Some b -> top_of a <= top_of b.
Proof.
  destruct (extract_visible_text_order sample_env 1 default_confidence_threshold)
    as (kept & Hv & _ & _ & Hord).
  exists kept. split; [exact Hv|exact Hord].
Defined.

Lemma detect_text_both_sample :
  ocr_engine sample_env = "both" /\
  trace (detect_text sample_env 1) = [EvReadtext 1].
Proof.
  split; [reflexivity|].
  apply (proj1 (proj2 (detect_text_both sample_env 1 eq_refl))). discriminate.
Defined.

Lemma stage_b_spacing_sample :
  let accepted := fst (stage_b_accepted (Py.sort_by left_of [docs; inbox_again; inbox])) in
  accepted !! 0%nat = Some inbox /\ accepted !! 1%nat = Some docs /\
  30 < left_of docs - left_of inbox.
Proof.
  split; [reflexivity|]. split; [reflexivity|].
  apply (proj2 (stage_b_spacing [docs; inbox_again; inbox]) 0%nat 1%nat inbox docs);
    [lia|reflexivity|reflexivity].
Defined.

Lemma stage_c_iff_stage_b_empty_sample :
  value (stage_b sample_env 102 1 true) = Some (1200, ["Inbox"; "Docs"]) /\
  trace (_extract_tabs_with_ocr sample_env 102 1 true)
  = trace (stage_b sample_env 102 1 true) /\
  value (_extract_tabs_with_ocr sample_env 102 1 true)
  = Py.slice_to 15 ["Inbox"; "Docs"].
Proof.
  split; [reflexivity|].
  apply (proj2 (proj2 (stage_c_iff_stage_b_empty sample_env 102 1 true)) 1200).
  reflexivity.
Defined.

Lemma get_browser_tabs_sentinel_sample :
  value (get_browser_tabs sample_env 102 (Some 1)) = USE_OCR <->
  (value (uia_tabs sample_env 102) = [] /\ strip_croppable sample_env 102 (Some 1))
  \/ value (uia_tabs sample_env 102) = USE_OCR.
Proof. exact (proj1 (get_browser_tabs_sentinel sample_env 102 (Some 1))). Defined.

(** C2 as the specification words it fails on a window whose tree was
    searched and holds no tab, when a screenshot is there: the sentinel
    comes back, not the empty list. *)
Lemma sentinel_claim_fails : ~ sentinel_claim sample_env 102 (Some 1).
Proof.
  intros [_ Hempty].
  assert (H : value (get_browser_tabs sample_env 102 (Some 1)) = [])
    by (apply Hempty; reflexivity).
  vm_compute in H. discriminate H.
Qed.

(** C7 as the specification words it fails on a registry with a visible
    window that the catalog leaves out because its class cannot be read:
    ["ghost"] is in no title of the catalog, yet [find_window] resolves it
    to that window and the run captures it and reads its text; the result
    has no key [error]. *)
Lemma not_found_claim_fails : ~ not_found_claim ghost_env 0 "ghost" true true false.
Proof.
  intros H.
  assert (Hcat : forall w, In w (value (get_all_windows ghost_env)) ->
            Py.contains (Py.lower (c_title w)) (Py.lower "ghost") = false).
  { intros w [<-|[<-|[]]]; reflexivity. }
  destruct (H Hcat) as (result & titles & Hv & He & _).
  vm_compute in Hv. injection Hv as <-.
  vm_compute in He. discriminate He.
Qed.

Lemma analyze_window_not_found_sample :
  (forall hwnd, In hwnd (enum_windows sample_env) ->
                title_matches sample_env (Py.lower "Zzzznonexistent") hwnd = false) /\
  exists result : gmap string (Value Z),
    value (analyze_window sample_env 0 "Zzzznonexistent" true true false)
    = Returned result /\
    result !! "available_windows"
    = Some (VStrs ["Untitled - Notepad"; "Docs - Browser"]).
Proof.
  assert (Hmiss : forall hwnd, In hwnd (enum_windows sample_env) ->
            title_matches sample_env (Py.lower "Zzzznonexistent") hwnd = false).
  { intros hwnd [<-|[<-|[]]]; reflexivity. }
  split; [exact Hmiss|].
  destruct (analyze_window_not_found sample_env 0 "Zzzznonexistent" true true false Hmiss)
    as (result & titles & Hv & _ & Ha & Ht & _).
  exists result. split; [exact Hv|]. rewrite Ha, Ht. reflexivity.
Defined.

Lemma analyze_window_capture_failed_sample :
  value (find_window blind_env "notepad") = Some 101 /\ 101 <> 0 /\
  value (capture_window blind_env 101) = None /\
  exists result : gmap string (Value Z),
    value (analyze_window blind_env 0 "notepad" true true false) = Returned result /\
    result !! "screenshot_error" = Some (VStr "Failed to capture window") /\
    result !! "text_detections" = None /\
    result !! "extracted_text" = None.
Proof.
  assert (Hz : 101 <> 0) by discriminate.
  split; [reflexivity|]. split; [exact Hz|]. split; [reflexivity|].
  destruct (analyze_window_capture_failed blind_env 0 "notepad" true false 101
              eq_refl Hz eq_refl) as (result & Hv & He & Ht & Hx & _).
  exists result. auto.
Defined.

Lemma get_window_summary_idempotent_sample :
  get_window_summary sample_env 0 "notepad"
  = get_window_summary sample_env (Qmake 17 4) "notepad".
Proof. exact (get_window_summary_idempotent sample_env 0 (Qmake 17 4) "notepad"). Defined.

(** * The further properties on the sample environments *)

Lemma detect_text_easyocr_boxes_sample :
  In inbox (value (detect_text_easyocr sample_env 1)) /\
  bx1 (d_bbox inbox) <= bx2 (d_bbox inbox) /\ by1 (d_bbox inbox) <= by2 (d_bbox inbox).
Proof.
  assert (Hin : In inbox (value (detect_text_easyocr sample_env 1)))
    by (left; reflexivity).
  split; [exact Hin|].
  destruct (detect_text_easyocr_boxes sample_env 1 inbox Hin) as (Hx & Hy & _).
  split; assumption.
Defined.

(** The quotient is the double, not the rational: [7 / 100.0] is the
    double [0.07], which is above 7/100, and a row of confidence 7 is kept
    at the threshold [0.07]; an integer beyond the doubles raises. *)
Example tess_confidence_rounds :
  tess_confidence 7 = Some (Qmake 5044031582654956 72057594037927936) /\
  (Qmake 7 100 < Qmake 5044031582654956 72057594037927936)%Q /\
  (forall d, tess_confidence 7 = Some (d_confidence d) ->
     confident (Qmake 5044031582654956 72057594037927936) d = true) /\
  tess_confidence 90 = Some (d_confidence tab_word) /\
  tess_confidence 0 = Some 0%Q /\
  tess_confidence (2 ^ 1024) = None.
Proof.
  split; [vm_compute; reflexivity|]. split; [reflexivity|].
  split; [|split; [vm_compute; reflexivity|split; vm_compute; reflexivity]].
  intros d Hd. assert (E : Some (d_confidence d)
                           = Some (Qmake 5044031582654956 72057594037927936)).
  { rewrite <- Hd. vm_compute. reflexivity. }
  injection E as E. unfold confident. rewrite E. reflexivity.
Qed.

Lemma detect_text_tesseract_rows_sample :
  In tab_word (value (detect_text_tesseract (tesseract_only_env sample_env) 1)) /\
  exists (i : nat) (raw : string) (conf : Z) (confidence : Q),
    t_text one_word !! i = Some raw /\ t_conf one_word !! i = Some conf /\
    Py.strip raw <> "" /\ 0 < conf /\
    tess_confidence conf = Some confidence /\ d_confidence tab_word = confidence.
Proof.
  assert (Hin : In tab_word
                  (value (detect_text_tesseract (tesseract_only_env sample_env) 1)))
    by (left; vm_compute; reflexivity).
  split; [exact Hin|].
  destruct (detect_text_tesseract_rows (tesseract_only_env sample_env) 1 tab_word Hin)
    as (data & i & raw & conf & x & y & w & h & c & Hd & Ht & Hc & _ & _ & _ & _
        & Hs & Hp & Hq & He).
  injection Hd as <-. exists i, raw, conf, c.
  repeat split; try assumption. now injection He as _ _ _ _ _ <-.
Defined.

Lemma detect_text_engine_choice_sample :
  In (EvReadtext 1) (trace (detect_text sample_env 1)) /\
  easyocr_reader sample_env <> None /\
  (ocr_engine sample_env = "easyocr" \/ ocr_engine sample_env = "both").
Proof.
  assert (Hin : In (EvReadtext 1) (trace (detect_text sample_env 1)))
    by (left; reflexivity).
  split; [exact Hin|].
  exact (proj2 (proj1 (detect_text_engine_choice sample_env 1) 1 Hin)).
Defined.

Lemma detect_ui_elements_area_sample :
  In sample_button (detect_ui_elements sample_cv2 1) /\ 100 <= v_area sample_button /\
  length (detect_ui_elements sample_cv2 1) = 3%nat.
Proof.
  assert (Hin : In sample_button (detect_ui_elements sample_cv2 1))
    by (left; reflexivity).
  split; [exact Hin|].
  split; [exact (proj1 (proj1 (detect_ui_elements_area sample_cv2 1) sample_button Hin))|].
  reflexivity.
Defined.

Lemma detect_ui_elements_types_sample :
  In sample_button (detect_ui_elements sample_cv2 1) /\
  v_type sample_button = button /\
  0 < by2 (v_bbox sample_button) - by1 (v_bbox sample_button) < 50.
Proof.
  assert (Hin : In sample_button (detect_ui_elements sample_cv2 1))
    by (left; reflexivity).
  split; [exact Hin|]. split; [reflexivity|].
  exact (proj1 (proj1 (detect_ui_elements_types sample_cv2 1 sample_button Hin) eq_refl)).
Defined.

Lemma find_window_first_sample :
  value (find_window sample_env "DOCS") = Some 102 /\
  exists before after,
    enum_windows sample_env = before ++ 102 :: after /\
    forall h, In h before -> title_matches sample_env (Py.lower "DOCS") h = false.
Proof.
  split; [reflexivity|].
  destruct (proj1 (find_window_first sample_env "DOCS") 102 eq_refl)
    as (before & after & He & _ & _ & Hb).
  exists before, after. auto.
Defined.

Lemma find_window_empty_sample :
  value (find_window sample_env "")
  = head (List.filter (fun hwnd => w_visible (os_window sample_env hwnd))
                      (enum_windows sample_env)).
Proof. exact (find_window_empty sample_env). Defined.

Lemma capture_window_grabs_sample :
  In (EvGrab (100, 50, 1200, 800)) (trace (capture_window sample_env 102)) /\
  exists l t r b,
    w_rect (os_window sample_env 102) = Some (l, t, r, b) /\ 0 < r - l /\ 0 < b - t.
Proof.
  assert (Hin : In (EvGrab (100, 50, 1200, 800)) (trace (capture_window sample_env 102)))
    by (right; left; reflexivity).
  split; [exact Hin|].
  destruct (proj1 (capture_window_grabs sample_env 102) _ Hin)
    as (l & t & r & b & Hr & _ & Hw & Hh & _).
  exists l, t, r, b. auto.
Defined.

Lemma get_all_windows_handles_sample :
  map c_hwnd (value (get_all_windows ghost_env))
  = List.filter (readable ghost_env) (enum_windows ghost_env) /\
  map c_hwnd (value (get_all_windows ghost_env)) = [101; 102].
Proof.
  split; [exact (proj1 (get_all_windows_handles ghost_env))|reflexivity].
Defined.

Lemma get_ui_tree_depth_sample :
  length (value (get_ui_tree sample_env 102 1)) = 2%nat /\
  forall u, In u (value (get_ui_tree sample_env 102 1)) -> 0 <= u_depth u <= 1.
Proof.
  split; [reflexivity|].
  intros u Hin. exact (proj1 (proj1 (get_ui_tree_depth sample_env 102 1) u Hin)).
Defined.

Lemma get_browser_tabs_names_sample :
  value (get_browser_tabs tabbed_env 102 (Some 1)) = ["Inbox - Mail"; "Docs home"] /\
  NoDup (value (get_browser_tabs tabbed_env 102 (Some 1))).
Proof.
  split; [reflexivity|].
  exact (proj1 (get_browser_tabs_names tabbed_env 102 (Some 1))).
Defined.

Lemma extract_tabs_bounds_sample :
  (length (value (_extract_tabs_with_ocr stop_env 102 1%Z true)) <= 15)%nat /\
  forall tab, In tab (value (_extract_tabs_with_ocr stop_env 102 1 true)) ->
    tab <> "" /\ 2 < Py.len tab < 60.
Proof. exact (extract_tabs_bounds stop_env 102 1 true). Defined.

Lemma extract_tabs_stage_b_filter_sample :
  value (stage_b sample_env 102 1 true) = Some (1200, ["Inbox"; "Docs"]) /\
  forall t, In t (value (_extract_tabs_with_ocr sample_env 102 1 true)) ->
    ~ In t stop_list /\
    Py.startswith t "http" = false /\ Py.startswith t "www" = false.
Proof.
  split; [reflexivity|].
  exact (extract_tabs_stage_b_filter sample_env 102 1 true 1200 "Inbox" ["Docs"] eq_refl).
Defined.

Lemma analyze_window_raises_sample :
  value (analyze_window sentinel_env 0 "docs" false true false)
  = Raised "UnboundLocalError" /\
  exists hwnd, value (find_window sentinel_env "docs") = Some hwnd /\
               value (uia_tabs sentinel_env hwnd) = USE_OCR.
Proof.
  assert (H : value (analyze_window sentinel_env 0 "docs" false true false)
              = Raised "UnboundLocalError") by (vm_compute; reflexivity).
  split; [exact H|].
  destruct (analyze_window_raises sentinel_env 0 "docs" false true false _ H)
    as (_ & _ & hwnd & Hf & _ & Hu).
  exists hwnd. auto.
Defined.

Lemma analyze_window_keys_sample :
  exists r : gmap string (Value Z),
    value (analyze_window sample_env 0 "docs" true true false) = Returned r /\
    r !! "screenshot" = Some (VImage 1) /\
    r !! "screenshot_error" = None /\
    r !! "extracted_text" = Some (VStr "Inbox Inbox Docs").
Proof.
  destruct (analyze_window_capture_returns sample_env 0 "docs" true false) as [r Hr].
  assert (Hz : 102 <> 0) by discriminate.
  pose proof (analyze_window_keys sample_env 0 "docs" true true false 102 r
                eq_refl Hz Hr) as (_ & _ & _ & Hk).
  change (value (capture_window sample_env 102)) with (Some 1) in Hk.
  cbv iota in Hk. destruct Hk as (Hs & _ & He & _ & Hx).
  exists r. repeat split; assumption.
Defined.

Lemma analyze_window_tree_tabs_sample :
  value (find_window tabbed_env "docs") = Some 102 /\
  (exists r, value (analyze_window tabbed_env 0 "docs" true true false) = Returned r /\
             r !! "browser_tabs" = Some (VStrs ["Inbox - Mail"; "Docs home"])) /\
  forall img box,
    ~ In (EvCrop img box) (trace (analyze_window tabbed_env 0 "docs" true true false)).
Proof.
  assert (Hz : 102 <> 0) by discriminate.
  split; [reflexivity|].
  exact (analyze_window_tree_tabs tabbed_env 0 "docs" true true false 102
           eq_refl Hz ltac:(discriminate) ltac:(discriminate)).
Defined.

Lemma get_window_summary_key_error_sample :
  value (find_window ghost_env "ghost") = Some 103 /\
  value (get_window_info ghost_env 103) = inl "Invalid window handle" /\
  value (get_window_summary ghost_env 0 "ghost") = Raised "KeyError".
Proof.
  assert (Hz : 103 <> 0) by discriminate.
  split; [reflexivity|]. split; [reflexivity|].
  exact (get_window_summary_key_error ghost_env 0 "ghost" 103 _ eq_refl Hz eq_refl).
Defined.

Lemma get_window_summary_capture_failed_sample :
  value (capture_window blind_env 101) = None /\
  exists r, value (get_window_summary blind_env 0 "notepad") = Returned r /\
            r !! "visible_text" = Some (VStr "") /\
            r !! "window_name" = Some (VStr "Untitled - Notepad").
Proof.
  assert (Hz : 101 <> 0) by discriminate.
  split; [reflexivity|].
  destruct (get_window_summary_capture_failed blind_env 0 "notepad" 101 notepad_info
              eq_refl Hz eq_refl eq_refl) as (r & Hv & Hn & _ & Ht & _).
  exists r. auto.
Defined.

Lemma find_window_by_content_matches_sample :
  value (find_window_by_content sample_env "INBOX")
  = [(notepad_entry, "Docs Inbox"); (browser_entry, "Docs Inbox")] /\
  map fst (value (find_window_by_content sample_env "INBOX"))
    `sublist_of` value (get_all_windows sample_env).
Proof.
  split; [reflexivity|].
  exact (proj2 (find_window_by_content_matches sample_env "INBOX")).
Defined.

Lemma get_all_windows_summary_total_sample :
  value (get_all_windows_summary sample_env)
  = Returned [mkSummary "Untitled - Notepad" "notepad.exe" 101;
              mkSummary "Docs - Browser" "chrome.exe" 102].
Proof. exact (proj1 (get_all_windows_summary_total sample_env)). Defined.

Lemma list_all_windows_catalog_sample :
  length (value (list_all_windows ghost_env)) = 3%nat /\
  omap info_hwnd (value (list_all_windows ghost_env)) = [101; 102].
Proof.
  destruct (list_all_windows_catalog ghost_env) as [Hl Ho].
  split; [rewrite Hl; reflexivity|rewrite Ho; reflexivity].
Defined.

Lemma analyze_active_window_delegates_sample :
  value (get_window_info sample_env 102) = inr browser_info /\
  value (analyze_active_window sample_env (Some 102) 0 true true false)
  = value (analyze_window sample_env 0 "Docs - Browser" true true false).
Proof.
  split; [reflexivity|].
  exact (proj1 (analyze_active_window_delegates sample_env (Some 102) 0 true true false
                  102 browser_info eq_refl eq_refl ltac:(discriminate))).
Defined.

(** The window that [analyze_active_window] analyzes need not be the
    foreground window: with the browser in front, the title of the browser
    resolves to the settings window enumerated before it. *)
Example analyze_active_window_other :
  value (get_window_info shadow_env 102) = inr browser_info /\
  value (analyze_active_window shadow_env (Some 102) 0 true true false)
  = value (analyze_window shadow_env 0 "Docs - Browser" true true false) /\
  value (find_window shadow_env "Docs - Browser") = Some 104.
Proof. repeat split; vm_compute; reflexivity. Qed.

Lemma analyze_active_window_none_sample :
  value (analyze_active_window sample_env None 0 true true false)
  = Returned no_active_window.
Proof.
  apply (analyze_active_window_none sample_env None 0 true true false).
  intros hwnd info H. discriminate H.
Defined.
